(** * Claim matching engine of the OpenDental connector

    A shallow embedding of
    [src/extractors/opendental/claims_od_connector/claimsMatchingOpenDental.py]
    (class [ClaimMatcher] and its helpers), followed by the properties
    of the matching and scoring engine.

    Conventions of the embedding.
    - A Python [str] is a Rocq [string]; the character tests ([isdigit],
      [isspace], [lower]) are the ASCII ones.
    - A Python [float] that holds an amount of money is a binary64 value
      ([F64.t]), with the subtraction, the division and the comparisons
      of IEEE 754 rounded to nearest even.  A ratio of two list lengths
      or of two string lengths is an exact rational ([Q]), and its
      threshold test ([> 0.49], [>= 0.8], ...) the same test on
      rationals.
    - A [dict] whose keys the code reads with [.get] is a record with one
      optional field per key that is read.
    - The Python standard library ([datetime.strptime], the [re] engine)
      and the injected HTTP accessor ([make_request]) are members of the
      classes [PyLib] and [Remote]; an exception is the [Raise]
      constructor of [result]. *)

From Stdlib Require Import ZArith QArith Qabs Qminmax Lia List Bool Ascii String.
From Stdlib Require Import Sorting.Sorted Sorting.Permutation SpecFloat.
From stdpp Require Import base gmap sets list strings sorting.

Local Open Scope string_scope.
Local Open Scope Z_scope.

(** ** Python string primitives (ASCII) *)

Module Py.

Definition ascii_in (lo hi : nat) (c : ascii) : bool :=
  let n := nat_of_ascii c in (Nat.leb lo n) && (Nat.leb n hi).

(** [c.isdigit()] for an ASCII character. *)
Definition is_digit (c : ascii) : bool := ascii_in 48 57 c.

(** [c.isspace()]: tab, line feed, vertical tab, form feed, carriage
    return, the four separators 0x1c-0x1f and the space. *)
Definition is_space (c : ascii) : bool :=
  ascii_in 9 13 c || ascii_in 28 32 c.

Definition is_upper (c : ascii) : bool := ascii_in 65 90 c.

Definition lower_char (c : ascii) : ascii :=
  if is_upper c then ascii_of_nat (nat_of_ascii c + 32) else c.

Fixpoint all_chars (p : ascii -> bool) (s : string) : bool :=
  match s with
  | EmptyString => true
  | String c r => p c && all_chars p r
  end.

(** [s.isdigit()]: false on the empty string. *)
Definition isdigit (s : string) : bool :=
  match s with
  | EmptyString => false
  | _ => all_chars is_digit s
  end.

(** [bool(s)] of a string: non-empty. *)
Definition truthy (s : string) : bool :=
  match s with EmptyString => false | _ => true end.

(** [s.startswith(p)]. *)
Definition startswith (p s : string) : bool := String.prefix p s.

(** [s[1:]]. *)
Definition tail (s : string) : string :=
  match s with EmptyString => EmptyString | String _ r => r end.

(** [len(s)] as an integer. *)
Definition len (s : string) : Z := Z.of_nat (String.length s).

Fixpoint lower (s : string) : string :=
  match s with
  | EmptyString => EmptyString
  | String c r => String (lower_char c) (lower r)
  end.

Fixpoint lstrip (s : string) : string :=
  match s with
  | String c r => if is_space c then lstrip r else s
  | EmptyString => EmptyString
  end.

Fixpoint rstrip (s : string) : string :=
  match s with
  | EmptyString => EmptyString
  | String c r =>
      match rstrip r with
      | EmptyString => if is_space c then EmptyString else String c EmptyString
      | r' => String c r'
      end
  end.

(** [s.strip()]. *)
Definition strip (s : string) : string := rstrip (lstrip s).

End Py.

(** ** Procedure codes *)

(** The [while len(digits) > 4 and digits[0] == '0'] loop of
    [normalize_procedure_code]. *)
Fixpoint strip_leading_zeros (digits : string) : string :=
  match digits with
  | String c rest =>
      if (4 <? Py.len digits) && Ascii.eqb c "0"%char
      then strip_leading_zeros rest
      else digits
  | EmptyString => digits
  end.

(** [ClaimMatcher.normalize_procedure_code] on a string argument. *)
Definition normalize_procedure_code (code : string) : string :=
  if negb (Py.truthy code) then code
  else if Py.startswith "D" code && (5 <? Py.len code) && Py.isdigit (Py.tail code) then
    let digits := Py.tail code in
    let digits := if 4 <? Py.len digits then strip_leading_zeros digits else digits in
    "D" +:+ digits
  else if negb (Py.startswith "D" code) && Py.isdigit code then
    "D" +:+ code
  else code.

(** The same function on an argument that may be [None]
    ([proc.get('CodeSent')]): [None] is returned unchanged. *)
Definition normalize_procedure_code_opt (code : option string) : option string :=
  match code with
  | None => None
  | Some c => Some (normalize_procedure_code c)
  end.

(** *** Rational helpers

    Ratios of counts are exact rationals. *)

Definition Qleb (a b : Q) : bool := Qle_bool a b.
Definition Qltb (a b : Q) : bool := negb (Qle_bool b a).

#[global] Instance Qle_dec (a b : Q) : Decision (Qle a b) := Z.le_dec _ _.

(** [count / total] as Python's true division of two machine integers. *)
Definition ratio (count total : nat) : Q :=
  (inject_Z (Z.of_nat count) / inject_Z (Z.of_nat total))%Q.

(** *** Binary64

    The [float] of Python: the values are those of [spec_float] that
    are valid for a precision of 53 bits and a largest exponent of 1024,
    and the operations those of [SpecFloat], which round to nearest
    even. *)

Module F64.

Definition t : Type := spec_float.

Definition zero : t := S754_zero false.

(** [float(z)] for an integer of at most 53 bits, which is exact. *)
Definition of_Z (z : Z) : t := binary_normalize 53 1024 z 0 false.

Definition sub : t -> t -> t := SFsub 53 1024.
Definition div : t -> t -> t := SFdiv 53 1024.
Definition abs : t -> t := SFabs.
Definition ltb : t -> t -> bool := SFltb.
Definition leb : t -> t -> bool := SFleb.
Definition eqb : t -> t -> bool := SFeqb.

(** The decimal constant [n/d] of a program text, for [n] and [d] of at
    most 53 bits: the binary64 value nearest to the quotient, as the
    correctly rounded division gives it ([decimal 2 100] is [0.02]). *)
Definition decimal (n d : Z) : t := div (of_Z n) (of_Z d).

(** An amount of money given in cents: [float] of its decimal
    notation. *)
Definition cents (c : Z) : t := decimal c 100.

Definition one : t := of_Z 1.

(** [bool(x)]: a number other than zero; a NaN is true. *)
Definition truthy (x : t) : bool := negb (eqb x zero).

(** [max(a, b)]: the second argument when it is greater, else the
    first. *)
Definition max (a b : t) : t := if ltb a b then b else a.

(** [0 < x]. *)
Definition positive (x : t) : Prop := ltb zero x = true.

(** [x <= y] as a relation. *)
Definition le (x y : t) : Prop := leb x y = true.

End F64.

#[global] Instance F64_positive_dec (x : F64.t) : Decision (F64.positive x).
Proof. unfold F64.positive. apply _. Defined.

#[global] Instance F64_le_dec (x y : F64.t) : Decision (F64.le x y).
Proof. unfold F64.le. apply _. Defined.

(** The result dictionary of [_match_procedure_codes]. *)
Record ProcMatchDetails := {
  match_percentage : Q;
  matched_codes : list string
}.

(** [ClaimMatcher._match_procedure_codes].  [set(...)] is a [gset string];
    [matched_codes] lists the payment codes in the order of
    [elements]. *)
Definition _match_procedure_codes (payment_codes db_codes : list string)
  : ProcMatchDetails :=
  match payment_codes, db_codes with
  | [], _ | _, [] => {| match_percentage := 0; matched_codes := [] |}
  | payment_unique_code :: _, db_unique_code :: _ =>
      if bool_decide (size (list_to_set payment_codes : gset string) = 1%nat)
         && bool_decide (size (list_to_set db_codes : gset string) = 1%nat)
         && String.eqb (normalize_procedure_code payment_unique_code)
                       (normalize_procedure_code db_unique_code)
      then {| match_percentage := 1; matched_codes := [payment_unique_code] |}
      else
        let payment_code_set : gset string := list_to_set payment_codes in
        let db_code_set : gset string := list_to_set db_codes in
        let normalized_payment_codes : gset string :=
          set_map normalize_procedure_code payment_code_set in
        let normalized_db_codes : gset string :=
          set_map normalize_procedure_code db_code_set in
        let matching_normalized_codes := normalized_payment_codes ∩ normalized_db_codes in
        let matched :=
          List.filter
            (fun pcode => bool_decide (normalize_procedure_code pcode ∈ matching_normalized_codes))
            (elements payment_code_set) in
        let match_count := size matching_normalized_codes in
        {| match_percentage :=
             if bool_decide (size normalized_payment_codes = 0%nat) then 0
             else ratio match_count (size normalized_payment_codes);
           matched_codes := matched |}
  end.

(** ** Data model *)

(** A calendar date, the value of [datetime.strptime(...).date()]. *)
Record date := { year : Z; month : Z; day : Z }.

#[global] Instance date_eq_dec : EqDecision date.
Proof. solve_decision. Defined.

(** [ProcedurePayment]. *)
Record ProcedurePayment := {
  proc_code : string;
  submitted_amt : F64.t;
  amount_paid : F64.t;
  remarks : string;
  deductible : F64.t;
  writeoff : F64.t;
  markAsNotReceived : bool
}.

(** [PaymentInfo]; the check fields are not read by the matcher. *)
Record PaymentInfo := {
  procedures : list ProcedurePayment;
  check_number : option string;
  carrier_name : option string
}.

(** [SearchCriteria].  A name that is [None] behaves as the empty string
    in every test of the source. *)
Record SearchCriteria := {
  date_of_service : string;
  patient_first_name : string;
  patient_last_name : string;
  subscriber_first_name : string;
  subscriber_last_name : string;
  payment_info : PaymentInfo
}.

(** A procedure line as a dictionary: the keys that the matcher reads,
    in the spelling of the cache ([proc_code], [code], [fee_billed],
    [claim_proc_num]) and of the API ([CodeSent], [FeeBilled],
    [ClaimProcNum]). *)
Record ProcDict := {
  pd_proc_code : option string;
  pd_code : option string;
  pd_CodeSent : option string;
  pd_fee_billed : option F64.t;
  pd_FeeBilled : option F64.t;
  pd_claim_proc_num : option Z;
  pd_ClaimProcNum : option Z
}.

(** A procedure line of a [ClaimMatch]. *)
Record MatchProc := {
  mp_CodeSent : option string;
  mp_FeeBilled : F64.t;
  mp_ClaimProcNum : Z
}.

(** [ClaimMatch].  The fields copied unchanged from the claim record
    ([date_sent], [date_received], [claim_note], [isOrtho],
    [ortho_details], [carrier_name]) are left out. *)
Record ClaimMatch := {
  claim_num : Z;
  pat_num : Z;
  claim_fee : F64.t;
  cm_date_of_service : string;
  is_secondary : bool;
  has_secondary_plan : bool;
  has_pending_secondary : bool;
  match_score : option Z;
  match_source : option string;
  claim_procs : list MatchProc;
  is_supplemental : bool;
  claim_status : option string
}.

(** [m['has_pending_secondary'] = True]. *)
Definition set_has_pending_secondary (m : ClaimMatch) : ClaimMatch :=
  {| claim_num := claim_num m; pat_num := pat_num m; claim_fee := claim_fee m;
     cm_date_of_service := cm_date_of_service m;
     is_secondary := is_secondary m;
     has_secondary_plan := has_secondary_plan m;
     has_pending_secondary := true;
     match_score := match_score m; match_source := match_source m;
     claim_procs := claim_procs m; is_supplemental := is_supplemental m;
     claim_status := claim_status m |}.

(** *** Python's [or] on optional values *)

Definition str_truthy (o : option string) : bool :=
  match o with Some s => Py.truthy s | None => false end.

Definition Z_truthy (o : option Z) : bool :=
  match o with Some z => negb (z =? 0) | None => false end.

Definition F_truthy (o : option F64.t) : bool :=
  match o with Some x => F64.truthy x | None => false end.

(** [a or b]: the first operand when it is truthy, else the second. *)
Definition or_str (a b : option string) : option string :=
  if str_truthy a then a else b.
Definition or_Z (a b : option Z) : option Z :=
  if Z_truthy a then a else b.

(** [a or b or 0] on numbers. *)
Definition or_F_0 (a b : option F64.t) : F64.t :=
  if F_truthy a then default F64.zero a
  else if F_truthy b then default F64.zero b
  else F64.zero.

(** ** Override rules *)

(** One pair of the comparison loop of
    [_has_strong_non_procedure_match_with_fees]. *)
Definition fee_pair_matches (pms_fee eob_fee : F64.t) : bool :=
  let fee_diff := F64.abs (F64.sub pms_fee eob_fee) in
  let fee_ratio :=
    if F64.ltb F64.zero (F64.max pms_fee eob_fee)
    then F64.div fee_diff (F64.max pms_fee eob_fee)
    else F64.zero in
  F64.leb fee_diff F64.one || F64.leb fee_ratio (F64.decimal 2 100).

(** [pms_fees]: the billed fee of every line whose fee is positive. *)
Definition pms_fees_of (claim_procedures : list ProcDict) : list F64.t :=
  List.filter (fun fee => F64.truthy fee && F64.ltb F64.zero fee)
    (List.map (fun proc => or_F_0 (pd_fee_billed proc) (pd_FeeBilled proc))
       claim_procedures).

(** [eob_fees]: the positive submitted amounts. *)
Definition eob_fees_of (eob_procedures : list ProcedurePayment) : list F64.t :=
  List.filter (fun a => F64.ltb F64.zero a) (List.map submitted_amt eob_procedures).

(** [sorted(fees)], a stable sort by [<]: each fee goes before the fees
    of the sorted rest that are not smaller.  The two lists that the
    source sorts hold positive fees only, which [<] orders totally. *)
Fixpoint insert_fee (fee : F64.t) (sorted_rest : list F64.t) : list F64.t :=
  match sorted_rest with
  | [] => [fee]
  | y :: r => if F64.ltb y fee then y :: insert_fee fee r else fee :: sorted_rest
  end.

Definition sorted_fees (fees : list F64.t) : list F64.t :=
  foldr insert_fee [] fees.

Definition is_nil {A} (l : list A) : bool :=
  match l with [] => true | _ => false end.

(** [ClaimMatcher._has_strong_non_procedure_match_with_fees]. *)
Definition _has_strong_non_procedure_match_with_fees
    (claim_date_obj target_date_obj : date) (name_score : Z)
    (claim_procedures : list ProcDict)
    (eob_procedures : list ProcedurePayment) : bool :=
  if negb (bool_decide (claim_date_obj = target_date_obj)) then false
  else if name_score <? 25 then false
  else if is_nil claim_procedures || is_nil eob_procedures then false
  else
    let pms_fees := pms_fees_of claim_procedures in
    let eob_fees := eob_fees_of eob_procedures in
    if is_nil pms_fees || is_nil eob_fees then false
    else
      let pms_fees_sorted := sorted_fees pms_fees in
      let eob_fees_sorted := sorted_fees eob_fees in
      if negb (Nat.eqb (List.length pms_fees_sorted) (List.length eob_fees_sorted))
      then false
      else
        let fee_matches :=
          List.length
            (List.filter (fun pe => fee_pair_matches (fst pe) (snd pe))
               (List.combine pms_fees_sorted eob_fees_sorted)) in
        let total_fees := List.length pms_fees_sorted in
        let fee_match_percentage := ratio fee_matches total_fees in
        Qleb (8 # 10) fee_match_percentage.

(** [ClaimMatcher._has_procedure_count_match]. *)
Definition _has_procedure_count_match
    (claim_date_obj target_date_obj : date) (name_score : Z)
    (claim_procedures : list ProcDict)
    (eob_procedures : list ProcedurePayment) : bool :=
  if negb (bool_decide (claim_date_obj = target_date_obj)) then false
  else if name_score <? 20 then false
  else
    let claim_proc_count := List.length claim_procedures in
    let eob_proc_count := List.length eob_procedures in
    if Nat.eqb claim_proc_count 0 && Nat.eqb eob_proc_count 0 then true
    else if Nat.eqb claim_proc_count eob_proc_count && Nat.ltb 0 claim_proc_count
    then true
    else false.

(** ** Nicknames ([NicknameMapper]) *)

(** [NicknameMapper.NICKNAME_GROUPS], each set written as the list of its
    members. *)
Definition NICKNAME_GROUPS : list (list string) :=
  [
    ["william"; "will"; "bill"; "billy"; "willy"; "liam"];
    ["robert"; "rob"; "bob"; "bobby"; "robbie"; "bert"];
    ["richard"; "rich"; "rick"; "ricky"; "dick"; "richie"];
    ["michael"; "mike"; "mikey"; "mick"; "mickey"; "miguel"];
    ["james"; "jim"; "jimmy"; "jamie"; "jimbo"];
    ["john"; "johnny"; "jack"; "jackie"; "jon"];
    ["joseph"; "joe"; "joey"; "jose"];
    ["thomas"; "tom"; "tommy"; "thom"];
    ["charles"; "charlie"; "chuck"; "chas"; "chaz"];
    ["christopher"; "chris"; "kit"; "topher"];
    ["matthew"; "matt"; "matty"];
    ["anthony"; "tony"; "ant"];
    ["daniel"; "dan"; "danny"];
    ["david"; "dave"; "davey"];
    ["kenneth"; "ken"; "kenny"];
    ["stephen"; "steve"; "steven"; "stevie"];
    ["andrew"; "andy"; "drew"];
    ["edward"; "ed"; "eddie"; "ted"; "teddy"; "ned"];
    ["lawrence"; "larry"; "lars"];
    ["samuel"; "sam"; "sammy"];
    ["benjamin"; "ben"; "benny"; "benji"];
    ["alexander"; "alex"; "al"; "xander"; "lex"];
    ["nicholas"; "nick"; "nicky"; "nico"];
    ["elizabeth"; "liz"; "lizzie"; "beth"; "betty"; "betsy"; "eliza"; "lisa"];
    ["margaret"; "maggie"; "meg"; "peggy"; "marge"; "margie"; "greta"];
    ["katherine"; "kate"; "katie"; "kathy"; "kat"; "kitty"; "catherine"; "cathy"];
    ["patricia"; "pat"; "patty"; "patsy"; "trish"; "tricia"];
    ["jennifer"; "jen"; "jenny"];
    ["jessica"; "jess"; "jessie"];
    ["deborah"; "deb"; "debbie"; "debby"];
    ["susan"; "sue"; "susie"; "suzy"];
    ["dorothy"; "dot"; "dottie"; "dolly"];
    ["barbara"; "barb"; "barbie"; "babs"];
    ["rebecca"; "becca"; "becky"];
    ["christine"; "chris"; "chrissy"; "tina"];
    ["victoria"; "vicky"; "vic"; "tori"];
    ["alexandra"; "alex"; "lexi"; "lexie"; "sandra"; "sandy"];
    ["stephanie"; "steph"; "stephie"];
    ["michelle"; "shelly"; "michi"];
    ["kimberly"; "kim"; "kimmy"];
    ["abigail"; "abby"; "gail"];
    ["amanda"; "mandy"; "manda"];
    ["angela"; "angie"; "angel"];
    ["francisco"; "frank"; "pancho"; "paco"; "cisco"];
    ["guadalupe"; "lupe"; "lupita"];
    ["jose"; "pepe"; "joe"];
    ["ignacio"; "nacho"];
    ["rafael"; "rafa"];
    ["enrique"; "henry"; "quique"];
    ["guillermo"; "william"; "memo"];
    ["alejandro"; "alex"; "alejo"];
    ["roberto"; "robert"; "beto"];
    ["gerald"; "gerry"; "jerry"];
    ["raymond"; "ray"];
    ["ronald"; "ron"; "ronnie"];
    ["donald"; "don"; "donnie"];
    ["harold"; "harry"; "hal"];
    ["francis"; "frank"; "fran"];
    ["eugene"; "gene"];
    ["phillip"; "phil"; "philip"];
    ["timothy"; "tim"; "timmy"];
    ["gregory"; "greg"; "gregg"]
  ].

(** [NicknameMapper._build_lookup_tables]: the dictionary from a name to
    the index of its group; a name that occurs in several groups keeps
    the index that was written last. *)
Definition _nickname_to_group : gmap string nat :=
  foldl
    (fun tbl (entry : nat * list string) =>
       foldl (fun tbl name => <[Py.lower name := fst entry]> tbl) tbl (snd entry))
    ∅
    (imap (fun idx name_group => (idx, name_group)) NICKNAME_GROUPS).

(** [NicknameMapper.get_name_variations]. *)
Definition get_name_variations (name : string) : gset string :=
  let name_lower := Py.strip (Py.lower name) in
  let variations : gset string := {[ name_lower ]} in
  match _nickname_to_group !! name_lower with
  | Some group_idx =>
      variations ∪ list_to_set (default [] (NICKNAME_GROUPS !! group_idx))
  | None => variations
  end.

(** [NicknameMapper.are_names_related]. *)
Definition are_names_related (name1 name2 : string) : bool :=
  let name1_lower := Py.strip (Py.lower name1) in
  let name2_lower := Py.strip (Py.lower name2) in
  if negb (Py.truthy name1_lower) || negb (Py.truthy name2_lower) then false
  else bool_decide (get_name_variations name1_lower ∩ get_name_variations name2_lower ≠ ∅).

(** ** Name similarity *)

Fixpoint lev_row (c1 : ascii) (s2 : list ascii) (previous_row : list Z) (left : Z)
  : list Z :=
  match s2, previous_row with
  | c2 :: s2', pj :: ((pj1 :: _) as previous_row') =>
      let insertions := pj1 + 1 in
      let deletions := left + 1 in
      let substitutions := pj + (if Ascii.eqb c1 c2 then 0 else 1) in
      let v := Z.min (Z.min insertions deletions) substitutions in
      v :: lev_row c1 s2' previous_row' v
  | _, _ => []
  end.

Fixpoint lev_rows (s1 s2 : list ascii) (i : Z) (previous_row : list Z) : list Z :=
  match s1 with
  | [] => previous_row
  | c1 :: s1' =>
      let current_row := (i + 1) :: lev_row c1 s2 previous_row (i + 1) in
      lev_rows s1' s2 (i + 1) current_row
  end.

(** [ClaimMatcher.levenshtein_distance]: the row by row dynamic
    programme, the longer string outside. *)
Definition levenshtein_distance (s1 s2 : string) : Z :=
  let '(s1, s2) :=
    if (String.length s1 <? String.length s2)%nat then (s2, s1) else (s1, s2) in
  if (String.length s2 =? 0)%nat then Py.len s1
  else
    let previous_row := List.map Z.of_nat (seq 0 (String.length s2 + 1)) in
    List.last
      (lev_rows (list_ascii_of_string s1) (list_ascii_of_string s2) 0 previous_row) 0.

Definition push_token (cur : string) (acc : list string) : list string :=
  if Py.truthy cur then cur :: acc else acc.

Fixpoint split_go (sep : ascii -> bool) (s : string) : string * list string :=
  match s with
  | EmptyString => (EmptyString, [])
  | String c r =>
      let '(cur, acc) := split_go sep r in
      if sep c then (EmptyString, push_token cur acc) else (String c cur, acc)
  end.

(** [[t for t in re.split(r'[class]+', s) if t]]: the maximal runs of
    characters outside the class. *)
Definition split_tokens (sep : ascii -> bool) (s : string) : list string :=
  let '(cur, acc) := split_go sep s in push_token cur acc.

Definition char_is (a : string) (c : ascii) : bool :=
  existsb (Ascii.eqb c) (list_ascii_of_string a).

(** The class [[\s\-\'\.]] of [normalize_name_for_matching]. *)
Definition sep_space_hyphen_apos_dot (c : ascii) : bool :=
  Py.is_space c || char_is "-'." c.

(** The class [[\s\'\-]] that splits a last name in parts. *)
Definition sep_space_hyphen_apos (c : ascii) : bool :=
  Py.is_space c || char_is "-'" c.

(** [s.replace(old, new)] for [old] of one character. *)
Fixpoint replace1 (old : ascii) (new : string) (s : string) : string :=
  match s with
  | EmptyString => EmptyString
  | String c r =>
      if Ascii.eqb c old then new +:+ replace1 old new r
      else String c (replace1 old new r)
  end.

(** [s.replace(old, new)] for [old] of two characters: the occurrences
    are taken from the left and do not overlap. *)
Fixpoint replace2 (o1 o2 : ascii) (new : string) (s : string) : string :=
  match s with
  | String a (String b r as t) =>
      if Ascii.eqb a o1 && Ascii.eqb b o2 then new +:+ replace2 o1 o2 new r
      else String a (replace2 o1 o2 new t)
  | _ => s
  end.

(** The [ocr_fixes] of [normalize_name_for_matching], applied in the
    order of the dictionary.  The two ligature entries rewrite characters
    outside ASCII and never apply to the strings of this model. *)
Definition apply_ocr_fixes (part : string) : string :=
  let p := replace1 "0" "o" part in
  let p := replace1 "1" "l" p in
  let p := replace1 "5" "s" p in
  let p := replace1 "8" "b" p in
  let p := replace2 "r" "n" "m" p in
  let p := replace2 "c" "l" "d" p in
  let p := replace2 "v" "v" "w" p in
  let p := replace2 "i" "i" "n" p in
  let p := replace2 "o" "e" "ce" p in
  let p := replace2 "a" "e" "a" p in
  let p := replace1 "." "" p in
  let p := replace1 "_" "" p in
  let p := replace1 "|" "l" p in
  let p := replace1 "\" "" p in
  replace1 "/" "" p.

(** [re.sub(r'(.)\1+', r'\1', s)]: every run of one character becomes a
    single character. *)
Fixpoint dedupe_runs (s : string) : string :=
  match s with
  | String a (String b _ as t) =>
      if Ascii.eqb a b then dedupe_runs t else String a (dedupe_runs t)
  | _ => s
  end.

Definition prefixes_to_remove : list string :=
  ["dr."; "dr"; "mr."; "mr"; "mrs."; "mrs"; "ms."; "ms"; "miss"].
Definition suffixes_to_remove : list string :=
  ["jr."; "jr"; "sr."; "sr"; "ii"; "iii"; "iv"].

Definition str_in (s : string) (l : list string) : bool := existsb (String.eqb s) l.

(** [ClaimMatcher.normalize_name_for_matching]. *)
Definition normalize_name_for_matching (name : string) : string :=
  if negb (Py.truthy name) || negb (Py.truthy (Py.strip name)) then ""
  else
    let normalized := Py.lower (Py.strip name) in
    let parts := split_tokens sep_space_hyphen_apos_dot normalized in
    if is_nil parts then ""
    else
      let cleaned_parts :=
        List.filter
          (fun part => negb (str_in part prefixes_to_remove)
                       && negb (str_in part suffixes_to_remove)) parts in
      let cleaned_parts := if is_nil cleaned_parts then parts else cleaned_parts in
      let result_parts :=
        List.map
          (fun part =>
             let fixed_part := apply_ocr_fixes part in
             if 2 <? Py.len fixed_part then
               let dedupe_part := dedupe_runs fixed_part in
               if 2 <=? Py.len dedupe_part then dedupe_part else fixed_part
             else fixed_part)
          cleaned_parts in
      String.concat " " result_parts.

(** [shorter in longer]. *)
Fixpoint contains (sub s : string) : bool :=
  String.prefix sub s
  || match s with
     | EmptyString => false
     | String _ r => contains sub r
     end.

(** [s.endswith(suffix)]. *)
Definition endswith (suffix s : string) : bool :=
  (String.length suffix <=? String.length s)%nat
  && String.eqb suffix
       (substring (String.length s - String.length suffix) (String.length suffix) s).

Fixpoint soundex_go (name : list ascii) (last : ascii) (rev_result : list ascii)
  : list ascii :=
  match name with
  | [] => rev_result
  | char :: rest =>
      if negb (char_is "aeiou" char) && negb (Ascii.eqb char last)
      then soundex_go rest char (char :: rev_result)
      else soundex_go rest last rev_result
  end.

(** The local function [simple_soundex] of [calculate_enhanced_similarity]. *)
Definition simple_soundex (name : string) : string :=
  match list_ascii_of_string name with
  | [] => ""
  | c :: rest =>
      let result := List.rev (soundex_go rest c [c]) in
      let result := firstn 4 result in
      string_of_list_ascii (result ++ List.repeat "0"%char (4 - List.length result))
  end.

(** The result dictionary of [calculate_enhanced_similarity]. *)
Record Similarity := {
  similarity : Q;
  match_type : string;
  score : Z
}.

(** [ClaimMatcher.calculate_enhanced_similarity]. *)
Definition calculate_enhanced_similarity (name1 name2 : string) : Similarity :=
  if negb (Py.truthy name1) || negb (Py.truthy name2)
  then {| similarity := 0; match_type := "no_data"; score := 0 |}
  else
    let norm1 := normalize_name_for_matching name1 in
    let norm2 := normalize_name_for_matching name2 in
    if negb (Py.truthy norm1) || negb (Py.truthy norm2)
    then {| similarity := 0; match_type := "empty_after_norm"; score := 0 |}
    else if String.eqb norm1 norm2
    then {| similarity := 1; match_type := "exact_normalized"; score := 15 |}
    else
      let shorter := if Py.len norm1 <? Py.len norm2 then norm1 else norm2 in
      let longer := if Py.len norm1 <? Py.len norm2 then norm2 else norm1 in
      if (2 <=? Py.len shorter) && contains shorter longer then
        if Py.startswith shorter longer
        then {| similarity := 95 # 100; match_type := "prefix_truncation"; score := 12 |}
        else if endswith shorter longer
        then {| similarity := 95 # 100; match_type := "suffix_truncation"; score := 12 |}
        else {| similarity := 85 # 100; match_type := "substring_truncation"; score := 10 |}
      else
        let distance := levenshtein_distance norm1 norm2 in
        let max_len := Z.max (Py.len norm1) (Py.len norm2) in
        let levenshtein_similarity :=
          if 0 <? max_len then (1 - inject_Z distance / inject_Z max_len)%Q else 0%Q in
        let chars1 : gset ascii := list_to_set (list_ascii_of_string norm1) in
        let chars2 : gset ascii := list_to_set (list_ascii_of_string norm2) in
        let char_overlap :=
          if bool_decide (chars1 ∪ chars2 ≠ ∅)
          then ratio (size (chars1 ∩ chars2)) (size (chars1 ∪ chars2)) else 0%Q in
        let phonetic_match := String.eqb (simple_soundex norm1) (simple_soundex norm2) in
        if Qleb (9 # 10) levenshtein_similarity
        then {| similarity := levenshtein_similarity; match_type := "high_similarity"; score := 12 |}
        else if Qleb (8 # 10) levenshtein_similarity
        then {| similarity := levenshtein_similarity; match_type := "good_similarity"; score := 10 |}
        else if Qleb (7 # 10) levenshtein_similarity
        then {| similarity := levenshtein_similarity; match_type := "fair_similarity"; score := 8 |}
        else if Qleb (6 # 10) levenshtein_similarity
        then {| similarity := levenshtein_similarity; match_type := "weak_similarity"; score := 5 |}
        else if phonetic_match && Qltb (5 # 10) char_overlap
        then {| similarity := 6 # 10; match_type := "phonetic_match"; score := 6 |}
        else if Qltb (7 # 10) char_overlap
        then {| similarity := char_overlap; match_type := "character_overlap"; score := 4 |}
        else {| similarity := levenshtein_similarity; match_type := "poor_match"; score := 0 |}.


(** ** Collaborators *)

(** The two services of the Python library that the matcher calls.
    - [strptime_date s] is [datetime.strptime(s, '%Y-%m-%d').date()];
      [None] stands for the [ValueError] of a string that is not a date.
    - [fn_regex_search query name] is the search of the compiled pattern
      [_build_regex_for_name_with_nicknames(query)] in [name], and
      [ln_regex_search query name] the search of the compiled pattern
      [_build_regex_for_name_part(query)] in [name]; [None] stands for
      [re.error].  The pattern text and the [re] engine are not modelled:
      every property below holds for any behaviour of the two searches. *)
Class PyLib := {
  strptime_date : string -> option date;
  fn_regex_search : string -> string -> option bool;
  ln_regex_search : string -> string -> option bool
}.

(** Exceptions that leave the matcher. *)
Inductive exn := KeyError (key : string) | TypeError | RequestError.

(** A computation that returns or raises. *)
Inductive result (A : Type) := Ok (a : A) | Raise (e : exn).
Arguments Ok {A} a.
Arguments Raise {A} e.

Definition bind {A B} (r : result A) (k : A -> result B) : result B :=
  match r with
  | Ok a => k a
  | Raise e => Raise e
  end.

Notation "x <- r ;; k" := (bind r (fun x => k))
  (at level 100, r at next level, right associativity).

(** A loop whose body may raise: the first exception ends it. *)
Fixpoint for_each {A S} (body : S -> A -> result S) (l : list A) (st : S)
  : result S :=
  match l with
  | [] => Ok st
  | x :: r => st' <- body st x ;; for_each body r st'
  end.

(** A claim record of the remote API (the keys read from [api_claim]).
    The status is read under [ClaimStatus]; the construction of a match
    reads the key [claim_status] before it. *)
Record ApiClaim := {
  ac_ClaimNum : option Z;
  ac_PatNum : option Z;
  ac_DateService : option string;
  ac_ClaimStatus : option string;
  ac_claim_status : option string;
  ac_ClaimFee : option F64.t;
  ac_ClaimType : option string;
  ac_InsSubNum2 : option Z;
  ac_PlanNum2 : option Z
}.

(** A patient record of the remote API. *)
Record PatientDict := {
  p_PatNum : option Z;
  p_FName : option string;
  p_LName : option string
}.

(** An insurance subscription of the remote API. *)
Record InsSubDict := { is_InsSubNum : option Z }.

(** What [make_request] returns where a list is expected: a list, or
    something else, of which only the truth value matters. *)
Inductive response (A : Type) := RespList (l : list A) | RespOther (truthy : bool).
Arguments RespList {A} l.
Arguments RespOther {A} truthy.

(** The remote claim-data accessor.
    - [entity_patient ln fn] and [entity_subscriber ln fn] are the results
      of [_get_entity_data(ln, fn, "patient")] and
      [_get_entity_data(ln, fn, "subscriber")]: [None] is the empty
      dictionary; the helper catches every exception itself.
    - the [request_*] members are [make_request] on the endpoints
      [claimprocs?ClaimNum=], [claims?InsSubNum=], [patients/<PatNum>] and
      [patplans?PatNum=]; [request_patient] is [None] when the answer is
      empty or not a dictionary. *)
Class Remote := {
  entity_patient : string -> string -> option (PatientDict * list ApiClaim);
  entity_subscriber : string -> string -> option (PatientDict * option InsSubDict);
  request_claimprocs : Z -> result (response ProcDict);
  request_claims_by_inssub : option Z -> result (response ApiClaim);
  request_patient : Z -> result (option PatientDict);
  request_patplans : Z -> result (response unit)
}.

(** ** Name score *)

Section NameScore.
Context `{PyLib}.

(** The [for part in crit_ln_parts] loop: the first part whose pattern is
    found ends it. *)
Fixpoint any_part_matches (crit_ln_parts : list string) (claim_ln_clean : string)
  : option bool :=
  match crit_ln_parts with
  | [] => Some false
  | part :: rest =>
      match ln_regex_search part claim_ln_clean with
      | None => None
      | Some true => Some true
      | Some false => any_part_matches rest claim_ln_clean
      end
  end.

(** The last-name component inside the [try] block; [None] is
    [re.error]. *)
Definition ln_score_in_try (crit_ln_q claim_ln_clean : string) : option Z :=
  match ln_regex_search crit_ln_q claim_ln_clean with
  | None => None
  | Some true => Some 15
  | Some false =>
      let crit_ln_parts := split_tokens sep_space_hyphen_apos crit_ln_q in
      let after_parts :=
        if (1 <? List.length crit_ln_parts)%nat
        then match any_part_matches crit_ln_parts claim_ln_clean with
             | None => None
             | Some true => Some 15
             | Some false => Some 0
             end
        else Some 0 in
      match after_parts with
      | None => None
      | Some ln_score_component =>
          if ln_score_component =? 0 then
            let similarity_result :=
              calculate_enhanced_similarity crit_ln_q claim_ln_clean in
            if 0 <? score similarity_result
            then Some (score similarity_result)
            else Some ln_score_component
          else Some ln_score_component
      end
  end.

(** [ClaimMatcher._calculate_name_match_score_with_nicknames]. *)
Definition _calculate_name_match_score_with_nicknames
    (claim_patient_fn claim_patient_ln : option string)
    (criteria_patient_fn_query criteria_patient_ln_query : string) : Z :=
  if negb (Py.truthy criteria_patient_fn_query) then 0
  else
    let crit_fn_q := Py.lower (Py.strip criteria_patient_fn_query) in
    let crit_ln_q :=
      if Py.truthy criteria_patient_ln_query
      then Py.lower (Py.strip criteria_patient_ln_query) else "" in
    if negb (Py.truthy crit_fn_q) then 0
    else
      let claim_fn_clean :=
        if str_truthy claim_patient_fn
        then Py.lower (Py.strip (default "" claim_patient_fn)) else "" in
      let claim_ln_clean :=
        if str_truthy claim_patient_ln
        then Py.lower (Py.strip (default "" claim_patient_ln)) else "" in
      if negb (Py.truthy claim_fn_clean) then 0
      else
        let fn_matched :=
          if are_names_related crit_fn_q claim_fn_clean then true
          else match fn_regex_search crit_fn_q claim_fn_clean with
               | Some true => true
               | Some false => false
               | None => false
               end in
        if negb fn_matched then 0
        else
          let fn_score_component := 15 in
          let ln_score_component :=
            if Py.truthy crit_ln_q then
              if negb (Py.truthy claim_ln_clean) then 0
              else default 0 (ln_score_in_try crit_ln_q claim_ln_clean)
            else 15 in
          fn_score_component + ln_score_component.

(** The name gate, written twice in the source
    ([_score_api_claim_candidate] and [filter_cached_claims]): the score
    of the criteria's names, and below 20 the score of the swapped
    names.  [None] is the rejection. *)
Definition name_gate (claim_fn claim_ln : option string)
    (crit_fn crit_ln : string) : option Z :=
  let name_score :=
    _calculate_name_match_score_with_nicknames claim_fn claim_ln crit_fn crit_ln in
  if name_score <? 20 then
    let swapped_criteria_fn := crit_ln in
    let swapped_criteria_ln := crit_fn in
    let swapped_name_score :=
      _calculate_name_match_score_with_nicknames claim_fn claim_ln
        swapped_criteria_fn swapped_criteria_ln in
    if 20 <=? swapped_name_score then Some swapped_name_score else None
  else Some name_score.

End NameScore.

(** ** Scorer of a remote candidate *)

(** The gate at which a candidate is turned away: the four kinds of
    [return 0, False, ''] of [_score_api_claim_candidate], and the
    skip counters of [filter_cached_claims]. *)
Inductive gate := GateMissingData | GateDate | GateStatus | GateName | GateProcedures.

(** The decision of the scorer before the final arithmetic. *)
Inductive verdict :=
| Rejected (g : gate)
| Accepted (name_score : Z) (used_alternate_benefit : bool) (override_type : string).

Definition str_is (o : option string) (v : string) : bool :=
  match o with Some s => String.eqb s v | None => false end.

Section Scorer.
Context `{PyLib}.

(** The procedure gate once both lists of procedures are non-empty
    (lines 622-678): the match percentage, then the two overrides. *)
Definition api_procedure_percentage (criteria : SearchCriteria)
    (claim_procedures_from_api : list ProcDict) : Q :=
  let payment_proc_codes_normalized :=
    List.map proc_code (procedures (payment_info criteria)) in
  let api_claim_proc_codes_normalized :=
    List.map (fun proc => normalize_procedure_code (default "" (pd_CodeSent proc)))
      claim_procedures_from_api in
  if is_nil payment_proc_codes_normalized && is_nil api_claim_proc_codes_normalized
  then 1%Q
  else if negb (is_nil payment_proc_codes_normalized) && is_nil api_claim_proc_codes_normalized
  then 0%Q
  else if is_nil payment_proc_codes_normalized && negb (is_nil api_claim_proc_codes_normalized)
  then 0%Q
  else match_percentage
         (_match_procedure_codes payment_proc_codes_normalized
            api_claim_proc_codes_normalized).

(** The gates of [_score_api_claim_candidate] in the order of the
    source. *)
Definition score_api_claim_verdict (api_claim_data : ApiClaim)
    (claim_procedures_from_api : list ProcDict) (criteria : SearchCriteria)
    (claim_owner_patient_details : PatientDict) : verdict :=
  match strptime_date (default "" (ac_DateService api_claim_data)),
        strptime_date (date_of_service criteria) with
  | Some claim_date_obj, Some target_date_obj =>
      if negb (bool_decide (claim_date_obj = target_date_obj)) then Rejected GateDate
      else if negb (str_is (ac_ClaimStatus api_claim_data) "S"
                    || str_is (ac_ClaimStatus api_claim_data) "H")
      then Rejected GateStatus
      else
        match name_gate (p_FName claim_owner_patient_details)
                (p_LName claim_owner_patient_details)
                (patient_first_name criteria) (patient_last_name criteria) with
        | None => Rejected GateName
        | Some name_score =>
            let eob_procedures := procedures (payment_info criteria) in
            if negb (is_nil eob_procedures) && negb (is_nil claim_procedures_from_api) then
              let procedure_match_percentage :=
                api_procedure_percentage criteria claim_procedures_from_api in
              if Qltb (49 # 100) procedure_match_percentage
              then Accepted name_score false ""
              else if _has_strong_non_procedure_match_with_fees claim_date_obj
                        target_date_obj name_score claim_procedures_from_api eob_procedures
              then Accepted name_score true "fee_match"
              else if _has_procedure_count_match claim_date_obj target_date_obj
                        name_score claim_procedures_from_api eob_procedures
              then Accepted name_score true "count_match"
              else Rejected GateProcedures
            else if is_nil eob_procedures && is_nil claim_procedures_from_api
            then Accepted name_score false ""
            else Rejected GateProcedures
        end
  | _, _ => Rejected GateDate
  end.

(** [ClaimMatcher._score_api_claim_candidate]: the tuple
    [(score, used_alternate_benefit, override_type)]. *)
Definition _score_api_claim_candidate (api_claim_data : ApiClaim)
    (claim_procedures_from_api : list ProcDict) (criteria : SearchCriteria)
    (claim_owner_patient_details : PatientDict) : Z * bool * string :=
  match score_api_claim_verdict api_claim_data claim_procedures_from_api criteria
          claim_owner_patient_details with
  | Rejected _ => (0, false, "")
  | Accepted name_score used_alternate_benefit override_type =>
      let current_score := 30 + 10 + name_score + 30 in
      (current_score, used_alternate_benefit, override_type)
  end.

End Scorer.

(** ** Cache path ([filter_cached_claims]) *)

(** A value stored under [is_secondary]: a boolean, or its spelling as a
    string. *)
Inductive pyflag := FlagBool (b : bool) | FlagStr (s : string).

(** [bool(v)]. *)
Definition flag_truthy (v : pyflag) : bool :=
  match v with FlagBool b => b | FlagStr s => Py.truthy s end.

(** A claim record of the cache: the keys that [filter_cached_claims]
    reads, each absent ([None]) or present. *)
Record CachedClaim := {
  cc_claim_num : option Z;
  cc_ClaimNum : option Z;
  cc_pat_num : option Z;
  cc_PatNum : option Z;
  cc_date_of_service : option string;
  cc_claim_date : option string;
  cc_DateService : option string;
  cc_claim_status : option string;
  cc_ClaimStatus : option string;
  cc_is_secondary : option pyflag;
  cc_IsSecondary : option pyflag;
  cc_plan_type : option string;
  cc_ClaimType : option string;
  cc_patient_first_name : option string;
  cc_pat_fn : option string;
  cc_patient_last_name : option string;
  cc_pat_ln : option string;
  cc_procedures : option (list ProcDict);
  cc_claim_procs : option (list ProcDict);
  cc_subscriber_first_name : option string;
  cc_subscriber_last_name : option string;
  cc_claim_fee : option F64.t;
  cc_ClaimFee : option F64.t;
  cc_has_secondary_plan : option bool;
  cc_is_supplemental : option bool
}.

(** [d.get(k1, d.get(k2))]: the first key when it is present. *)
Definition get_or {A} (a b : option A) : option A :=
  match a with Some _ => a | None => b end.

(** [s and s.strip()] as a condition. *)
Definition nonblank (s : string) : bool := Py.truthy s && Py.truthy (Py.strip s).

(** [int(v) if v is not None else 0] under its [try]. *)
Definition claim_proc_num_int (v : option Z) : Z := default 0 v.

(** Stable sort by decreasing key: [sorted(l, key=..., reverse=True)]. *)
Fixpoint insert_desc {A} (key : A -> Z) (x : A) (l : list A) : list A :=
  match l with
  | [] => [x]
  | y :: r => if key x <? key y then y :: insert_desc key x r else x :: l
  end.

Definition sort_desc {A} (key : A -> Z) (l : list A) : list A :=
  foldr (insert_desc key) [] l.

(** The partition of the sorted matches in primary and secondary claims
    and the flag of a pending secondary (lines 1218-1236 and
    1546-1560). *)
Definition prioritize (primary secondary : list ClaimMatch) : list ClaimMatch :=
  if negb (is_nil primary) then
    if negb (is_nil secondary)
    then List.map set_has_pending_secondary primary ++ secondary
    else primary
  else if negb (is_nil secondary) then secondary
  else [].

Section CachePath.
Context `{PyLib}.

(** The name of the criteria that the cache path matches: the patient's,
    or the subscriber's when the patient's is blank. *)
Definition criteria_name_to_use (criteria : SearchCriteria) : option (string * string) :=
  if nonblank (patient_first_name criteria) && nonblank (patient_last_name criteria)
  then Some (patient_first_name criteria, patient_last_name criteria)
  else if nonblank (subscriber_first_name criteria)
          && nonblank (subscriber_last_name criteria)
  then Some (subscriber_first_name criteria, subscriber_last_name criteria)
  else None.

(** [payment_proc_codes_normalized] of the cache path. *)
Definition cache_payment_codes (criteria : SearchCriteria) : list string :=
  List.map (fun p => normalize_procedure_code (proc_code p))
    (List.filter (fun p => Py.truthy (proc_code p)) (procedures (payment_info criteria))).

(** [cached_procs_list]. *)
Definition cached_procs_list (claim : CachedClaim) : list ProcDict :=
  default [] (get_or (cc_procedures claim) (cc_claim_procs claim)).

(** [proc.get('proc_code') or proc.get('code') or proc.get('CodeSent')]. *)
Definition cached_proc_code (proc : ProcDict) : option string :=
  or_str (or_str (pd_proc_code proc) (pd_code proc)) (pd_CodeSent proc).

(** [db_claim_proc_codes_normalized]. *)
Definition cache_claim_codes (claim : CachedClaim) : list string :=
  List.map (fun proc => normalize_procedure_code (default "" (cached_proc_code proc)))
    (List.filter (fun proc => str_truthy (cached_proc_code proc)) (cached_procs_list claim)).

(** [procedure_match_percentage] of the cache path. *)
Definition cache_procedure_percentage (criteria : SearchCriteria) (claim : CachedClaim) : Q :=
  let payment_proc_codes_normalized := cache_payment_codes criteria in
  let db_claim_proc_codes_normalized := cache_claim_codes claim in
  if is_nil payment_proc_codes_normalized && is_nil db_claim_proc_codes_normalized
  then 1%Q
  else if negb (is_nil payment_proc_codes_normalized) && is_nil db_claim_proc_codes_normalized
  then 0%Q
  else if is_nil payment_proc_codes_normalized && negb (is_nil db_claim_proc_codes_normalized)
  then 0%Q
  else match_percentage
         (_match_procedure_codes payment_proc_codes_normalized
            db_claim_proc_codes_normalized).

(** The score of the subscriber's names, when the criteria and the cached
    claim both carry them (lines 1084-1099). *)
Definition subscriber_name_score (criteria : SearchCriteria) (claim : CachedClaim)
  : option Z :=
  if nonblank (subscriber_first_name criteria) && nonblank (subscriber_last_name criteria)
  then
    match cc_subscriber_first_name claim, cc_subscriber_last_name claim with
    | Some cached_claim_sub_fn, Some cached_claim_sub_ln =>
        if nonblank cached_claim_sub_fn && nonblank cached_claim_sub_ln
        then Some (_calculate_name_match_score_with_nicknames
                     (Some (Py.strip cached_claim_sub_fn))
                     (Some (Py.strip cached_claim_sub_ln))
                     (subscriber_first_name criteria) (subscriber_last_name criteria))
        else None
    | _, _ => None
    end
  else None.

(** [subscriber_bonus_points] (lines 1083-1112). *)
Definition subscriber_bonus_points (criteria : SearchCriteria) (claim : CachedClaim) : Z :=
  match subscriber_name_score criteria claim with
  | Some sub_name_score_value =>
      if sub_name_score_value =? 30 then 15
      else if 15 <=? sub_name_score_value then 8
      else 0
  | None => 0
  end.

(** [claim_procs_for_match_obj] of the cache path. *)
Definition cache_match_procs (claim : CachedClaim) : list MatchProc :=
  List.map
    (fun proc_data =>
       {| mp_CodeSent := normalize_procedure_code_opt (cached_proc_code proc_data);
          mp_FeeBilled := or_F_0 (pd_fee_billed proc_data) (pd_FeeBilled proc_data);
          mp_ClaimProcNum :=
            claim_proc_num_int (or_Z (pd_claim_proc_num proc_data) (pd_ClaimProcNum proc_data)) |})
    (List.filter (fun proc_data => str_truthy (cached_proc_code proc_data))
       (cached_procs_list claim)).

(** [match_source] of the cache path (lines 1164-1185). *)
Definition cache_match_source (alternate_benefit_override : bool)
    (procedure_match_percentage : Q) (claim_date_obj target_date_obj : date)
    (name_score : Z) (claim : CachedClaim) (criteria : SearchCriteria) : string :=
  if alternate_benefit_override then
    if Qleb procedure_match_percentage (49 # 100) then
      if _has_procedure_count_match claim_date_obj target_date_obj name_score
           (cached_procs_list claim) (procedures (payment_info criteria))
      then "database_count_match"
      else "database_alternate_benefit"
    else "database_alternate_benefit"
  else "database_strict".

(** [int(a or b)]: [int(None)] raises [TypeError]. *)
Definition int_of (v : option Z) : result Z :=
  match v with Some z => Ok z | None => Raise TypeError end.

(** The outcome of one turn of the loop over the cached claims: the claim
    is skipped at a gate, or a [ClaimMatch] is appended. *)
Inductive cache_outcome := Skipped (g : gate) | Matched (m : ClaimMatch).

(** The status gate of the cache path (lines 962-981). *)
Definition cache_status_passes (claim : CachedClaim) : bool :=
  let claim_status := or_str (cc_claim_status claim) (cc_ClaimStatus claim) in
  if str_is claim_status "S" || str_is claim_status "H" then true
  else if str_is claim_status "R" then
    let is_secondary :=
      match default (FlagBool false)
              (get_or (cc_is_secondary claim) (cc_IsSecondary claim)) with
      | FlagStr s => String.eqb (Py.lower s) "true"
      | FlagBool b => b
      end in
    negb is_secondary
  else false.

(** The body of the loop [for claim in db_claims] (lines 939-1207). *)
Definition evaluate_cached_claim (criteria : SearchCriteria) (target_date_obj : date)
    (criteria_name_fn_to_use criteria_name_ln_to_use : string)
    (claim : CachedClaim) : result cache_outcome :=
  let claim_date_str :=
    or_str (or_str (cc_date_of_service claim) (cc_claim_date claim)) (cc_DateService claim) in
  if negb (str_truthy claim_date_str) then Ok (Skipped GateMissingData)
  else
    match strptime_date (default "" claim_date_str) with
    | None => Ok (Skipped GateMissingData)
    | Some claim_date_obj =>
        if negb (bool_decide (claim_date_obj = target_date_obj)) then Ok (Skipped GateDate)
        else if negb (cache_status_passes claim) then Ok (Skipped GateStatus)
        else
          let patient_fn_raw := or_str (cc_patient_first_name claim) (cc_pat_fn claim) in
          let patient_ln_raw := or_str (cc_patient_last_name claim) (cc_pat_ln claim) in
          if negb (str_truthy patient_fn_raw) || negb (str_truthy patient_ln_raw)
          then Ok (Skipped GateMissingData)
          else
            match name_gate patient_fn_raw patient_ln_raw
                    criteria_name_fn_to_use criteria_name_ln_to_use with
            | None => Ok (Skipped GateName)
            | Some name_score =>
                let procedure_match_percentage :=
                  cache_procedure_percentage criteria claim in
                let eob_procedures := procedures (payment_info criteria) in
                let override :=
                  if Qleb procedure_match_percentage (49 # 100) then
                    if _has_strong_non_procedure_match_with_fees claim_date_obj
                         target_date_obj name_score (cached_procs_list claim) eob_procedures
                    then Some true
                    else if _has_procedure_count_match claim_date_obj target_date_obj
                              name_score (cached_procs_list claim) eob_procedures
                    then Some true
                    else None
                  else Some false in
                match override with
                | None => Ok (Skipped GateProcedures)
                | Some alternate_benefit_override =>
                    let subscriber_bonus_points := subscriber_bonus_points criteria claim in
                    let final_calculated_score :=
                      30 + 10 + name_score + 30 + subscriber_bonus_points in
                    let match_source :=
                      cache_match_source alternate_benefit_override
                        procedure_match_percentage claim_date_obj target_date_obj
                        name_score claim criteria in
                    cn <- int_of (or_Z (cc_claim_num claim) (cc_ClaimNum claim)) ;;
                    pn <- int_of (or_Z (cc_pat_num claim) (cc_PatNum claim)) ;;
                    Ok (Matched
                          {| claim_num := cn;
                             pat_num := pn;
                             claim_fee := or_F_0 (cc_claim_fee claim) (cc_ClaimFee claim);
                             cm_date_of_service := default "" claim_date_str;
                             is_secondary :=
                               flag_truthy (default (FlagBool false) (cc_is_secondary claim))
                               || str_is (cc_plan_type claim) "S"
                               || str_is (cc_ClaimType claim) "S";
                             has_secondary_plan := default false (cc_has_secondary_plan claim);
                             has_pending_secondary := false;
                             match_score := Some final_calculated_score;
                             match_source := Some match_source;
                             claim_procs := cache_match_procs claim;
                             is_supplemental := default false (cc_is_supplemental claim);
                             claim_status :=
                               get_or (cc_claim_status claim) (cc_ClaimStatus claim) |})
                end
            end
    end.

(** One turn of the loop over the cached claims. *)
Definition cache_step (criteria : SearchCriteria) (target_date_obj : date)
    (fn ln : string) (potential_matches : list ClaimMatch) (claim : CachedClaim)
  : result (list ClaimMatch) :=
  o <- evaluate_cached_claim criteria target_date_obj fn ln claim ;;
  match o with
  | Skipped _ => Ok potential_matches
  | Matched match_obj => Ok (potential_matches ++ [match_obj])%list
  end.

(** [potential_matches] after the loop. *)
Definition cache_potential_matches (criteria : SearchCriteria) (target_date_obj : date)
    (fn ln : string) (db_claims : list CachedClaim) : result (list ClaimMatch) :=
  for_each (cache_step criteria target_date_obj fn ln) db_claims [].

Definition score_key (m : ClaimMatch) : Z := default 0 (match_score m).

(** The end of [filter_cached_claims] (lines 1216-1236). *)
Definition finalize_matches (potential_matches : list ClaimMatch) : list ClaimMatch :=
  let sorted_potential_matches := sort_desc score_key potential_matches in
  let db_primary_matches :=
    List.filter (fun m => negb (is_secondary m)) sorted_potential_matches in
  let db_secondary_matches :=
    List.filter (fun m => is_secondary m) sorted_potential_matches in
  prioritize db_primary_matches db_secondary_matches.

(** [ClaimMatcher.filter_cached_claims]; [db_claims] is
    [claims_data.get('claims', [])]. *)
Definition filter_cached_claims (criteria : SearchCriteria) (db_claims : list CachedClaim)
  : result (list ClaimMatch) :=
  if is_nil db_claims then Ok []
  else
    match strptime_date (date_of_service criteria) with
    | None => Ok []
    | Some target_date_obj =>
        match criteria_name_to_use criteria with
        | None => Ok []
        | Some (criteria_name_fn_to_use, criteria_name_ln_to_use) =>
            potential_matches <-
              cache_potential_matches criteria target_date_obj
                criteria_name_fn_to_use criteria_name_ln_to_use db_claims ;;
            Ok (finalize_matches potential_matches)
        end
    end.

End CachePath.

(** ** Remote path ([find_matching_claims]) *)

(** An entry of [all_scored_candidates]. *)
Record Candidate := {
  cand_score : Z;
  api_claim_raw : ApiClaim;
  claim_procs_raw : list ProcDict;
  source_patient_details : PatientDict;
  cand_used_alternate_benefit : bool;
  cand_override_type : string
}.

Definition MIN_ACCEPTABLE_SCORE : Z := 89.

Section RemotePath.
Context `{PyLib} `{Remote}.

(** [ClaimMatcher._check_secondary_insurance]; an exception of the
    request is caught and leaves the first answer. *)
Definition _check_secondary_insurance (claim : ApiClaim) : bool :=
  let has_secondary_plan_initial :=
    (0 <? default 0 (ac_InsSubNum2 claim)) || (0 <? default 0 (ac_PlanNum2 claim)) in
  if has_secondary_plan_initial then
    if Z_truthy (ac_PatNum claim) then
      match request_patplans (default 0 (ac_PatNum claim)) with
      | Ok (RespList pat_plans) =>
          if (List.length pat_plans <=? 1)%nat then false else has_secondary_plan_initial
      | Ok (RespOther _) => has_secondary_plan_initial
      | Raise _ => has_secondary_plan_initial
      end
    else has_secondary_plan_initial
  else has_secondary_plan_initial.

(** The quick pre-filter of both stages (lines 1318-1324): the claim's
    date is the target date and its status is Sent or Held. *)
Definition prefilter_passes (api_claim : ApiClaim) (target_date : date) : bool :=
  match strptime_date (default "" (ac_DateService api_claim)) with
  | None => false
  | Some d =>
      bool_decide (d = target_date)
      && (str_is (ac_ClaimStatus api_claim) "S" || str_is (ac_ClaimStatus api_claim) "H")
  end.

(** The state of the two collection loops: [all_scored_candidates] and
    [processed_claim_nums]. *)
Definition collect_state : Type := list Candidate * gset Z.

(** The scoring of a candidate with its procedure lines and, on a
    positive score, its addition to the candidates (lines 1327-1350). *)
Definition score_and_collect (criteria : SearchCriteria) (api_claim : ApiClaim)
    (claim_num : Z) (owner : PatientDict) (st : collect_state) : result collect_state :=
  resp <- request_claimprocs claim_num ;;
  let claim_procs_api :=
    match resp with RespList l => l | RespOther _ => [] end in
  let '(score, used_alternate_benefit, override_type) :=
    _score_api_claim_candidate api_claim claim_procs_api criteria owner in
  if 0 <? score then
    Ok ((fst st ++ [ {| cand_score := score;
                        api_claim_raw := api_claim;
                        claim_procs_raw := claim_procs_api;
                        source_patient_details := owner;
                        cand_used_alternate_benefit := used_alternate_benefit;
                        cand_override_type := override_type |} ])%list,
        {[ claim_num ]} ∪ snd st)
  else Ok st.

(** The body of the loop of stage 1 (lines 1312-1350). *)
Definition stage1_body (criteria : SearchCriteria) (target_date : date)
    (patient_details_for_scoring : PatientDict)
    (st : collect_state) (api_claim : ApiClaim) : result collect_state :=
  if negb (Z_truthy (ac_ClaimNum api_claim))
     || bool_decide (default 0 (ac_ClaimNum api_claim) ∈ snd st)
  then Ok st
  else if negb (prefilter_passes api_claim target_date) then Ok st
  else score_and_collect criteria api_claim (default 0 (ac_ClaimNum api_claim))
         patient_details_for_scoring st.

(** The body of the loop of stage 2 (lines 1379-1431). *)
Definition stage2_body (criteria : SearchCriteria) (target_date : date)
    (st : collect_state) (api_claim : ApiClaim) : result collect_state :=
  if negb (Z_truthy (ac_ClaimNum api_claim))
     || bool_decide (default 0 (ac_ClaimNum api_claim) ∈ snd st)
  then Ok st
  else if negb (prefilter_passes api_claim target_date) then Ok st
  else if negb (Z_truthy (ac_PatNum api_claim)) then Ok st
  else
    owner_patient_api_response <- request_patient (default 0 (ac_PatNum api_claim)) ;;
    match owner_patient_api_response with
    | None => Ok st
    | Some owner =>
        if negb (Z_truthy (p_PatNum owner)) then Ok st
        else score_and_collect criteria api_claim (default 0 (ac_ClaimNum api_claim))
               owner st
    end.

(** Stage 1: the candidates found by the patient's name. *)
Definition stage1 (criteria : SearchCriteria) (target_date : date)
    (st : collect_state) : result collect_state :=
  let patient_data :=
    if nonblank (patient_first_name criteria) && nonblank (patient_last_name criteria)
    then entity_patient (patient_last_name criteria) (patient_first_name criteria)
    else None in
  match patient_data with
  | Some (patient, claims) =>
      if is_nil claims then Ok st
      else for_each (stage1_body criteria target_date patient) claims st
  | None => Ok st
  end.

(** Stage 2: the candidates found by the subscriber's name. *)
Definition stage2 (criteria : SearchCriteria) (target_date : date)
    (st : collect_state) : result collect_state :=
  let subscriber_data :=
    if nonblank (subscriber_first_name criteria)
       && nonblank (subscriber_last_name criteria)
    then entity_subscriber (subscriber_last_name criteria)
           (subscriber_first_name criteria)
    else None in
  match subscriber_data with
  | Some (subscriber, Some inssub) =>
      claims_for_sub <- request_claims_by_inssub (is_InsSubNum inssub) ;;
      match claims_for_sub with
      | RespList l => for_each (stage2_body criteria target_date) l st
      | RespOther _ => Ok st
      end
  | _ => Ok st
  end.

(** [match_source] of the remote path (lines 1511-1518). *)
Definition api_match_source (used_alternate_benefit : bool) (override_type : string)
  : string :=
  if used_alternate_benefit then
    if String.eqb override_type "count_match" then "api_count_match"
    else if String.eqb override_type "fee_match" then "api_alternate_benefit"
    else "api_alternate_benefit"
  else "api_strict_scored".

(** [claim_procs_for_match_obj] of the remote path. *)
Definition api_match_procs (raw_procs : list ProcDict) : list MatchProc :=
  List.map
    (fun proc_raw =>
       {| mp_CodeSent := normalize_procedure_code_opt (pd_CodeSent proc_raw);
          mp_FeeBilled := or_F_0 (pd_FeeBilled proc_raw) None;
          mp_ClaimProcNum := claim_proc_num_int (pd_ClaimProcNum proc_raw) |})
    raw_procs.

(** [raw_claim[key]]: a missing key raises [KeyError]. *)
Definition subscript {A} (key : string) (v : option A) : result A :=
  match v with Some a => Ok a | None => Raise (KeyError key) end.

(** The [ClaimMatch] built from a candidate (lines 1460-1539). *)
Definition match_of_candidate (cand_dict : Candidate) : result ClaimMatch :=
  let raw_claim := api_claim_raw cand_dict in
  cn <- subscript "ClaimNum" (ac_ClaimNum raw_claim) ;;
  ds <- subscript "DateService" (ac_DateService raw_claim) ;;
  _ <- subscript "ClaimStatus" (ac_ClaimStatus raw_claim) ;;
  pn <- subscript "PatNum" (ac_PatNum raw_claim) ;;
  let is_secondary_claim := str_is (ac_ClaimType raw_claim) "S" in
  let has_secondary_plan_flag := _check_secondary_insurance raw_claim in
  Ok {| claim_num := cn;
        pat_num := pn;
        claim_fee := or_F_0 (ac_ClaimFee raw_claim) None;
        cm_date_of_service := ds;
        is_secondary := is_secondary_claim;
        has_secondary_plan := has_secondary_plan_flag;
        has_pending_secondary := false;
        match_score := Some (cand_score cand_dict);
        match_source :=
          Some (api_match_source (cand_used_alternate_benefit cand_dict)
                  (cand_override_type cand_dict));
        claim_procs := api_match_procs (claim_procs_raw cand_dict);
        is_supplemental := false;
        claim_status := get_or (ac_claim_status raw_claim) (ac_ClaimStatus raw_claim) |}.

(** One turn of the loop over the sorted candidates: the match goes to
    the secondary or to the primary list (lines 1541-1544). *)
Definition add_match (acc : list ClaimMatch * list ClaimMatch) (cand_dict : Candidate)
  : result (list ClaimMatch * list ClaimMatch) :=
  match_obj <- match_of_candidate cand_dict ;;
  if is_secondary match_obj
  then Ok (fst acc, (snd acc ++ [match_obj])%list)
  else Ok ((fst acc ++ [match_obj])%list, snd acc).

(** The loop over the sorted candidates (lines 1459-1544):
    [(final_match_objects_primary, final_match_objects_secondary)]. *)
Definition build_matches (sorted_candidates : list Candidate)
  : result (list ClaimMatch * list ClaimMatch) :=
  for_each add_match sorted_candidates ([], []).

(** [all_scored_candidates] after the two stages. *)
Definition collect_candidates (criteria : SearchCriteria) (target_date : date)
  : result (list Candidate) :=
  st1 <- stage1 criteria target_date ([], ∅) ;;
  st2 <- stage2 criteria target_date st1 ;;
  Ok (fst st2).

(** [ClaimMatcher.find_matching_claims]. *)
Definition find_matching_claims (criteria : SearchCriteria) : result (list ClaimMatch) :=
  match strptime_date (date_of_service criteria) with
  | None => Ok []
  | Some target_date =>
      all_scored_candidates <- collect_candidates criteria target_date ;;
      let high_confidence_candidates :=
        List.filter (fun cand => MIN_ACCEPTABLE_SCORE <=? cand_score cand)
          all_scored_candidates in
      if is_nil high_confidence_candidates then Ok []
      else
        let sorted_candidates := sort_desc cand_score high_confidence_candidates in
        groups <- build_matches sorted_candidates ;;
        Ok (prioritize (fst groups) (snd groups))
  end.

(** ** Supplemental fallback ([find_matching_claims_api_fallback]) *)

(** [set] of the normalized procedure codes of the criteria. *)
Definition eob_proc_codes_normalized (criteria : SearchCriteria) : gset string :=
  list_to_set
    (List.map (fun p => normalize_procedure_code (proc_code p))
       (List.filter (fun p => Py.truthy (proc_code p))
          (procedures (payment_info criteria)))).

(** The test of one procedure line (line 1653). *)
Definition supplemental_line_overlaps (criteria : SearchCriteria) (api_proc : ProcDict)
  : bool :=
  match normalize_procedure_code_opt (pd_CodeSent api_proc) with
  | Some normalized_api_proc_code =>
      Py.truthy normalized_api_proc_code
      && bool_decide (normalized_api_proc_code ∈ eob_proc_codes_normalized criteria)
  | None => false
  end.

(** [matched_api_procedures_for_claimmatch]: the code is copied as it was
    sent. *)
Definition supplemental_match_procs (criteria : SearchCriteria)
    (api_claim_procs_full : list ProcDict) : list MatchProc :=
  List.map
    (fun api_proc =>
       {| mp_CodeSent := pd_CodeSent api_proc;
          mp_FeeBilled := or_F_0 (pd_FeeBilled api_proc) None;
          mp_ClaimProcNum := claim_proc_num_int (pd_ClaimProcNum api_proc) |})
    (List.filter (supplemental_line_overlaps criteria) api_claim_procs_full).

(** The body of the loop over the Received or Sent claims (lines
    1633-1728); [Raise] is any exception, which the caller catches.
    [pat_num] is the [PatNum] of the patient found, which
    [_get_entity_data] has read by subscript. *)
Definition supplemental_body (criteria : SearchCriteria) (target_date_obj : date)
    (pat_num : option Z) (supplemental_matches : list ClaimMatch)
    (api_claim : ApiClaim) : result (list ClaimMatch) :=
  match strptime_date (default "" (ac_DateService api_claim)) with
  | None => Ok supplemental_matches
  | Some api_claim_date_obj =>
      if negb (bool_decide (api_claim_date_obj = target_date_obj))
      then Ok supplemental_matches
      else
        cn <- subscript "ClaimNum" (ac_ClaimNum api_claim) ;;
        resp <- request_claimprocs cn ;;
        match resp with
        | RespOther false => Ok supplemental_matches
        | RespOther true => Raise TypeError
        | RespList [] => Ok supplemental_matches
        | RespList api_claim_procs_full =>
            let matched := supplemental_match_procs criteria api_claim_procs_full in
            if is_nil matched then Ok supplemental_matches
            else
              ds <- subscript "DateService" (ac_DateService api_claim) ;;
              Ok (supplemental_matches ++
                  [ {| claim_num := cn;
                       pat_num := default 0 pat_num;
                       claim_fee := default F64.zero (ac_ClaimFee api_claim);
                       cm_date_of_service := ds;
                       is_secondary := str_is (ac_ClaimType api_claim) "S";
                       has_secondary_plan :=
                         (0 <? default 0 (ac_InsSubNum2 api_claim))
                         || (0 <? default 0 (ac_PlanNum2 api_claim));
                       has_pending_secondary := false;
                       match_score := None;
                       match_source := Some "api_supplemental";
                       claim_procs := matched;
                       is_supplemental := true;
                       claim_status := ac_ClaimStatus api_claim |} ])%list
        end
  end.

(** [criteria.patient_first_name.split()[0]]: the first token between
    white space; the subscript raises [IndexError] when there is none. *)
Definition first_token (s : string) : option string :=
  head (split_tokens Py.is_space s).

(** [ClaimMatcher.find_matching_claims_api_fallback]: the whole body is
    under [try ... except Exception: return []]. *)
Definition find_matching_claims_api_fallback (criteria : SearchCriteria)
    (skip_api_fallback : bool) : list ClaimMatch :=
  if skip_api_fallback then []
  else
    let first_name :=
      if Py.truthy (patient_first_name criteria)
      then first_token (patient_first_name criteria)
      else Some "" in
    match first_name with
    | None => []
    | Some api_fallback_patient_first_name =>
        let api_fallback_patient_last_name := patient_last_name criteria in
        if negb (Py.truthy api_fallback_patient_first_name)
           || negb (Py.truthy api_fallback_patient_last_name)
        then []
        else
          match entity_patient api_fallback_patient_last_name
                  api_fallback_patient_first_name with
          | None => []
          | Some (patient, all_api_claims_for_patient) =>
              let received_or_sent_api_claims :=
                List.filter
                  (fun c => str_is (ac_ClaimStatus c) "R" || str_is (ac_ClaimStatus c) "S")
                  all_api_claims_for_patient in
              if is_nil received_or_sent_api_claims then []
              else
                match strptime_date (date_of_service criteria) with
                | None => []
                | Some target_date_obj =>
                    match for_each
                            (supplemental_body criteria target_date_obj (p_PatNum patient))
                            received_or_sent_api_claims [] with
                    | Ok supplemental_matches => supplemental_matches
                    | Raise _ => []
                    end
                end
          end
    end.

End RemotePath.

(** ** Stand-ins for the collaborators

    Concrete collaborators on which the definitions above can be run. *)

Definition digit_val (c : ascii) : option Z :=
  if Py.is_digit c then Some (Z.of_nat (nat_of_ascii c) - 48) else None.

Definition is_leap (y : Z) : bool :=
  ((y mod 4 =? 0) && negb (y mod 100 =? 0)) || (y mod 400 =? 0).

Definition days_in_month (y m : Z) : Z :=
  if m =? 2 then (if is_leap y then 29 else 28)
  else if (m =? 4) || (m =? 6) || (m =? 9) || (m =? 11) then 30
  else 31.

(** A reader of dates written [YYYY-MM-DD] with every digit present; any
    other string is refused. *)
Definition parse_iso_date (s : string) : option date :=
  match list_ascii_of_string s with
  | [y1; y2; y3; y4; h1; m1; m2; h2; d1; d2] =>
      match digit_val y1, digit_val y2, digit_val y3, digit_val y4,
            digit_val m1, digit_val m2, digit_val d1, digit_val d2 with
      | Some a, Some b, Some c, Some d, Some e, Some f, Some g, Some h =>
          let y := 1000 * a + 100 * b + 10 * c + d in
          let m := 10 * e + f in
          let dd := 10 * g + h in
          if Ascii.eqb h1 "-" && Ascii.eqb h2 "-"
             && (1 <=? y) && (1 <=? m) && (m <=? 12)
             && (1 <=? dd) && (dd <=? days_in_month y m)
          then Some {| year := y; month := m; day := dd |}
          else None
      | _, _, _, _, _, _, _, _ => None
      end
  | _ => None
  end.

(** A library whose two searches find a query exactly when the name
    starts with it. *)
Definition prefix_lib : PyLib :=
  {| strptime_date := parse_iso_date;
     fn_regex_search := fun query name => Some (Py.startswith query name);
     ln_regex_search := fun query name => Some (Py.startswith query name) |}.

Definition no_proc : ProcDict :=
  {| pd_proc_code := None; pd_code := None; pd_CodeSent := None;
     pd_fee_billed := None; pd_FeeBilled := None;
     pd_claim_proc_num := None; pd_ClaimProcNum := None |}.

(** An API procedure line with its code and billed fee. *)
Definition api_proc (code : string) (fee : F64.t) (num : Z) : ProcDict :=
  {| pd_proc_code := None; pd_code := None; pd_CodeSent := Some code;
     pd_fee_billed := None; pd_FeeBilled := Some fee;
     pd_claim_proc_num := None; pd_ClaimProcNum := Some num |}.

(** A remittance line. *)
Definition eob_line (code : string) (submitted paid : F64.t) : ProcedurePayment :=
  {| proc_code := code; submitted_amt := submitted; amount_paid := paid;
     remarks := ""; deductible := F64.zero; writeoff := F64.zero; markAsNotReceived := false |}.

Definition criteria_of (dos pfn pln sfn sln : string) (lines : list ProcedurePayment)
  : SearchCriteria :=
  {| date_of_service := dos;
     patient_first_name := pfn; patient_last_name := pln;
     subscriber_first_name := sfn; subscriber_last_name := sln;
     payment_info :=
       {| procedures := lines; check_number := None; carrier_name := None |} |}.

(** An API claim of patient 7. *)
Definition api_claim_of (num : Z) (dos status type : string) : ApiClaim :=
  {| ac_ClaimNum := Some num; ac_PatNum := Some 7;
     ac_DateService := Some dos; ac_ClaimStatus := Some status;
     ac_claim_status := None;
     ac_ClaimFee := Some (F64.of_Z 50); ac_ClaimType := Some type;
     ac_InsSubNum2 := None; ac_PlanNum2 := None |}.

Definition john_smith : PatientDict :=
  {| p_PatNum := Some 7; p_FName := Some "John"; p_LName := Some "Smith" |}.

(** A practice with one patient, John Smith, and three claims of
    2024-03-05: a primary claim (101) and a secondary claim (102), both
    Sent, and a Received claim (103); every claim has the one line D0120
    billed 50. *)
Definition demo_remote : Remote :=
  {| entity_patient := fun ln fn =>
       if String.eqb ln "Smith" && String.eqb fn "John"
       then Some (john_smith,
                  [api_claim_of 101 "2024-03-05" "S" "P";
                   api_claim_of 102 "2024-03-05" "S" "S";
                   api_claim_of 103 "2024-03-05" "R" "P"])
       else None;
     entity_subscriber := fun _ _ => None;
     request_claimprocs := fun _ => Ok (RespList [api_proc "D0120" (F64.of_Z 50) 1]);
     request_claims_by_inssub := fun _ => Ok (RespList []);
     request_patient := fun _ => Ok (Some john_smith);
     request_patplans := fun _ => Ok (RespList [tt]) |}.

(** A cached claim of John Smith on 2024-03-05 with the line D0120
    billed 50, whose subscriber is John Smith. *)
Definition cached_claim_of (num : Z) (status : string) (secondary : bool) : CachedClaim :=
  {| cc_claim_num := Some num; cc_ClaimNum := None;
     cc_pat_num := Some 7; cc_PatNum := None;
     cc_date_of_service := Some "2024-03-05"; cc_claim_date := None;
     cc_DateService := None;
     cc_claim_status := Some status; cc_ClaimStatus := None;
     cc_is_secondary := Some (FlagBool secondary); cc_IsSecondary := None;
     cc_plan_type := None; cc_ClaimType := None;
     cc_patient_first_name := Some "John"; cc_pat_fn := None;
     cc_patient_last_name := Some "Smith"; cc_pat_ln := None;
     cc_procedures :=
       Some [ {| pd_proc_code := Some "D0120"; pd_code := None; pd_CodeSent := None;
                 pd_fee_billed := Some (F64.of_Z 50); pd_FeeBilled := None;
                 pd_claim_proc_num := Some 1; pd_ClaimProcNum := None |} ];
     cc_claim_procs := None;
     cc_subscriber_first_name := Some "John";
     cc_subscriber_last_name := Some "Smith";
     cc_claim_fee := Some (F64.of_Z 50); cc_ClaimFee := None;
     cc_has_secondary_plan := None; cc_is_supplemental := None |}.

(** The remittance of the examples: John Smith, 2024-03-05, D0120
    submitted 50 and paid 40. *)
Definition demo_criteria : SearchCriteria :=
  criteria_of "2024-03-05" "John" "Smith" "John" "Smith"
    [eob_line "D0120" (F64.of_Z 50) (F64.of_Z 40)].

Definition march_5 : date := {| year := 2024; month := 3; day := 5 |}.

(** The remittance of the examples with the two names of the patient
    transposed. *)
Definition transposed_criteria : SearchCriteria :=
  criteria_of "2024-03-05" "Smith" "John" "" "" [eob_line "D0120" (F64.of_Z 50) (F64.of_Z 40)].

(** A match of the examples: claim [num] of John Smith with the line
    D0120 billed 50, with its score, its source and its two flags
    [is_secondary] and [has_pending_secondary]. *)
Definition example_match (num score : Z) (source : string) (secondary pending : bool)
  : ClaimMatch :=
  {| claim_num := num; pat_num := 7; claim_fee := F64.of_Z 50;
     cm_date_of_service := "2024-03-05";
     is_secondary := secondary; has_secondary_plan := false;
     has_pending_secondary := pending;
     match_score := Some score; match_source := Some source;
     claim_procs :=
       [ {| mp_CodeSent := Some "D0120"; mp_FeeBilled := F64.of_Z 50;
            mp_ClaimProcNum := 1 |} ];
     is_supplemental := false; claim_status := Some "S" |}.

(** The remittance of the examples with the last name spelled Smyth. *)
Definition smyth_criteria : SearchCriteria :=
  criteria_of "2024-03-05" "John" "Smyth" "" ""
    [eob_line "D0120" (F64.of_Z 50) (F64.of_Z 40)].

(** A remittance of John Smith with the one line D0120 submitted 2.14,
    and a claim line D0140 billed 1.14. *)
Definition one_dollar_criteria : SearchCriteria :=
  criteria_of "2024-03-05" "John" "Smith" "" ""
    [eob_line "D0120" (F64.cents 214) (F64.cents 100)].

Definition one_dollar_procs : list ProcDict := [api_proc "D0140" (F64.cents 114) 1].

(** A claim of five lines and a remittance of five lines with no code in
    common.  In ascending order the billed fees are 30.00, 50.00, 75.50,
    120.00 and 200.00, and the submitted amounts 30.00, 50.50, 76.00,
    150.00 and 200.00: four of the five pairs agree. *)
Definition five_line_procs : list ProcDict :=
  [api_proc "D2740" (F64.cents 12000) 1;
   api_proc "D0140" (F64.cents 5000) 2;
   api_proc "D0220" (F64.cents 7550) 3;
   api_proc "D0230" (F64.cents 3000) 4;
   api_proc "D2950" (F64.cents 20000) 5].

Definition five_line_criteria : SearchCriteria :=
  criteria_of "2024-03-05" "John" "Smith" "" ""
    [eob_line "D0120" (F64.cents 3000) (F64.cents 2000);
     eob_line "D2750" (F64.cents 20000) (F64.cents 10000);
     eob_line "D0150" (F64.cents 5050) (F64.cents 4000);
     eob_line "D0210" (F64.cents 7600) (F64.cents 6000);
     eob_line "D2952" (F64.cents 15000) (F64.cents 9000)].

(** A claim record that carries both keys of the status: [ClaimStatus]
    is Sent and [claim_status] is Received; and the practice whose one
    claim it is. *)
Definition two_status_claim : ApiClaim :=
  {| ac_ClaimNum := Some 104; ac_PatNum := Some 7;
     ac_DateService := Some "2024-03-05"; ac_ClaimStatus := Some "S";
     ac_claim_status := Some "R";
     ac_ClaimFee := Some (F64.of_Z 50); ac_ClaimType := Some "P";
     ac_InsSubNum2 := None; ac_PlanNum2 := None |}.

Definition two_status_remote : Remote :=
  {| entity_patient := fun ln fn =>
       if String.eqb ln "Smith" && String.eqb fn "John"
       then Some (john_smith, [two_status_claim])
       else None;
     entity_subscriber := fun _ _ => None;
     request_claimprocs := fun _ => Ok (RespList [api_proc "D0120" (F64.of_Z 50) 1]);
     request_claims_by_inssub := fun _ => Ok (RespList []);
     request_patient := fun _ => Ok (Some john_smith);
     request_patplans := fun _ => Ok (RespList [tt]) |}.

(** ** Vocabulary of the properties

    The predicates in which the properties of the engine are stated. *)

Section Vocabulary.
Context `{PyLib} `{Remote}.

(** A bare digit string of five characters or more that starts with a
    zero. *)
Definition padded_bare_digits (code : string) : Prop :=
  Py.isdigit code = true /\ 5 <= Py.len code /\ Py.startswith "0" code = true.

(** The set of the normalized codes of a list. *)
Definition normalized_code_set (codes : list string) : gset string :=
  set_map normalize_procedure_code (list_to_set codes : gset string).

(** The billed fee of a line of a claim: the first of the values under
    [fee_billed] and [FeeBilled] that is a number other than zero. *)
Definition billed_fee (proc : ProcDict) : option F64.t :=
  List.find F64.truthy
    (option_list (pd_fee_billed proc) ++ option_list (pd_FeeBilled proc)).

(** The positive billed fees of the lines of a claim and the positive
    submitted amounts of the lines of a remittance, in the order of the
    lines. *)
Definition positive_billed_fees (claim_procedures : list ProcDict) : list F64.t :=
  filter F64.positive (omap billed_fee claim_procedures).

Definition positive_submitted_amounts (eob_procedures : list ProcedurePayment)
  : list F64.t :=
  filter F64.positive (submitted_amt <$> eob_procedures).

(** Two fees agree, as binary64 arithmetic finds it: the rounded
    difference is at most [1.0], or its rounded quotient by the larger
    fee is at most [0.02]. *)
Definition close_fees (p e : F64.t) : Prop :=
  F64.le (F64.abs (F64.sub p e)) F64.one
  \/ F64.le (F64.div (F64.abs (F64.sub p e)) (F64.max p e)) (F64.decimal 2 100).

#[global] Instance close_fees_dec (p e : F64.t) : Decision (close_fees p e).
Proof. unfold close_fees. apply _. Defined.

(** The number of positions at which two lists of fees agree. *)
Fixpoint close_pairs (ps es : list F64.t) : nat :=
  match ps, es with
  | p :: ps', e :: es' =>
      ((if decide (close_fees p e) then 1 else 0) + close_pairs ps' es')%nat
  | _, _ => 0%nat
  end.

(** [arranged] is the list [fees] in ascending order. *)
Definition ascending (fees arranged : list F64.t) : Prop :=
  StronglySorted F64.le arranged /\ Permutation arranged fees.

(** The conditions of the fee-array override, in the words of the rule:
    a name score of 25 or more, two non-empty lists of positive fees of
    one length, and 80 percent of the pairs of the two lists in
    ascending order in agreement. *)
Definition fee_array_conditions (name_score : Z)
    (claim_procedures : list ProcDict) (eob_procedures : list ProcedurePayment) : Prop :=
  let pms := positive_billed_fees claim_procedures in
  let eob := positive_submitted_amounts eob_procedures in
  25 <= name_score
  /\ pms <> [] /\ eob <> []
  /\ List.length pms = List.length eob
  /\ exists pms_sorted eob_sorted : list F64.t,
       ascending pms pms_sorted /\ ascending eob eob_sorted
       /\ (4 * List.length pms <= 5 * close_pairs pms_sorted eob_sorted)%nat.

(** The same conditions on amounts of money as decimal numbers, given in
    cents, with exact arithmetic: two amounts agree when they differ by
    at most 100 cents or by at most two percent of the larger one. *)
Definition close_amounts (p e : Z) : Prop :=
  Z.abs (p - e) <= 100 \/ 100 * Z.abs (p - e) <= 2 * Z.max p e.

#[global] Instance close_amounts_dec (p e : Z) : Decision (close_amounts p e).
Proof. unfold close_amounts. apply _. Defined.

Fixpoint close_amount_pairs (ps es : list Z) : nat :=
  match ps, es with
  | p :: ps', e :: es' =>
      ((if decide (close_amounts p e) then 1 else 0) + close_amount_pairs ps' es')%nat
  | _, _ => 0%nat
  end.

(** The positive fees of the two sides are the binary64 values of the
    positive amounts [pms_cents] and [eob_cents], and these amounts meet
    the conditions of the rule. *)
Definition decimal_fee_array_conditions (name_score : Z)
    (claim_procedures : list ProcDict) (eob_procedures : list ProcedurePayment) : Prop :=
  exists pms_cents eob_cents pms_sorted eob_sorted : list Z,
    positive_billed_fees claim_procedures = F64.cents <$> pms_cents
    /\ positive_submitted_amounts eob_procedures = F64.cents <$> eob_cents
    /\ Forall (fun c => 0 < c) pms_cents /\ Forall (fun c => 0 < c) eob_cents
    /\ 25 <= name_score
    /\ pms_cents <> [] /\ eob_cents <> []
    /\ List.length pms_cents = List.length eob_cents
    /\ StronglySorted Z.le pms_sorted /\ Permutation pms_sorted pms_cents
    /\ StronglySorted Z.le eob_sorted /\ Permutation eob_sorted eob_cents
    /\ (4 * List.length pms_cents <= 5 * close_amount_pairs pms_sorted eob_sorted)%nat.

(** The candidate reaches the name gate of the scorer: its date is the
    date of the criteria and its status is Sent or Held. *)
Definition api_reaches_name_gate (api_claim_data : ApiClaim) (criteria : SearchCriteria)
  : Prop :=
  (exists d : date,
      strptime_date (default "" (ac_DateService api_claim_data)) = Some d
      /\ strptime_date (date_of_service criteria) = Some d)
  /\ (ac_ClaimStatus api_claim_data = Some "S" \/ ac_ClaimStatus api_claim_data = Some "H").

(** The candidate passes the procedure gate with the name score
    [name_score]: neither side has a line; or both sides have lines and
    the procedure match is above 49 percent, or the conditions of the
    fee-array override hold, or the claim has as many lines as the
    remittance. *)
Definition api_passes_procedure_gate (name_score : Z) (procs : list ProcDict)
    (criteria : SearchCriteria) : Prop :=
  (procs = [] /\ procedures (payment_info criteria) = [])
  \/ (procs <> [] /\ procedures (payment_info criteria) <> []
      /\ ((49 # 100 < api_procedure_percentage criteria procs)%Q
          \/ fee_array_conditions name_score procs (procedures (payment_info criteria))
          \/ List.length procs = List.length (procedures (payment_info criteria)))).

(** The candidate passes the four gates of the scorer, the name gate
    with the score [name_score]: the date and the status, the name of
    the owner of the claim against the name of the patient of the
    criteria, and the procedures. *)
Definition api_passes_four_gates (api_claim_data : ApiClaim) (procs : list ProcDict)
    (criteria : SearchCriteria) (owner : PatientDict) (name_score : Z) : Prop :=
  api_reaches_name_gate api_claim_data criteria
  /\ name_gate (p_FName owner) (p_LName owner)
       (patient_first_name criteria) (patient_last_name criteria) = Some name_score
  /\ api_passes_procedure_gate name_score procs criteria.

(** Every candidate that the two stages collect was accepted by the
    scorer with the score that it carries. *)
Definition scored_by_scorer (criteria : SearchCriteria) (c : Candidate) : Prop :=
  _score_api_claim_candidate (api_claim_raw c) (claim_procs_raw c) criteria
    (source_patient_details c)
  = (cand_score c, cand_used_alternate_benefit c, cand_override_type c)
  /\ 0 < cand_score c.

(** The names of the patient on a cached claim. *)
Definition cached_patient_fn (claim : CachedClaim) : option string :=
  or_str (cc_patient_first_name claim) (cc_pat_fn claim).
Definition cached_patient_ln (claim : CachedClaim) : option string :=
  or_str (cc_patient_last_name claim) (cc_pat_ln claim).

(** The date string of a cached claim. *)
Definition cached_date_str (claim : CachedClaim) : option string :=
  or_str (or_str (cc_date_of_service claim) (cc_claim_date claim)) (cc_DateService claim).

(** The cached claim reaches the name gate: its date is the target date,
    its status passes and both names of its patient are present. *)
Definition cache_reaches_name_gate (target_date_obj : date) (claim : CachedClaim) : Prop :=
  str_truthy (cached_date_str claim) = true
  /\ strptime_date (default "" (cached_date_str claim)) = Some target_date_obj
  /\ cache_status_passes claim = true
  /\ str_truthy (cached_patient_fn claim) = true
  /\ str_truthy (cached_patient_ln claim) = true.

(** What the loop does with a cached claim that passed the name gate with
    the score [name_score]. *)
Definition cache_after_name_gate (criteria : SearchCriteria) (target_date_obj : date)
    (claim : CachedClaim) (name_score : Z) (o : cache_outcome) : Prop :=
  let pct := cache_procedure_percentage criteria claim in
  let eob := procedures (payment_info criteria) in
  let fee :=
    _has_strong_non_procedure_match_with_fees target_date_obj target_date_obj name_score
      (cached_procs_list claim) eob in
  let cnt :=
    _has_procedure_count_match target_date_obj target_date_obj name_score
      (cached_procs_list claim) eob in
  match o with
  | Skipped g => g = GateProcedures /\ (pct <= 49 # 100)%Q /\ fee = false /\ cnt = false
  | Matched m =>
      ((49 # 100 < pct)%Q \/ ((pct <= 49 # 100)%Q /\ (fee = true \/ cnt = true)))
      /\ match_score m
         = Some (30 + 10 + name_score + 30 + subscriber_bonus_points criteria claim)
      /\ match_source m
         = Some (if Qleb pct (49 # 100)
                 then if cnt then "database_count_match" else "database_alternate_benefit"
                 else "database_strict")
      /\ has_pending_secondary m = false
  end.

(** The convention of the pending secondary, for the sorted matches [ms]
    that passed the gates and the list [res] that is returned. *)
Definition pending_secondary_convention (ms res : list ClaimMatch) : Prop :=
  let primary := List.filter (fun m => negb (is_secondary m)) ms in
  let secondary := List.filter (fun m => is_secondary m) ms in
  (primary <> [] -> secondary <> [] ->
   res = (List.map set_has_pending_secondary primary ++ secondary)%list
   /\ forall m, In m res -> is_secondary m = false -> has_pending_secondary m = true)
  /\ (secondary = [] -> res = primary)
  /\ (primary = [] -> res = secondary)
  /\ (forall m, In m res -> is_secondary m = true -> has_pending_secondary m = false).

(** What a supplemental match says of the claim it was built from. *)
Definition supplemental_evidence (criteria : SearchCriteria) (claims : list ApiClaim)
    (m : ClaimMatch) : Prop :=
  is_supplemental m = true
  /\ match_source m = Some "api_supplemental"
  /\ match_score m = None
  /\ exists (api_claim : ApiClaim) (target_date_obj : date) (procs : list ProcDict)
            (proc : ProcDict) (code : string),
       In api_claim claims
       /\ ac_ClaimNum api_claim = Some (claim_num m)
       /\ (ac_ClaimStatus api_claim = Some "R" \/ ac_ClaimStatus api_claim = Some "S")
       /\ strptime_date (date_of_service criteria) = Some target_date_obj
       /\ strptime_date (default "" (ac_DateService api_claim)) = Some target_date_obj
       /\ request_claimprocs (claim_num m) = Ok (RespList procs)
       /\ In proc procs
       /\ pd_CodeSent proc = Some code
       /\ normalize_procedure_code code ∈ eob_proc_codes_normalized criteria.

End Vocabulary.

(** ** Further vocabulary

    Definitions used by the properties of the parts of the engine that
    surround the gates. *)

(** The string of [k] zeros. *)
Fixpoint zeros (k : nat) : string :=
  match k with
  | O => EmptyString
  | S k' => String "0" (zeros k')
  end.

(** The edit distance by its recurrence on the last characters of the two
    strings; the strings are given reversed, the last character first. *)
Fixpoint edit_distance (p q : list ascii) : Z :=
  match p with
  | [] => Z.of_nat (List.length q)
  | c :: p' =>
      (fix inner (q : list ascii) : Z :=
         match q with
         | [] => Z.of_nat (List.length p)
         | b :: q' =>
             Z.min (Z.min (edit_distance p' (b :: q') + 1) (inner q' + 1))
                   (edit_distance p' q' + (if Ascii.eqb c b then 0 else 1))
         end) q
  end.

(** The row of the table of distances for the reversed prefix [p] of the
    first string: the columns from the reversed prefix [q] of the second
    string on, [rest] being what follows [q]. *)
Fixpoint row_from (p q rest : list ascii) : list Z :=
  edit_distance p q
  :: match rest with
     | [] => []
     | b :: r => row_from p (b :: q) r
     end.

(** A list in the order of [sorted(..., key=..., reverse=True)]: no
    element has a smaller key than one that follows it. *)
Definition descending {A} (key : A -> Z) (l : list A) : Prop :=
  StronglySorted (fun a b => key b <= key a) l.

(** The claim number under which the two collection loops record a
    candidate. *)
Definition cand_claim_num (c : Candidate) : Z :=
  default 0 (ac_ClaimNum (api_claim_raw c)).

(** The invariant of the two collection loops: the candidates have
    distinct claim numbers, all of them recorded as processed. *)
Definition distinct_candidates (st : collect_state) : Prop :=
  List.NoDup (List.map cand_claim_num (fst st))
  /\ forall c, In c (fst st) -> cand_claim_num c ∈ snd st.

(** A library whose two searches always raise [re.error]. *)
Definition raising_lib : PyLib :=
  {| strptime_date := parse_iso_date;
     fn_regex_search := fun _ _ => None;
     ln_regex_search := fun _ _ => None |}.

(** The cached claim of the examples stored without its claim number. *)
Definition unnumbered_cached_claim : CachedClaim :=
  {| cc_claim_num := None; cc_ClaimNum := None;
     cc_pat_num := Some 7; cc_PatNum := None;
     cc_date_of_service := Some "2024-03-05"; cc_claim_date := None;
     cc_DateService := None;
     cc_claim_status := Some "S"; cc_ClaimStatus := None;
     cc_is_secondary := None; cc_IsSecondary := None;
     cc_plan_type := None; cc_ClaimType := None;
     cc_patient_first_name := Some "John"; cc_pat_fn := None;
     cc_patient_last_name := Some "Smith"; cc_pat_ln := None;
     cc_procedures := Some [api_proc "D0120" (F64.of_Z 50) 1];
     cc_claim_procs := None;
     cc_subscriber_first_name := None;
     cc_subscriber_last_name := None;
     cc_claim_fee := None; cc_ClaimFee := None;
     cc_has_secondary_plan := None; cc_is_supplemental := None |}.

(** A line of a supplemental match: it carries the code as the claim sent
    it, and the normalized code is one of the criteria. *)
Definition overlapping_line (eob_codes : gset string) (line : MatchProc) : Prop :=
  exists code : string,
    mp_CodeSent line = Some code /\ normalize_procedure_code code ∈ eob_codes.

(** ** The caller ([OpenDentalAPI.find_matching_claims])

    The method of [claims_extractor.py] through which the matcher is
    used: the cache first, then the supplemental fallback. *)

(** The dictionary [claims_data]: the list under its key [claims], when
    the key is present, and whether it holds another key. *)
Record ClaimsData := {
  cd_claims : option (list CachedClaim);
  cd_other_keys : bool
}.

(** [bool(claims_data)] for an optional dictionary: [None] and the empty
    dictionary are false. *)
Definition claims_data_truthy (claims_data : option ClaimsData) : bool :=
  match claims_data with
  | None => false
  | Some d =>
      match cd_claims d with
      | Some _ => true
      | None => cd_other_keys d
      end
  end.

(** [claims_data.get('claims', [])]. *)
Definition claims_of (claims_data : option ClaimsData) : list CachedClaim :=
  match claims_data with
  | Some d => default [] (cd_claims d)
  | None => []
  end.

Module OpenDentalAPI.
Section Caller.
Context `{PyLib} `{Remote}.

(** [OpenDentalAPI.find_matching_claims]; an exception of the search in
    the cache is caught, and the fallback catches its own. *)
Definition find_matching_claims (criteria : SearchCriteria)
    (claims_data : option ClaimsData) (skip_api_fallback : bool) : list ClaimMatch :=
  let api_supplemental_matches :=
    find_matching_claims_api_fallback criteria skip_api_fallback in
  if claims_data_truthy claims_data then
    match filter_cached_claims criteria (claims_of claims_data) with
    | Ok db_matches =>
        if negb (is_nil db_matches) then db_matches
        else if skip_api_fallback then []
        else api_supplemental_matches
    | Raise _ =>
        if skip_api_fallback then [] else api_supplemental_matches
    end
  else if skip_api_fallback then []
  else api_supplemental_matches.

End Caller.
End OpenDentalAPI.

(** ** The search of a person by name ([_get_entity_data])

    The scores of the first names are the exact rationals of the
    decimal constants of the source. *)

(** What [make_request] returns where a list of records is awaited: the
    list, or another value, of which the truth value and whether [len]
    applies to it are all that the function can observe before it fails. *)
Inductive reply (A : Type) := ReplyList (l : list A) | ReplyOther (truthy sized : bool).
Arguments ReplyList {A} l.
Arguments ReplyOther {A} truthy sized.

(** An insurance subscription: the two keys that the function reads. *)
Record InsSubRecord := { ir_DateTerm : option string; ir_InsSubNum : option Z }.

(** The requests of [_get_entity_data]: [patients/Simple] by last name
    and, or not, first name, [claims?PatNum=] and [inssubs?Subscriber=];
    [None] is an exception of [make_request].  [today] is
    [datetime.now().date()]. *)
Class Practice := {
  patients_simple : string -> option string -> option (reply PatientDict);
  claims_of_patient : Z -> option (reply ApiClaim);
  inssubs_of_subscriber : Z -> option (reply InsSubRecord);
  today : date
}.

(** The dictionary that [_get_entity_data] returns. *)
Inductive EntityData :=
| NoEntity
| PatientEntity (patient : PatientDict) (claims : reply ApiClaim)
| SubscriberEntity (subscriber : PatientDict) (inssubs : option InsSubRecord).

(** [bool(r)]. *)
Definition reply_truthy {A} (r : reply A) : bool :=
  match r with
  | ReplyList l => negb (is_nil l)
  | ReplyOther truthy _ => truthy
  end.

(** [len(r)] in a log line: it raises on a value without a length. *)
Definition reply_len {A} (r : reply A) : option unit :=
  match r with
  | ReplyList _ => Some tt
  | ReplyOther _ sized => if sized then Some tt else None
  end.

(** [a < b] on dates. *)
Definition date_ltb (a b : date) : bool :=
  (year a <? year b)
  || ((year a =? year b)
      && ((month a <? month b) || ((month a =? month b) && (day a <? day b)))).

(** The parts of a last name of more than one character. *)
Definition last_name_parts_of (last_name : string) : list string :=
  List.filter (fun part => Py.truthy part && (1 <? Py.len part))
    (split_tokens sep_space_hyphen_apos last_name).

(** The score of the first name of a candidate of the search by last
    name only (lines 771-788). *)
Definition first_name_score (first_name_lower : string) (entity_candidate : PatientDict)
  : Q :=
  let entity_first_name := Py.lower (default "" (p_FName entity_candidate)) in
  if String.eqb entity_first_name first_name_lower then 1%Q
  else if Py.startswith first_name_lower entity_first_name then (9 # 10)%Q
  else if Py.startswith entity_first_name first_name_lower then (8 # 10)%Q
  else
    let distance := levenshtein_distance entity_first_name first_name_lower in
    let max_len := Z.max (Py.len entity_first_name) (Py.len first_name_lower) in
    if 0 <? max_len then
      let similarity := (1 - inject_Z distance / inject_Z max_len)%Q in
      if Qleb (6 # 10) similarity then (similarity * (7 # 10))%Q else 0%Q
    else 0%Q.

(** An entry of [best_matches]. *)
Record ScoredEntity := { se_entity : PatientDict; se_score : Q }.

(** [sorted(best_matches, key=lambda x: x["score"], reverse=True)]. *)
Fixpoint insert_by_score (x : ScoredEntity) (l : list ScoredEntity) : list ScoredEntity :=
  match l with
  | [] => [x]
  | y :: r =>
      if Qltb (se_score x) (se_score y) then y :: insert_by_score x r else x :: l
  end.

Definition sort_by_score (l : list ScoredEntity) : list ScoredEntity :=
  foldr insert_by_score [] l.

(** The candidates of the search by last name only whose first name
    passes the threshold. *)
Definition best_matches_of (first_name_lower : string)
    (all_last_name_entities : list PatientDict) : list ScoredEntity :=
  List.filter (fun m => Qltb (75 # 100) (se_score m))
    (List.map
       (fun entity_candidate =>
          {| se_entity := entity_candidate;
             se_score := first_name_score first_name_lower entity_candidate |})
       all_last_name_entities).

(** The choice among the patients of one last name (lines 766-802);
    [None] is the [KeyError] of a log line that reads [FName] or [LName]
    by subscript.  [entities_to_process] is left as it is when no first
    name passes the threshold. *)
Definition select_by_first_name (first_name : string)
    (all_last_name_entities : list PatientDict)
    (entities_to_process : reply PatientDict) : option (reply PatientDict) :=
  let first_name_lower := Py.lower first_name in
  match sort_by_score (best_matches_of first_name_lower all_last_name_entities) with
  | [] => Some entities_to_process
  | best :: others =>
      if Qleb (70 # 100) (se_score best) then
        match others with
        | [] =>
            _ ← p_FName (se_entity best); _ ← p_LName (se_entity best);
            Some (ReplyList [se_entity best])
        | next :: _ =>
            if Qltb (se_score next + (1 # 10)) (se_score best) then
              _ ← p_FName (se_entity best); _ ← p_LName (se_entity best);
              Some (ReplyList [se_entity best])
            else
              _ ← p_FName (se_entity best); _ ← p_FName (se_entity next);
              Some (ReplyList [])
        end
      else
        _ ← p_FName (se_entity best); Some (ReplyList [])
  end.

Section EntityData.
Context `{PyLib} `{Practice}.

(** Attempt 2: the parts of the last name, one after the other, with the
    first name; the first answer that is not empty ends the loop. *)
Fixpoint query_last_name_parts (first_name : string) (parts : list string)
    (initial_entities : reply PatientDict) : option (reply PatientDict) :=
  match parts with
  | [] => Some initial_entities
  | part_ln :: rest =>
      entities_from_part ← patients_simple part_ln (Some first_name);
      if reply_truthy entities_from_part
      then _ ← reply_len entities_from_part; Some entities_from_part
      else query_last_name_parts first_name rest initial_entities
  end.

(** Attempt 3: the search by the last name only.  An answer that is true
    and not a list of records fails in the loop over it. *)
Definition last_name_only_search (last_name first_name : string)
    (entities_to_process : reply PatientDict) : option (reply PatientDict) :=
  all_last_name_entities ← patients_simple last_name None;
  if reply_truthy all_last_name_entities then
    match all_last_name_entities with
    | ReplyList l => select_by_first_name first_name l entities_to_process
    | ReplyOther _ _ => None
    end
  else Some entities_to_process.

(** Attempt 4: the last part of the last name, unless it is one of
    [last_name_parts], the parts that attempt 2 has computed. *)
Definition last_part_search (last_name first_name : string)
    (last_name_parts : list string) (entities_to_process : reply PatientDict)
  : option (reply PatientDict) :=
  let original_last_name_parts := last_name_parts_of last_name in
  if (1 <? List.length original_last_name_parts)%nat then
    let last_part_of_original_ln := List.last original_last_name_parts "" in
    if negb (existsb (String.eqb (Py.lower last_part_of_original_ln))
               (List.map Py.lower last_name_parts))
    then
      entities_from_last_part ←
        patients_simple last_part_of_original_ln (Some first_name);
      if reply_truthy entities_from_last_part
      then _ ← reply_len entities_from_last_part; Some entities_from_last_part
      else Some entities_to_process
    else Some entities_to_process
  else Some entities_to_process.

(** The generator of [active_inssub]: the first subscription without a
    term or whose term is after today; the outer [None] is the
    [KeyError] of a missing [DateTerm] or the [ValueError] of one that is
    not a date. *)
Fixpoint first_active_inssub (inssubs : list InsSubRecord)
  : option (option InsSubRecord) :=
  match inssubs with
  | [] => Some None
  | sub :: rest =>
      date_term ← ir_DateTerm sub;
      if String.eqb date_term "0001-01-01" then Some (Some sub)
      else
        d ← strptime_date date_term;
        if date_ltb today d then Some (Some sub) else first_active_inssub rest
  end.

(** A subscription in force: it has no term, or its term is after
    today. *)
Definition inssub_in_force (sub : InsSubRecord) : Prop :=
  exists date_term : string,
    ir_DateTerm sub = Some date_term
    /\ (date_term = "0001-01-01"
        \/ exists d : date, strptime_date date_term = Some d /\ date_ltb today d = true).

(** The body of [_get_entity_data] under its [try]; [None] is an
    exception. *)
Definition get_entity_data_in_try (last_name first_name entity_type : string)
  : option EntityData :=
  let is_patient := String.eqb (Py.lower entity_type) "patient" in
  if negb (nonblank first_name) || negb (nonblank last_name) then Some NoEntity
  else
    initial_entities ← patients_simple last_name (Some first_name);
    initial_entities ←
      (if negb (reply_truthy initial_entities) && Py.truthy first_name then
         let last_name_parts := last_name_parts_of last_name in
         if (1 <? List.length last_name_parts)%nat
         then query_last_name_parts first_name last_name_parts initial_entities
         else Some initial_entities
       else Some initial_entities);
    let entities_to_process := initial_entities in
    entities_to_process ←
      (if negb (reply_truthy entities_to_process) && Py.truthy first_name
       then last_name_only_search last_name first_name entities_to_process
       else Some entities_to_process);
    entities_to_process ←
      (if negb (reply_truthy entities_to_process) && Py.truthy first_name
       then last_part_search last_name first_name (last_name_parts_of last_name)
              entities_to_process
       else Some entities_to_process);
    if negb (reply_truthy entities_to_process) then Some NoEntity
    else
      entity ← match entities_to_process with
               | ReplyList l => head l
               | ReplyOther _ _ => None
               end;
      pat_num ← p_PatNum entity;
      if is_patient then
        claims ← claims_of_patient pat_num;
        _ ← reply_len claims;
        Some (PatientEntity entity claims)
      else
        inssubs ← inssubs_of_subscriber pat_num;
        _ ← reply_len inssubs;
        if negb (reply_truthy inssubs) then Some (SubscriberEntity entity None)
        else
          match inssubs with
          | ReplyList l =>
              first_inssub ← head l;
              found ← first_active_inssub l;
              let active_inssub := default first_inssub found in
              _ ← ir_InsSubNum active_inssub;
              Some (SubscriberEntity entity (Some active_inssub))
          | ReplyOther _ _ => None
          end.

(** [ClaimMatcher._get_entity_data]: every exception gives the empty
    dictionary. *)
Definition _get_entity_data (last_name first_name entity_type : string) : EntityData :=
  default NoEntity (get_entity_data_in_try last_name first_name entity_type).

End EntityData.

(** A practice in which John Smith holds a subscription that ended in
    2020 and one without a term. *)
Definition subscriber_practice : Practice :=
  {| patients_simple := fun _ _ => Some (ReplyList [john_smith]);
     claims_of_patient := fun _ => Some (ReplyList []);
     inssubs_of_subscriber := fun _ =>
       Some (ReplyList [ {| ir_DateTerm := Some "2020-01-31"; ir_InsSubNum := Some 11 |};
                         {| ir_DateTerm := Some "0001-01-01"; ir_InsSubNum := Some 12 |} ]);
     today := march_5 |}.

(** A practice with the Smiths John and J, for the search by the last
    name only. *)
Definition smith_practice : Practice :=
  {| patients_simple := fun ln fn =>
       match fn with
       | Some _ => Some (ReplyList [])
       | None =>
           if String.eqb ln "Smith"
           then Some (ReplyList
                        [ {| p_PatNum := Some 8; p_FName := Some "J"; p_LName := Some "Smith" |};
                          john_smith ])
           else Some (ReplyList [])
       end;
     claims_of_patient := fun _ =>
       Some (ReplyList [api_claim_of 101 "2024-03-05" "S" "P"]);
     inssubs_of_subscriber := fun _ => Some (ReplyList []);
     today := march_5 |}.

(** ** Proof steps *)

(** Splits a conjunction of implications and closes the conjuncts that
    hold by a clash of constants, by a hypothesis or by arithmetic. *)
Ltac tags_conjuncts :=
  repeat match goal with
         | |- _ /\ _ => split
         | |- _ <-> _ => split
         end;
  intros; try discriminate; try congruence; auto; try lia.

(** * Properties *)

(** ** Worked examples *)

Example normalize_padded : normalize_procedure_code "D000120" = "D0120".
Proof. reflexivity. Qed.

Example match_codes_ortho :
  match_percentage (_match_procedure_codes ["D8670"; "D8670"] ["D8670"]) = 1%Q.
Proof. vm_compute. reflexivity. Qed.

Example match_codes_half :
  match_percentage (_match_procedure_codes ["D0120"; "D0140"] ["D0120";"D1110"]) = (1 # 2)%Q.
Proof. vm_compute. reflexivity. Qed.

Example sorted_ex :
  sorted_fees [F64.of_Z 3; F64.cents 50; F64.of_Z 2]
  = [F64.cents 50; F64.of_Z 2; F64.of_Z 3].
Proof. vm_compute. reflexivity. Qed.

(** [abs(1.14 - 2.14)] is [1.0000000000000002], which is more than
    [1.0], and [(51.0 - 49.98) / 51.0] is more than [0.02]. *)
Example fee_pair_one_dollar_apart :
  F64.abs (F64.sub (F64.cents 114) (F64.cents 214))
  = S754_finite false 4503599627370497 (-52)
  /\ F64.one = S754_finite false 4503599627370496 (-52)
  /\ fee_pair_matches (F64.cents 114) (F64.cents 214) = false.
Proof. vm_compute. repeat split. Qed.

Example fee_pair_two_percent_apart :
  fee_pair_matches (F64.cents 5100) (F64.cents 4998) = false
  /\ fee_pair_matches (F64.cents 5100) (F64.cents 5000) = true.
Proof. vm_compute. split; reflexivity. Qed.

Example related_william_bill : are_names_related "William" "Bill" = true.
Proof. vm_compute. reflexivity. Qed.

Example lev_kitten : levenshtein_distance "kitten" "sitting" = 3.
Proof. vm_compute. reflexivity. Qed.

Example norm_name_ex : normalize_name_for_matching "Dr. O'Conn0r Jr" = "o conor".
Proof. vm_compute. reflexivity. Qed.

Example sim_ex : score (calculate_enhanced_similarity "smith" "smyth") = 10.
Proof. vm_compute. reflexivity. Qed.

Example demo_api_score :
  @_score_api_claim_candidate prefix_lib (api_claim_of 101 "2024-03-05" "S" "P")
    [api_proc "D0120" (F64.of_Z 50) 1] demo_criteria john_smith = (100, false, "").
Proof. vm_compute. reflexivity. Qed.

Example demo_cache :
  option_map (List.map (fun m => (claim_num m, match_score m, has_pending_secondary m)))
    (match @filter_cached_claims prefix_lib demo_criteria
             [cached_claim_of 1 "S" false; cached_claim_of 2 "S" true] with
     | Ok l => Some l | Raise _ => None end)
  = Some [(1, Some 115, true); (2, Some 115, false)].
Proof. vm_compute. reflexivity. Qed.

Example demo_remote_search :
  option_map (List.map (fun m => (claim_num m, match_score m, has_pending_secondary m)))
    (match @find_matching_claims prefix_lib demo_remote demo_criteria with
     | Ok l => Some l | Raise _ => None end)
  = Some [(101, Some 100, true); (102, Some 100, false)].
Proof. vm_compute. reflexivity. Qed.

Example demo_fallback :
  List.map (fun m => (claim_num m, match_score m, match_source m))
    (@find_matching_claims_api_fallback prefix_lib demo_remote demo_criteria false)
  = [(101, None, Some "api_supplemental"); (102, None, Some "api_supplemental");
     (103, None, Some "api_supplemental")].
Proof. vm_compute. reflexivity. Qed.

(** ** Procedure codes *)

(** C4 (failing input).  Normalizing twice is not normalizing once on a
    bare digit string of five characters or more that starts with a zero:
    the branch for bare digits adds the prefix and keeps the padding that
    the branch for prefixed codes removes. *)
Theorem normalize_not_idempotent_on_padded_bare_digits :
  normalize_procedure_code "00120" = "D00120" /\
  normalize_procedure_code (normalize_procedure_code "00120") = "D0120" /\
  normalize_procedure_code (normalize_procedure_code "00120")
    <> normalize_procedure_code "00120".
Proof. repeat split; vm_compute; congruence. Qed.

Lemma startswith_char (a c : ascii) (r : string) :
  Py.startswith (String a EmptyString) (String c r) = Ascii.eqb a c.
Proof.
  unfold Py.startswith. cbn [String.prefix].
  destruct (ascii_dec a c) as [-> | Hne].
  - rewrite Ascii.eqb_refl. destruct r; reflexivity.
  - symmetry. apply Ascii.eqb_neq. exact Hne.
Qed.

Lemma len_String (c : ascii) (r : string) : Py.len (String c r) = 1 + Py.len r.
Proof. unfold Py.len. cbn [String.length]. lia. Qed.

Lemma len_nonneg (s : string) : 0 <= Py.len s.
Proof. unfold Py.len. lia. Qed.

Lemma normalize_prefixed (digits : string) :
  normalize_procedure_code (String "D" digits)
  = if (4 <? Py.len digits) && Py.isdigit digits
    then String "D" (strip_leading_zeros digits)
    else String "D" digits.
Proof.
  unfold normalize_procedure_code. cbn [Py.truthy negb Py.tail].
  rewrite startswith_char, Ascii.eqb_refl, len_String. cbn [andb negb].
  replace (5 <? 1 + Py.len digits) with (4 <? Py.len digits)
    by (destruct (4 <? Py.len digits) eqn:E; symmetry;
        [apply Z.ltb_lt; apply Z.ltb_lt in E | apply Z.ltb_ge; apply Z.ltb_ge in E]; lia).
  destruct (4 <? Py.len digits); cbn [andb]; [|reflexivity].
  destruct (Py.isdigit digits); reflexivity.
Qed.

Lemma normalize_unprefixed (c : ascii) (r : string) :
  Ascii.eqb "D" c = false ->
  normalize_procedure_code (String c r)
  = if Py.isdigit (String c r) then String "D" (String c r) else String c r.
Proof.
  intros Hc. unfold normalize_procedure_code. cbn [Py.truthy negb].
  rewrite startswith_char, Hc. cbn [andb negb]. reflexivity.
Qed.

Lemma strip_leading_zeros_short (digits : string) :
  Py.len digits <= 4 \/ Py.startswith "0" digits = false ->
  strip_leading_zeros digits = digits.
Proof.
  destruct digits as [|c r]; [reflexivity|]. cbn [strip_leading_zeros].
  rewrite startswith_char. intros [Hlen | Hc].
  - rewrite (proj2 (Z.ltb_ge _ _) Hlen). reflexivity.
  - rewrite Ascii.eqb_sym, Hc, andb_false_r. reflexivity.
Qed.

Lemma strip_leading_zeros_result (digits : string) :
  4 < Py.len digits ->
  4 <= Py.len (strip_leading_zeros digits) <= Py.len digits
  /\ (Py.len (strip_leading_zeros digits) <= 4
      \/ Py.startswith "0" (strip_leading_zeros digits) = false)
  /\ (Py.startswith "0" digits = true ->
      Py.len (strip_leading_zeros digits) < Py.len digits).
Proof.
  induction digits as [|c r IH]; [unfold Py.len; cbn; lia|].
  intros Hlen. cbn [strip_leading_zeros]. rewrite startswith_char.
  rewrite (proj2 (Z.ltb_lt _ _) Hlen). cbn [andb].
  rewrite (Ascii.eqb_sym c "0").
  destruct (Ascii.eqb "0" c) eqn:Hc.
  - rewrite len_String in *.
    destruct (Z_lt_le_dec 4 (Py.len r)) as [Hr | Hr].
    + destruct (IH Hr) as (Hb & Hs & _).
      split; [lia|]. split; [exact Hs | lia].
    + rewrite strip_leading_zeros_short by (left; exact Hr).
      split; [lia|]. split; [left; lia | lia].
  - split; [lia|]. split; [|discriminate].
    right. rewrite startswith_char. exact Hc.
Qed.

Lemma strip_leading_zeros_digits (digits : string) :
  Py.all_chars Py.is_digit digits = true ->
  Py.all_chars Py.is_digit (strip_leading_zeros digits) = true.
Proof.
  induction digits as [|c r IH]; [reflexivity|]. intros Hd.
  cbn [strip_leading_zeros]. destruct (_ && _); [|exact Hd].
  apply IH. cbn [Py.all_chars] in Hd. apply andb_prop in Hd. tauto.
Qed.

Lemma isdigit_all_chars (s : string) :
  Py.isdigit s = true <-> s <> EmptyString /\ Py.all_chars Py.is_digit s = true.
Proof.
  destruct s; cbn [Py.isdigit]; split.
  - discriminate.
  - intros [Hne _]. congruence.
  - intros Hd. split; [discriminate | exact Hd].
  - tauto.
Qed.

Lemma isdigit_not_prefixed (c : ascii) (r : string) :
  Py.isdigit (String c r) = true -> Ascii.eqb "D" c = false.
Proof.
  cbn [Py.isdigit Py.all_chars]. intros Hd. apply andb_prop in Hd as [Hc _].
  destruct (Ascii.eqb "D" c) eqn:E; [|reflexivity].
  apply Ascii.eqb_eq in E. subst c. vm_compute in Hc. discriminate.
Qed.

(** A prefixed code whose digits are short or not padded is its own
    normal form. *)
Lemma normalize_prefixed_fixed (digits : string) :
  Py.len digits <= 4 \/ Py.startswith "0" digits = false ->
  normalize_procedure_code (String "D" digits) = String "D" digits.
Proof.
  intros Hd. rewrite normalize_prefixed.
  destruct (_ && _); [|reflexivity]. rewrite strip_leading_zeros_short by exact Hd.
  reflexivity.
Qed.

Lemma String_len_neq (a b : string) : Py.len a < Py.len b -> a <> b.
Proof. intros Hlt ->. lia. Qed.

(** Normalizing twice is normalizing once on every code but the padded
    bare digit strings. *)
Lemma normalize_idempotent_iff (code : string) :
  normalize_procedure_code (normalize_procedure_code code) = normalize_procedure_code code
  <-> ~ padded_bare_digits code.
Proof.
  unfold padded_bare_digits.
  destruct code as [|c r].
  - split; [|reflexivity]. intros _ (Hd & _). discriminate.
  - destruct (Ascii.eqb "D" c) eqn:Hc.
    + apply Ascii.eqb_eq in Hc. subst c. split.
      * intros _ (Hd & _). apply isdigit_not_prefixed in Hd. discriminate.
      * intros _. rewrite normalize_prefixed.
        destruct ((4 <? Py.len r) && Py.isdigit r) eqn:Hb.
        -- apply andb_prop in Hb as [Hlen _]. apply Z.ltb_lt in Hlen.
           destruct (strip_leading_zeros_result r Hlen) as (_ & Hs & _).
           apply normalize_prefixed_fixed. exact Hs.
        -- rewrite normalize_prefixed, Hb. reflexivity.
    + rewrite (normalize_unprefixed c r Hc).
      destruct (Py.isdigit (String c r)) eqn:Hd.
      * rewrite normalize_prefixed, Hd, andb_true_r.
        destruct (4 <? Py.len (String c r)) eqn:Hlen.
        -- apply Z.ltb_lt in Hlen.
           destruct (strip_leading_zeros_result _ Hlen) as (_ & _ & Hshrink).
           destruct (Py.startswith "0" (String c r)) eqn:Hz.
           ++ split.
              ** intros Heq. exfalso. injection Heq as Heq.
                 apply (String_len_neq _ _ (Hshrink eq_refl)). exact Heq.
              ** intros Hn. exfalso. apply Hn. repeat split; [lia].
           ++ rewrite strip_leading_zeros_short by (right; exact Hz).
              split; [|reflexivity]. intros _ (_ & _ & ?). discriminate.
        -- apply Z.ltb_ge in Hlen. split; [|reflexivity].
           intros _ (_ & ? & _). lia.
      * rewrite (normalize_unprefixed c r Hc), Hd.
        split; [|reflexivity]. intros _ (? & _). discriminate.
Qed.

Lemma size_list_to_set_singleton (l : list string) (x : string) :
  list_to_set (C := gset string) l = {[ x ]} ->
  size (list_to_set (C := gset string) l) = 1%nat.
Proof. intros ->. apply size_singleton. Qed.

Lemma list_to_set_singleton_head (x : string) (l : list string) (y : string) :
  list_to_set (C := gset string) (x :: l) = {[ y ]} -> x = y.
Proof.
  intros Heq.
  assert (Hin : x ∈ (list_to_set (x :: l) : gset string)) by set_solver.
  rewrite Heq in Hin. set_solver.
Qed.

Lemma size_one_list_to_set_head (x : string) (l : list string) :
  size (list_to_set (C := gset string) (x :: l)) = 1%nat ->
  list_to_set (C := gset string) (x :: l) = {[ x ]}.
Proof.
  intros Hsz. apply size_1_elem_of in Hsz as [y Hy].
  apply leibniz_equiv in Hy.
  rewrite Hy. f_equal. symmetry. eapply list_to_set_singleton_head. exact Hy.
Qed.

Lemma size_set_map_nonempty (l : list string) :
  l <> [] ->
  size (set_map (D := gset string) normalize_procedure_code
          (list_to_set (C := gset string) l)) <> 0%nat.
Proof.
  destruct l as [|x l]; [congruence|]. intros _ Hz.
  apply size_empty_inv in Hz.
  assert (normalize_procedure_code x ∈
            (set_map normalize_procedure_code (list_to_set (x :: l) : gset string)
             : gset string)).
  { apply elem_of_map. exists x. set_solver. }
  set_solver.
Qed.

(** C3.  The match percentage is 0 when a list is empty; it is 1 when
    each list holds one distinct code and the two codes are equal once
    normalized, whatever the number of repetitions; in every other case
    it is the size of the intersection of the two normalized code sets
    over the size of the normalized payment code set. *)
Theorem match_percentage_cases (payment_codes db_codes : list string) :
  ((payment_codes = [] \/ db_codes = []) ->
   match_percentage (_match_procedure_codes payment_codes db_codes) = 0%Q)
  /\ (forall p d : string,
        list_to_set (C := gset string) payment_codes = {[ p ]} ->
        list_to_set (C := gset string) db_codes = {[ d ]} ->
        normalize_procedure_code p = normalize_procedure_code d ->
        match_percentage (_match_procedure_codes payment_codes db_codes) = 1%Q)
  /\ (payment_codes <> [] -> db_codes <> [] ->
      ~ (exists p d : string,
           list_to_set (C := gset string) payment_codes = {[ p ]}
           /\ list_to_set (C := gset string) db_codes = {[ d ]}
           /\ normalize_procedure_code p = normalize_procedure_code d) ->
      match_percentage (_match_procedure_codes payment_codes db_codes)
      = ratio (size (normalized_code_set payment_codes ∩ normalized_code_set db_codes))
              (size (normalized_code_set payment_codes))).
Proof.
  split; [|split].
  - intros [-> | ->]; [reflexivity|]. destruct payment_codes; reflexivity.
  - intros p d Hp Hd Hn.
    destruct payment_codes as [|x l]; [set_solver|].
    destruct db_codes as [|y l']; [set_solver|].
    pose proof (list_to_set_singleton_head _ _ _ Hp) as ->.
    pose proof (list_to_set_singleton_head _ _ _ Hd) as ->.
    unfold _match_procedure_codes.
    rewrite !bool_decide_eq_true_2 by (eapply size_list_to_set_singleton; eassumption).
    rewrite Hn, String.eqb_refl. reflexivity.
  - intros Hp Hd Hno.
    destruct payment_codes as [|x l]; [congruence|].
    destruct db_codes as [|y l']; [congruence|].
    unfold _match_procedure_codes.
    destruct (bool_decide (size (list_to_set (x :: l) : gset string) = 1%nat)
              && bool_decide (size (list_to_set (y :: l') : gset string) = 1%nat)
              && String.eqb (normalize_procedure_code x) (normalize_procedure_code y))
      eqn:Hc.
    + exfalso. apply Hno.
      apply andb_prop in Hc as [Hc Hn]. apply andb_prop in Hc as [H1 H2].
      apply bool_decide_eq_true_1 in H1. apply bool_decide_eq_true_1 in H2.
      apply String.eqb_eq in Hn.
      exists x, y. split; [|split]; auto using size_one_list_to_set_head.
    + cbn [match_percentage]. fold (normalized_code_set (x :: l)).
      fold (normalized_code_set (y :: l')).
      rewrite bool_decide_eq_false_2; [reflexivity|].
      apply size_set_map_nonempty. congruence.
Qed.

(** The three cases of C3 at concrete lists. *)
Lemma match_percentage_cases_witness :
  match_percentage (_match_procedure_codes [] ["D0120"]) = 0%Q
  /\ match_percentage (_match_procedure_codes ["D8670"; "D8670"; "D8670"] ["D08670"; "D08670"])
     = 1%Q
  /\ match_percentage (_match_procedure_codes ["D0120"; "D0140"] ["D0120"; "D1110"])
     = ratio 1 2.
Proof.
  split; [|split].
  - apply (proj1 (match_percentage_cases [] ["D0120"])). left. reflexivity.
  - apply (proj1 (proj2 (match_percentage_cases ["D8670"; "D8670"; "D8670"]
                           ["D08670"; "D08670"])) "D8670" "D08670").
    + apply leibniz_equiv. set_solver.
    + apply leibniz_equiv. set_solver.
    + vm_compute. reflexivity.
  - transitivity
      (ratio (size (normalized_code_set ["D0120"; "D0140"]
                    ∩ normalized_code_set ["D0120"; "D1110"]))
             (size (normalized_code_set ["D0120"; "D0140"]))).
    + apply (proj2 (proj2 (match_percentage_cases ["D0120"; "D0140"] ["D0120"; "D1110"]))).
      * discriminate.
      * discriminate.
      * intros (p & d & Hp & _).
        apply size_list_to_set_singleton in Hp. vm_compute in Hp. discriminate.
    + vm_compute. reflexivity.
Defined.

(** ** Fee-array override *)

Lemma Qleb_true (a b : Q) : Qleb a b = true <-> (a <= b)%Q.
Proof. apply Qle_bool_iff. Qed.

Lemma Qltb_true (a b : Q) : Qltb a b = true <-> (a < b)%Q.
Proof.
  unfold Qltb. rewrite negb_true_iff. split.
  - intros Hf. apply Qnot_le_lt. intros Hle. apply Qle_bool_iff in Hle. congruence.
  - intros Hlt. destruct (Qle_bool b a) eqn:E; [|reflexivity].
    apply Qle_bool_iff in E. exfalso. apply (Qlt_not_le _ _ Hlt E).
Qed.

Lemma Qltb_false (a b : Q) : Qltb a b = false <-> (b <= a)%Q.
Proof.
  unfold Qltb. rewrite negb_false_iff. apply Qle_bool_iff.
Qed.

(** A positive number is a positive finite number or the positive
    infinity. *)
Lemma F64_positive_cases (x : F64.t) :
  F64.positive x
  <-> x = S754_infinity false \/ exists m e, x = S754_finite false m e.
Proof.
  unfold F64.positive, F64.ltb, SFltb, F64.zero.
  destruct x as [s | s | | s m e]; cbn; try destruct s; split;
    try discriminate; try reflexivity; try (intros [Hx | (m' & e' & Hx)]; discriminate);
    eauto.
Qed.

Lemma F64_positive_truthy (x : F64.t) : F64.positive x -> F64.truthy x = true.
Proof.
  intros Hx. apply F64_positive_cases in Hx as [-> | (m & e & ->)]; reflexivity.
Qed.

Ltac f64_cases :=
  repeat match goal with
         | H : F64.positive _ |- _ =>
             apply F64_positive_cases in H as [-> | (? & ? & ->)]
         end;
  unfold F64.le, F64.leb, F64.ltb, F64.positive, F64.max, SFleb, SFltb;
  cbn [SFcompare];
  change (Pos.compare_cont Eq) with Pos.compare;
  repeat match goal with
         | |- context [(?a ?= ?b)%Z] => destruct (Z.compare_spec a b)
         | |- context [(?a ?= ?b)%positive] => destruct (Pos.compare_spec a b)
         end;
  subst; try tauto; try congruence; try lia.

Lemma F64_le_total (x y : F64.t) :
  F64.positive x -> F64.positive y -> F64.le x y \/ F64.le y x.
Proof. intros Hx Hy. f64_cases. Qed.

Lemma F64_ltb_false_le (x y : F64.t) :
  F64.positive x -> F64.positive y -> F64.ltb y x = false <-> F64.le x y.
Proof. intros Hx Hy. f64_cases; split; congruence. Qed.

Lemma F64_le_trans (x y z : F64.t) :
  F64.positive x -> F64.positive y -> F64.positive z ->
  F64.le x y -> F64.le y z -> F64.le x z.
Proof. intros Hx Hy Hz. f64_cases. Qed.

Lemma F64_le_antisym (x y : F64.t) :
  F64.positive x -> F64.positive y -> F64.le x y -> F64.le y x -> x = y.
Proof. intros Hx Hy. f64_cases. Qed.

Lemma F64_max_positive (p e : F64.t) : F64.positive p -> F64.positive (F64.max p e).
Proof.
  intros Hp. unfold F64.max. destruct (F64.ltb p e) eqn:Hlt; [|exact Hp].
  apply F64_positive_cases.
  apply F64_positive_cases in Hp as [-> | (m & e' & ->)];
    unfold F64.ltb, SFltb in Hlt; destruct e as [s | s | | s m2 e2]; cbn in Hlt;
    try destruct s; try discriminate; eauto.
Qed.

Lemma insert_fee_permutation (fee : F64.t) (l : list F64.t) :
  Permutation (insert_fee fee l) (fee :: l).
Proof.
  induction l as [|y r IH]; cbn [insert_fee]; [reflexivity|].
  destruct (F64.ltb y fee); [|reflexivity].
  rewrite IH. apply perm_swap.
Qed.

Lemma sorted_fees_permutation (fees : list F64.t) : Permutation (sorted_fees fees) fees.
Proof.
  induction fees as [|x l IH]; [reflexivity|].
  cbn [sorted_fees foldr]. rewrite insert_fee_permutation. constructor. exact IH.
Qed.

Lemma insert_fee_sorted (fee : F64.t) (l : list F64.t) :
  F64.positive fee -> Forall F64.positive l ->
  StronglySorted F64.le l -> StronglySorted F64.le (insert_fee fee l).
Proof.
  intros Hfee Hpos Hs. induction Hs as [|y r Hr IH Hall]; cbn [insert_fee].
  - constructor; constructor.
  - apply Forall_cons in Hpos as [Hy Hpos].
    destruct (F64.ltb y fee) eqn:Hlt.
    + constructor; [apply IH, Hpos|].
      eapply Permutation_Forall; [symmetry; apply insert_fee_permutation|].
      constructor; [|exact Hall].
      destruct (F64_le_total y fee Hy Hfee) as [Hle | Hle]; [exact Hle|].
      apply F64_ltb_false_le in Hle; [congruence | exact Hfee | exact Hy].
    + apply F64_ltb_false_le in Hlt; [|exact Hfee | exact Hy].
      constructor; [constructor; assumption|].
      constructor; [exact Hlt|].
      rewrite List.Forall_forall in Hall, Hpos |- *. intros z Hz.
      apply (F64_le_trans fee y z); auto.
Qed.

Lemma sorted_fees_sorted (fees : list F64.t) :
  Forall F64.positive fees -> StronglySorted F64.le (sorted_fees fees).
Proof.
  induction 1 as [|x l Hx Hl IH]; [constructor|].
  cbn [sorted_fees foldr]. apply insert_fee_sorted; [exact Hx | | exact IH].
  eapply Permutation_Forall; [symmetry; apply sorted_fees_permutation | exact Hl].
Qed.

(** A list of positive fees has one ascending arrangement. *)
Lemma ascending_unique (l1 l2 : list F64.t) :
  Forall F64.positive l1 ->
  StronglySorted F64.le l1 -> StronglySorted F64.le l2 -> Permutation l1 l2 -> l1 = l2.
Proof.
  intros Hpos Hs1. revert l2. induction Hs1 as [|x l1 Hl1 IH Hx]; intros l2 Hs2 Hperm.
  - apply Permutation_nil in Hperm. congruence.
  - destruct Hs2 as [|y l2 Hl2 Hy].
    { symmetry in Hperm. apply Permutation_nil in Hperm. discriminate. }
    apply Forall_cons in Hpos as [Hpx Hpos].
    assert (Hpy : F64.positive y).
    { assert (Hin : In y (x :: l1))
        by (eapply Permutation_in; [symmetry; exact Hperm | left; reflexivity]).
      destruct Hin as [<- | Hin]; [exact Hpx|].
      rewrite List.Forall_forall in Hpos. apply Hpos, Hin. }
    assert (Heq : x = y).
    { assert (Hin1 : In x (y :: l2))
        by (eapply Permutation_in; [exact Hperm | left; reflexivity]).
      assert (Hin2 : In y (x :: l1))
        by (eapply Permutation_in; [symmetry; exact Hperm | left; reflexivity]).
      destruct Hin1 as [-> | Hin1]; [reflexivity|].
      destruct Hin2 as [-> | Hin2]; [reflexivity|].
      rewrite List.Forall_forall in Hx, Hy.
      apply F64_le_antisym; [exact Hpx | exact Hpy | |].
      - apply Hx, Hin2.
      - apply Hy, Hin1. }
    subst y. f_equal. apply IH; [exact Hpos | exact Hl2|].
    eapply Permutation_cons_inv. exact Hperm.
Qed.

(** On positive fees the test of the loop is the agreement of the two
    fees. *)
Lemma fee_pair_matches_close (p e : F64.t) :
  F64.positive p -> fee_pair_matches p e = true <-> close_fees p e.
Proof.
  intros Hp. unfold fee_pair_matches, close_fees. cbn zeta.
  pose proof (F64_max_positive p e Hp) as Hm. unfold F64.positive in Hm.
  rewrite Hm, orb_true_iff. reflexivity.
Qed.

Lemma count_matches_close_pairs (ps es : list F64.t) :
  Forall F64.positive ps ->
  List.length
    (List.filter (fun pe => fee_pair_matches (fst pe) (snd pe)) (List.combine ps es))
  = close_pairs ps es.
Proof.
  intros Hpos. revert es. induction Hpos as [|p ps Hp Hps IH]; intros es.
  - reflexivity.
  - destruct es as [|e es]; [reflexivity|].
    cbn [List.combine List.filter close_pairs fst snd].
    pose proof (fee_pair_matches_close p e Hp) as Hiff.
    destruct (fee_pair_matches p e) eqn:Hm; destruct (decide (close_fees p e)) as [Hc|Hc].
    + cbn [List.length]. rewrite IH. reflexivity.
    + exfalso. apply Hc, Hiff. reflexivity.
    + exfalso. apply Hiff in Hc. congruence.
    + rewrite IH. reflexivity.
Qed.

(** The fee that the loop reads from a line is its billed fee, or zero
    for a line without one. *)
Lemma or_F_0_billed_fee (proc : ProcDict) :
  match billed_fee proc with
  | Some fee =>
      or_F_0 (pd_fee_billed proc) (pd_FeeBilled proc) = fee /\ F64.truthy fee = true
  | None => or_F_0 (pd_fee_billed proc) (pd_FeeBilled proc) = F64.zero
  end.
Proof.
  unfold billed_fee, or_F_0, F_truthy.
  destruct (pd_fee_billed proc) as [a|]; destruct (pd_FeeBilled proc) as [b|];
    cbn -[F64.truthy];
    repeat match goal with
           | |- context [F64.truthy ?x] =>
               let E := fresh "E" in
               destruct (F64.truthy x) eqn:E; cbn -[F64.truthy]; rewrite ?E
           end; auto.
Qed.

Lemma pms_fees_positive_billed (claim_procedures : list ProcDict) :
  pms_fees_of claim_procedures = positive_billed_fees claim_procedures.
Proof.
  unfold pms_fees_of, positive_billed_fees.
  induction claim_procedures as [|proc l IH]; [reflexivity|].
  cbn [List.map List.filter omap list_omap].
  pose proof (or_F_0_billed_fee proc) as Hfee.
  destruct (billed_fee proc) as [fee|].
  - destruct Hfee as [-> Ht]. rewrite Ht. cbn [andb].
    rewrite filter_cons.
    destruct (decide (F64.positive fee)) as [Hpos | Hpos]; unfold F64.positive in Hpos.
    + rewrite Hpos. f_equal. exact IH.
    + apply not_true_is_false in Hpos. rewrite Hpos. exact IH.
  - rewrite Hfee. cbn [F64.truthy andb]. exact IH.
Qed.

Lemma eob_fees_positive_submitted (eob_procedures : list ProcedurePayment) :
  eob_fees_of eob_procedures = positive_submitted_amounts eob_procedures.
Proof.
  unfold eob_fees_of, positive_submitted_amounts.
  induction eob_procedures as [|line l IH]; [reflexivity|].
  cbn [List.map List.filter fmap list_fmap]. rewrite filter_cons.
  destruct (decide (F64.positive (submitted_amt line))) as [Hpos | Hpos];
    unfold F64.positive in Hpos.
  - rewrite Hpos. f_equal. exact IH.
  - apply not_true_is_false in Hpos. rewrite Hpos. exact IH.
Qed.

Lemma positive_billed_fees_positive (claim_procedures : list ProcDict) :
  Forall F64.positive (positive_billed_fees claim_procedures).
Proof.
  unfold positive_billed_fees. apply List.Forall_forall. intros x Hin.
  apply list_elem_of_In, list_elem_of_filter in Hin as [Hx _]. exact Hx.
Qed.

Lemma positive_submitted_amounts_positive (eob_procedures : list ProcedurePayment) :
  Forall F64.positive (positive_submitted_amounts eob_procedures).
Proof.
  unfold positive_submitted_amounts. apply List.Forall_forall. intros x Hin.
  apply list_elem_of_In, list_elem_of_filter in Hin as [Hx _]. exact Hx.
Qed.

(** [sorted(fees)] is the ascending arrangement of a list of positive
    fees, and the only one. *)
Lemma sorted_fees_ascending (fees arranged : list F64.t) :
  Forall F64.positive fees ->
  ascending fees arranged <-> arranged = sorted_fees fees.
Proof.
  intros Hpos. split.
  - intros [Hs Hperm]. symmetry. apply ascending_unique.
    + eapply Permutation_Forall; [symmetry; apply sorted_fees_permutation | exact Hpos].
    + apply sorted_fees_sorted, Hpos.
    + exact Hs.
    + rewrite sorted_fees_permutation. symmetry. exact Hperm.
  - intros ->. split; [apply sorted_fees_sorted, Hpos | apply sorted_fees_permutation].
Qed.

Lemma sorted_fees_positive (fees : list F64.t) :
  Forall F64.positive fees -> Forall F64.positive (sorted_fees fees).
Proof.
  intros Hpos. eapply Permutation_Forall; [|exact Hpos].
  symmetry. apply sorted_fees_permutation.
Qed.

Lemma sorted_fees_length (fees : list F64.t) :
  List.length (sorted_fees fees) = List.length fees.
Proof. apply Permutation_length, sorted_fees_permutation. Qed.

(** [count / total >= 0.8] on integers. *)
Lemma ratio_at_least_80_percent (count total : nat) :
  (0 < total)%nat ->
  Qleb (8 # 10) (ratio count total) = true <-> (4 * total <= 5 * count)%nat.
Proof.
  intros Ht. rewrite Qleb_true. unfold ratio.
  assert (Hpos : (0 < inject_Z (Z.of_nat total))%Q).
  { unfold Qlt, inject_Z. simpl. lia. }
  split.
  - intros Hle.
    assert (Hmul : ((8 # 10) * inject_Z (Z.of_nat total) <= inject_Z (Z.of_nat count))%Q).
    { assert (Heq : (inject_Z (Z.of_nat count)
                     == inject_Z (Z.of_nat count) / inject_Z (Z.of_nat total)
                        * inject_Z (Z.of_nat total))%Q).
      { field. intros Hz. rewrite Hz in Hpos. apply (Qlt_irrefl _ Hpos). }
      rewrite Heq. apply Qmult_le_compat_r; [exact Hle|]. apply Qlt_le_weak, Hpos. }
    unfold Qle, Qmult, inject_Z in Hmul. simpl in Hmul. lia.
  - intros Hle. apply Qle_shift_div_l; [exact Hpos|].
    unfold Qle, Qmult, inject_Z. simpl. lia.
Qed.

Lemma is_nil_false {A} (l : list A) : is_nil l = false <-> l <> [].
Proof. destruct l; simpl; split; congruence. Qed.

Lemma is_nil_true {A} (l : list A) : is_nil l = true <-> l = [].
Proof. destruct l; simpl; split; congruence. Qed.

(** The function [_has_strong_non_procedure_match_with_fees] on equal
    dates decides [fee_array_conditions]. *)
Lemma fee_override_decides (d : date) (name_score : Z)
    (claim_procedures : list ProcDict) (eob_procedures : list ProcedurePayment) :
  _has_strong_non_procedure_match_with_fees d d name_score claim_procedures eob_procedures
  = true
  <-> fee_array_conditions name_score claim_procedures eob_procedures.
Proof.
  unfold _has_strong_non_procedure_match_with_fees, fee_array_conditions.
  rewrite bool_decide_eq_true_2 by reflexivity. cbn [negb]. cbn zeta.
  rewrite pms_fees_positive_billed, eob_fees_positive_submitted.
  pose proof (positive_billed_fees_positive claim_procedures) as Hpp.
  pose proof (positive_submitted_amounts_positive eob_procedures) as Hpe.
  set (pms := positive_billed_fees claim_procedures) in *.
  set (eob := positive_submitted_amounts eob_procedures) in *.
  assert (Hsorted :
            (exists pms_sorted eob_sorted : list F64.t,
                ascending pms pms_sorted /\ ascending eob eob_sorted
                /\ (4 * List.length pms <= 5 * close_pairs pms_sorted eob_sorted)%nat)
            <-> (4 * List.length pms
                 <= 5 * close_pairs (sorted_fees pms) (sorted_fees eob))%nat).
  { split.
    - intros (ps & es & Hps & Hes & Hcount).
      apply sorted_fees_ascending in Hps; [|exact Hpp].
      apply sorted_fees_ascending in Hes; [|exact Hpe].
      subst ps es. exact Hcount.
    - intros Hcount. exists (sorted_fees pms), (sorted_fees eob).
      split; [apply sorted_fees_ascending; [exact Hpp | reflexivity]|].
      split; [apply sorted_fees_ascending; [exact Hpe | reflexivity]|].
      exact Hcount. }
  rewrite Hsorted. clear Hsorted.
  destruct (name_score <? 25) eqn:Hns.
  { apply Z.ltb_lt in Hns. split; [discriminate|]. intros [H25 _]. lia. }
  apply Z.ltb_ge in Hns.
  assert (Hprocs : pms <> [] /\ eob <> [] ->
                   is_nil claim_procedures || is_nil eob_procedures = false).
  { intros [Hp He]. apply orb_false_iff. split; apply is_nil_false.
    - intros ->. apply Hp. reflexivity.
    - intros ->. apply He. reflexivity. }
  destruct (is_nil claim_procedures || is_nil eob_procedures) eqn:Hnil.
  { split; [discriminate|]. intros (_ & Hp & He & _).
    specialize (Hprocs (conj Hp He)). discriminate. }
  destruct (is_nil pms || is_nil eob) eqn:Hfees.
  { split; [discriminate|]. intros (_ & Hp & He & _).
    apply orb_true_iff in Hfees as [Hf | Hf]; apply is_nil_true in Hf; congruence. }
  apply orb_false_iff in Hfees as [Hp He].
  apply is_nil_false in Hp. apply is_nil_false in He.
  rewrite !sorted_fees_length.
  destruct (Nat.eqb (List.length pms) (List.length eob)) eqn:Hlen; cbn [negb].
  2:{ apply Nat.eqb_neq in Hlen. split; [discriminate|]. intros (_ & _ & _ & Hl & _).
      congruence. }
  apply Nat.eqb_eq in Hlen.
  rewrite count_matches_close_pairs by (apply sorted_fees_positive, Hpp).
  rewrite ratio_at_least_80_percent.
  - tauto.
  - destruct pms; [congruence | simpl; lia].
Qed.

(** The procedure-count override on equal dates: a name score of 20 or
    more and as many procedure lines on the claim as on the
    remittance. *)
Lemma count_match_iff (d : date) (name_score : Z) (claim_procedures : list ProcDict)
    (eob_procedures : list ProcedurePayment) :
  _has_procedure_count_match d d name_score claim_procedures eob_procedures = true
  <-> 20 <= name_score /\ List.length claim_procedures = List.length eob_procedures.
Proof.
  unfold _has_procedure_count_match.
  rewrite bool_decide_eq_true_2 by reflexivity. cbn [negb].
  destruct (name_score <? 20) eqn:Hns;
    [apply Z.ltb_lt in Hns; split; [discriminate | lia]|].
  apply Z.ltb_ge in Hns.
  destruct (List.length claim_procedures) as [|n], (List.length eob_procedures) as [|m];
    cbn [Nat.eqb Nat.ltb Nat.leb andb].
  - split; auto.
  - split; [discriminate | intros [_ ?]; discriminate].
  - split; [discriminate | intros [_ ?]; discriminate].
  - destruct (Nat.eqb n m) eqn:E; cbn [andb].
    + apply Nat.eqb_eq in E. subst. split; auto.
    + apply Nat.eqb_neq in E. split; [discriminate|]. intros [_ [= ?]]. congruence.
Qed.

(** ** Name score and name gate *)

Lemma similarity_score_bounds (name1 name2 : string) :
  0 <= score (calculate_enhanced_similarity name1 name2) <= 15.
Proof.
  unfold calculate_enhanced_similarity.
  repeat match goal with
         | |- context [if ?b then _ else _] => destruct b
         end; cbn [score]; lia.
Qed.

Section NameProperties.
Context `{PyLib}.

Lemma ln_score_in_try_bounds (crit_ln_q claim_ln_clean : string) (z : Z) :
  ln_score_in_try crit_ln_q claim_ln_clean = Some z -> 0 <= z <= 15.
Proof.
  unfold ln_score_in_try.
  pose proof (similarity_score_bounds crit_ln_q claim_ln_clean) as Hs.
  destruct (ln_regex_search crit_ln_q claim_ln_clean) as [[|]|]; [| |discriminate].
  - intros [= <-]. lia.
  - destruct (1 <? List.length (split_tokens sep_space_hyphen_apos crit_ln_q))%nat.
    + destruct (any_part_matches _ claim_ln_clean) as [[|]|]; [| |discriminate].
      * cbn. intros [= <-]. lia.
      * cbn. destruct (0 <? score _); intros [= <-]; lia.
    + cbn. destruct (0 <? score _); intros [= <-]; lia.
Qed.

(** The name score lies between 0 and 30. *)
Lemma name_score_bounds (claim_fn claim_ln : option string) (crit_fn crit_ln : string) :
  0 <= _calculate_name_match_score_with_nicknames claim_fn claim_ln crit_fn crit_ln <= 30.
Proof.
  unfold _calculate_name_match_score_with_nicknames.
  repeat match goal with
         | |- context [if negb ?b then _ else _] => destruct b; cbn [negb]
         | |- context [if Py.truthy ?x then _ else _] => destruct (Py.truthy x)
         end; try lia.
  all: destruct (ln_score_in_try _ _) as [z|] eqn:Hz; simpl; [|lia].
  all: apply ln_score_in_try_bounds in Hz; lia.
Qed.

(** A name score that passes the gate lies between 20 and 30. *)
Lemma name_gate_bounds (claim_fn claim_ln : option string) (crit_fn crit_ln : string)
    (name_score : Z) :
  name_gate claim_fn claim_ln crit_fn crit_ln = Some name_score ->
  20 <= name_score <= 30.
Proof.
  unfold name_gate.
  pose proof (name_score_bounds claim_fn claim_ln crit_fn crit_ln).
  pose proof (name_score_bounds claim_fn claim_ln crit_ln crit_fn).
  destruct (_ <? 20) eqn:Hlt.
  - destruct (20 <=? _) eqn:Hle; [|discriminate].
    intros [= <-]. apply Z.leb_le in Hle. lia.
  - intros [= <-]. apply Z.ltb_ge in Hlt. lia.
Qed.

End NameProperties.

(** ** The scorer of a remote candidate *)

Section ScorerProperties.
Context `{PyLib}.

Lemma str_is_true (o : option string) (v : string) : str_is o v = true <-> o = Some v.
Proof.
  destruct o as [s|]; simpl.
  - rewrite String.eqb_eq. split; congruence.
  - split; discriminate.
Qed.

Lemma status_sent_or_held (o : option string) :
  str_is o "S" || str_is o "H" = true <-> o = Some "S" \/ o = Some "H".
Proof. rewrite orb_true_iff, !str_is_true. reflexivity. Qed.

(** The verdict of the scorer once the date and the status have passed. *)
Lemma verdict_after_status (api_claim_data : ApiClaim) (procs : list ProcDict)
    (criteria : SearchCriteria) (owner : PatientDict) (d : date) :
  strptime_date (default "" (ac_DateService api_claim_data)) = Some d ->
  strptime_date (date_of_service criteria) = Some d ->
  (ac_ClaimStatus api_claim_data = Some "S" \/ ac_ClaimStatus api_claim_data = Some "H") ->
  score_api_claim_verdict api_claim_data procs criteria owner =
  match name_gate (p_FName owner) (p_LName owner)
          (patient_first_name criteria) (patient_last_name criteria) with
  | None => Rejected GateName
  | Some name_score =>
      let eob_procedures := procedures (payment_info criteria) in
      if negb (is_nil eob_procedures) && negb (is_nil procs) then
        if Qltb (49 # 100) (api_procedure_percentage criteria procs)
        then Accepted name_score false ""
        else if _has_strong_non_procedure_match_with_fees d d name_score procs eob_procedures
        then Accepted name_score true "fee_match"
        else if _has_procedure_count_match d d name_score procs eob_procedures
        then Accepted name_score true "count_match"
        else Rejected GateProcedures
      else if is_nil eob_procedures && is_nil procs
      then Accepted name_score false ""
      else Rejected GateProcedures
  end.
Proof.
  intros Hc Ht Hs. unfold score_api_claim_verdict. rewrite Hc, Ht.
  rewrite bool_decide_eq_true_2 by reflexivity.
  rewrite (proj2 (status_sent_or_held _) Hs). reflexivity.
Qed.

(** A verdict other than a rejection at the date or the status gate means
    that the candidate reached the name gate. *)
Lemma verdict_reaches_name_gate (api_claim_data : ApiClaim) (procs : list ProcDict)
    (criteria : SearchCriteria) (owner : PatientDict) :
  score_api_claim_verdict api_claim_data procs criteria owner <> Rejected GateDate ->
  score_api_claim_verdict api_claim_data procs criteria owner <> Rejected GateStatus ->
  api_reaches_name_gate api_claim_data criteria.
Proof.
  unfold score_api_claim_verdict, api_reaches_name_gate.
  destruct (strptime_date (default "" _)) as [cd|]; [|congruence].
  destruct (strptime_date (date_of_service criteria)) as [td|]; [|congruence].
  destruct (bool_decide (cd = td)) eqn:Hd; cbn [negb]; [|congruence].
  apply bool_decide_eq_true_1 in Hd. subst td.
  destruct (str_is _ "S" || str_is _ "H") eqn:Hs; cbn [negb]; [|congruence].
  intros _ _. split; [eauto|]. apply status_sent_or_held. exact Hs.
Qed.

(** C2 (amended).  For a candidate that reached the procedure gate with
    a match percentage of at most 49 percent, the fee-array override
    fires, that is the scorer accepts with the tag [fee_match], if and
    only if the name score is at least 25, the positive billed fees of
    the claim and the positive submitted amounts of the criteria are two
    non-empty lists of one length, and at least 80 percent of the pairs
    [(p, e)] of the two lists in ascending order pass the test of
    binary64 arithmetic [abs(p - e) <= 1.0 or abs(p - e) / max(p, e) <=
    0.02]; and this is what [_has_strong_non_procedure_match_with_fees]
    returns on equal dates. *)
Theorem fee_array_override_iff (api_claim_data : ApiClaim) (procs : list ProcDict)
    (criteria : SearchCriteria) (owner : PatientDict) (d : date) (name_score : Z) :
  strptime_date (default "" (ac_DateService api_claim_data)) = Some d ->
  strptime_date (date_of_service criteria) = Some d ->
  (ac_ClaimStatus api_claim_data = Some "S" \/ ac_ClaimStatus api_claim_data = Some "H") ->
  name_gate (p_FName owner) (p_LName owner)
    (patient_first_name criteria) (patient_last_name criteria) = Some name_score ->
  (api_procedure_percentage criteria procs <= 49 # 100)%Q ->
  (score_api_claim_verdict api_claim_data procs criteria owner
   = Accepted name_score true "fee_match"
   <-> fee_array_conditions name_score procs (procedures (payment_info criteria)))
  /\ (_has_strong_non_procedure_match_with_fees d d name_score procs
        (procedures (payment_info criteria)) = true
      <-> fee_array_conditions name_score procs (procedures (payment_info criteria))).
Proof.
  intros Hc Ht Hs Hn Hpct.
  split; [|apply fee_override_decides].
  rewrite (verdict_after_status _ _ _ _ d Hc Ht Hs), Hn. cbn zeta.
  destruct (is_nil (procedures (payment_info criteria))) eqn:He;
    destruct (is_nil procs) eqn:Hp; cbn [negb andb].
  1-3: split; [discriminate|]; intros (_ & Hpms & Heob & _); exfalso;
       try (apply is_nil_true in He; apply Heob; rewrite He; reflexivity);
       try (apply is_nil_true in Hp; apply Hpms; rewrite Hp; reflexivity).
  rewrite (proj2 (Qltb_false _ _) Hpct).
  rewrite <- fee_override_decides with (d := d).
  destruct (_has_strong_non_procedure_match_with_fees d d name_score procs _).
  - tauto.
  - split; [|discriminate].
    destruct (_has_procedure_count_match d d name_score procs _); discriminate.
Qed.

(** C1, first half, and the converse: the scorer returns a score other
    than 0 exactly for an accepted candidate. *)
Lemma api_score_of_verdict (api_claim_data : ApiClaim) (procs : list ProcDict)
    (criteria : SearchCriteria) (owner : PatientDict) (s : Z) (ab : bool) (ot : string) :
  _score_api_claim_candidate api_claim_data procs criteria owner = (s, ab, ot) ->
  s <> 0 ->
  exists name_score : Z,
    score_api_claim_verdict api_claim_data procs criteria owner
    = Accepted name_score ab ot
    /\ 20 <= name_score <= 30
    /\ s = 30 + 10 + name_score + 30.
Proof.
  unfold _score_api_claim_candidate. intros Hs Hnz.
  destruct (score_api_claim_verdict _ _ _ _) as [g | ns ab' ot'] eqn:Hv.
  - injection Hs as <- _ _. congruence.
  - injection Hs as <- <- <-. exists ns. split; [reflexivity|]. split; [|reflexivity].
    assert (Hreach : api_reaches_name_gate api_claim_data criteria).
    { apply (verdict_reaches_name_gate _ procs _ owner); rewrite Hv; discriminate. }
    destruct Hreach as [(d & Hc & Ht) Hst].
    rewrite (verdict_after_status _ _ _ _ d Hc Ht Hst) in Hv.
    destruct (name_gate _ _ _ _) as [ns'|] eqn:Hg; [|discriminate].
    apply name_gate_bounds in Hg.
    cbn zeta in Hv.
    repeat match type of Hv with
           | (if ?b then _ else _) = _ => destruct b
           end; try discriminate; injection Hv as -> _ _; exact Hg.
Qed.

(** A candidate that passes the four gates gets the score of the rule. *)
Lemma four_gates_api_score (api_claim_data : ApiClaim) (procs : list ProcDict)
    (criteria : SearchCriteria) (owner : PatientDict) (name_score : Z) :
  api_passes_four_gates api_claim_data procs criteria owner name_score ->
  20 <= name_score <= 30
  /\ exists (ab : bool) (ot : string),
       _score_api_claim_candidate api_claim_data procs criteria owner
       = (30 + 10 + name_score + 30, ab, ot).
Proof.
  intros ([(d & Hc & Ht) Hst] & Hg & Hprocs).
  pose proof (name_gate_bounds _ _ _ _ _ Hg) as Hb. split; [exact Hb|].
  unfold _score_api_claim_candidate.
  rewrite (verdict_after_status _ _ _ _ d Hc Ht Hst), Hg. cbn zeta.
  destruct Hprocs as [[-> ->] | (Hp & He & Hpass)].
  { cbn [is_nil negb andb]. do 2 eexists. reflexivity. }
  rewrite (proj2 (is_nil_false _) Hp), (proj2 (is_nil_false _) He). cbn [negb andb].
  destruct (Qltb (49 # 100) _) eqn:Hpct; [do 2 eexists; reflexivity|].
  apply Qltb_false in Hpct.
  destruct (_has_strong_non_procedure_match_with_fees d d name_score procs _) eqn:Ef;
    [do 2 eexists; reflexivity|].
  destruct (_has_procedure_count_match d d name_score procs _) eqn:Ec;
    [do 2 eexists; reflexivity|].
  exfalso. destruct Hpass as [Hlt | [Hfee | Hlen]].
  - exact (Qlt_not_le _ _ Hlt Hpct).
  - apply fee_override_decides with (d := d) in Hfee. congruence.
  - assert (Hx : _has_procedure_count_match d d name_score procs
                   (procedures (payment_info criteria)) = true)
      by (apply count_match_iff; split; [lia | exact Hlen]).
    congruence.
Qed.

(** A candidate with a score other than 0 passed the four gates, and its
    score is the score of the rule for the name score of its name
    gate. *)
Lemma api_score_four_gates (api_claim_data : ApiClaim) (procs : list ProcDict)
    (criteria : SearchCriteria) (owner : PatientDict) (s : Z) (ab : bool) (ot : string) :
  _score_api_claim_candidate api_claim_data procs criteria owner = (s, ab, ot) ->
  s <> 0 ->
  exists name_score : Z,
    api_passes_four_gates api_claim_data procs criteria owner name_score
    /\ 20 <= name_score <= 30
    /\ s = 30 + 10 + name_score + 30.
Proof.
  unfold _score_api_claim_candidate. intros Hs Hnz.
  destruct (score_api_claim_verdict _ _ _ _) as [g | ns ab' ot'] eqn:Hv.
  { injection Hs as <- _ _. congruence. }
  injection Hs as <- <- <-.
  assert (Hreach : api_reaches_name_gate api_claim_data criteria).
  { apply (verdict_reaches_name_gate _ procs _ owner); rewrite Hv; discriminate. }
  pose proof Hreach as [(d & Hc & Ht) Hst].
  rewrite (verdict_after_status _ _ _ _ d Hc Ht Hst) in Hv.
  destruct (name_gate _ _ _ _) as [ns'|] eqn:Hg; [|discriminate].
  pose proof (name_gate_bounds _ _ _ _ _ Hg) as Hb.
  cbn zeta in Hv.
  assert (Hns : ns' = ns /\ api_passes_procedure_gate ns' procs criteria).
  { unfold api_passes_procedure_gate.
    pose proof (fee_override_decides d ns' procs (procedures (payment_info criteria)))
      as Hfee.
    pose proof (count_match_iff d ns' procs (procedures (payment_info criteria)))
      as Hcount.
    destruct (is_nil (procedures (payment_info criteria))) eqn:He;
      destruct (is_nil procs) eqn:Hp; cbn [negb andb] in Hv; try discriminate.
    - injection Hv as -> _ _. split; [reflexivity|]. left.
      apply is_nil_true in He, Hp. auto.
    - apply is_nil_false in He, Hp.
      destruct (Qltb (49 # 100) _) eqn:Hpct.
      { injection Hv as -> _ _. split; [reflexivity|]. right.
        split; [exact Hp|]. split; [exact He|]. left. apply Qltb_true, Hpct. }
      destruct (_has_strong_non_procedure_match_with_fees d d ns' procs _) eqn:Ef.
      { injection Hv as -> _ _. split; [reflexivity|]. right.
        split; [exact Hp|]. split; [exact He|]. right. left. apply Hfee. reflexivity. }
      destruct (_has_procedure_count_match d d ns' procs _) eqn:Ec; [|discriminate].
      injection Hv as -> _ _. split; [reflexivity|]. right.
      split; [exact Hp|]. split; [exact He|]. right. right.
      apply Hcount. reflexivity. }
  destruct Hns as [-> Hprocs].
  exists ns. split; [|split; [exact Hb | reflexivity]].
  split; [exact Hreach|]. split; [exact Hg | exact Hprocs].
Qed.

End ScorerProperties.

(** ** Loops, sorting and the primary/secondary partition *)

(** An invariant of the state of a loop holds at its end. *)
Lemma for_each_invariant {A S : Type} (P : S -> Prop) (body : S -> A -> result S)
    (l : list A) (st r : S) :
  P st ->
  (forall st0 x st1, In x l -> P st0 -> body st0 x = Ok st1 -> P st1) ->
  for_each body l st = Ok r -> P r.
Proof.
  revert st. induction l as [|x l IH]; intros st Hst Hstep Hrun.
  - injection Hrun as <-. exact Hst.
  - cbn [for_each] in Hrun. unfold bind in Hrun.
    destruct (body st x) as [st'|e] eqn:Hb; [|discriminate].
    apply (IH st').
    + apply (Hstep st x st'); [left; reflexivity | exact Hst | exact Hb].
    + intros st0 y st1 Hy. apply Hstep. right. exact Hy.
    + exact Hrun.
Qed.

Lemma insert_desc_permutation {A} (key : A -> Z) (x : A) (l : list A) :
  Permutation (insert_desc key x l) (x :: l).
Proof.
  induction l as [|y r IH]; cbn [insert_desc]; [reflexivity|].
  destruct (key x <? key y); [|reflexivity].
  rewrite IH. apply perm_swap.
Qed.

(** Sorting keeps the elements. *)
Lemma sort_desc_permutation {A} (key : A -> Z) (l : list A) :
  Permutation (sort_desc key l) l.
Proof.
  induction l as [|x l IH]; cbn; [reflexivity|].
  rewrite insert_desc_permutation. apply perm_skip. exact IH.
Qed.

Lemma sort_desc_In {A} (key : A -> Z) (l : list A) (x : A) :
  In x (sort_desc key l) <-> In x l.
Proof.
  split; apply Permutation_in;
    [apply sort_desc_permutation | symmetry; apply sort_desc_permutation].
Qed.

(** The three cases of [prioritize]. *)
Lemma prioritize_both (primary secondary : list ClaimMatch) :
  primary <> [] -> secondary <> [] ->
  prioritize primary secondary
  = (List.map set_has_pending_secondary primary ++ secondary)%list.
Proof.
  intros Hp Hs. unfold prioritize.
  rewrite (proj2 (is_nil_false _) Hp), (proj2 (is_nil_false _) Hs). reflexivity.
Qed.

Lemma prioritize_primary_only (primary : list ClaimMatch) :
  prioritize primary [] = primary.
Proof. destruct primary; reflexivity. Qed.

Lemma prioritize_secondary_only (secondary : list ClaimMatch) :
  prioritize [] secondary = secondary.
Proof. destruct secondary; reflexivity. Qed.

(** A returned match is a secondary match, or a primary match with or
    without the flag. *)
Lemma prioritize_In (primary secondary : list ClaimMatch) (m : ClaimMatch) :
  In m (prioritize primary secondary) ->
  In m secondary
  \/ In m primary
  \/ exists m0, In m0 primary /\ m = set_has_pending_secondary m0.
Proof.
  unfold prioritize.
  destruct (is_nil primary), (is_nil secondary); cbn [negb]; intros Hin.
  - destruct Hin.
  - left. exact Hin.
  - right. left. exact Hin.
  - apply List.in_app_or in Hin as [Hin | Hin]; [|left; exact Hin].
    apply List.in_map_iff in Hin as (m0 & <- & Hin). right. right. eauto.
Qed.

(** The flag is never raised on a secondary match, provided that no match
    carries it before the partition. *)
Lemma prioritize_flag_only_on_primary (primary secondary : list ClaimMatch) :
  Forall (fun m => is_secondary m = false /\ has_pending_secondary m = false) primary ->
  Forall (fun m => is_secondary m = true /\ has_pending_secondary m = false) secondary ->
  forall m, In m (prioritize primary secondary) ->
            is_secondary m = true -> has_pending_secondary m = false.
Proof.
  intros Hp Hs m Hin Hsec.
  rewrite List.Forall_forall in Hp, Hs.
  apply prioritize_In in Hin as [Hin | [Hin | (m0 & Hin & ->)]].
  - apply Hs. exact Hin.
  - apply Hp. exact Hin.
  - cbn in Hsec. destruct (Hp m0 Hin) as [Hf _]. congruence.
Qed.

(** ** Remote path *)

Section RemoteProperties.
Context `{PyLib} `{Remote}.

Lemma match_of_candidate_fields (c : Candidate) (m : ClaimMatch) :
  match_of_candidate c = Ok m ->
  match_score m = Some (cand_score c)
  /\ has_pending_secondary m = false
  /\ is_supplemental m = false.
Proof.
  unfold match_of_candidate, bind, subscript.
  destruct (ac_ClaimNum _); [|discriminate].
  destruct (ac_DateService _); [|discriminate].
  destruct (ac_ClaimStatus _); [|discriminate].
  destruct (ac_PatNum _); [|discriminate].
  intros [= <-]. cbn. auto.
Qed.

(** The two lists built from the candidates are the primary and the
    secondary matches, each in the order of the candidates. *)
Lemma add_match_groups (cands : list Candidate)
    (acc groups : list ClaimMatch * list ClaimMatch) :
  for_each add_match cands acc = Ok groups ->
  exists ms : list ClaimMatch,
    Forall2 (fun c m => match_of_candidate c = Ok m) cands ms
    /\ fst groups = (fst acc ++ List.filter (fun m => negb (is_secondary m)) ms)%list
    /\ snd groups = (snd acc ++ List.filter (fun m => is_secondary m) ms)%list.
Proof.
  revert acc. induction cands as [|c cands IH]; intros acc Hrun.
  - injection Hrun as <-. exists []. cbn. rewrite !List.app_nil_r. auto.
  - cbn [for_each] in Hrun. unfold bind at 1 in Hrun.
    destruct (add_match acc c) as [acc'|e] eqn:Hadd; [|discriminate].
    unfold add_match, bind in Hadd.
    destruct (match_of_candidate c) as [m|e] eqn:Hm; [|discriminate].
    destruct (IH acc' Hrun) as (ms & Hall & Hp & Hs).
    exists (m :: ms). split; [constructor; assumption|].
    cbn [List.filter]. rewrite Hp, Hs.
    destruct (is_secondary m); injection Hadd as <-; cbn [fst snd negb];
      rewrite <- ?List.app_assoc; auto.
Qed.

Lemma build_matches_groups (cands : list Candidate)
    (groups : list ClaimMatch * list ClaimMatch) :
  build_matches cands = Ok groups ->
  exists ms : list ClaimMatch,
    Forall2 (fun c m => match_of_candidate c = Ok m) cands ms
    /\ fst groups = List.filter (fun m => negb (is_secondary m)) ms
    /\ snd groups = List.filter (fun m => is_secondary m) ms.
Proof.
  intros Hrun. apply add_match_groups in Hrun. exact Hrun.
Qed.

Lemma score_and_collect_invariant (criteria : SearchCriteria) (api_claim : ApiClaim)
    (claim_num : Z) (owner : PatientDict) (st st' : collect_state) :
  Forall (scored_by_scorer criteria) (fst st) ->
  score_and_collect criteria api_claim claim_num owner st = Ok st' ->
  Forall (scored_by_scorer criteria) (fst st').
Proof.
  intros Hst. unfold score_and_collect, bind.
  destruct (request_claimprocs claim_num) as [resp|e]; [|discriminate].
  destruct (_score_api_claim_candidate _ _ _ _) as [[s ab] ot] eqn:Hs.
  destruct (0 <? s) eqn:Hpos; intros [= <-]; [|exact Hst].
  cbn [fst]. apply List.Forall_app. split; [exact Hst|].
  constructor; [|constructor]. split; [exact Hs | apply Z.ltb_lt, Hpos].
Qed.

Lemma collect_candidates_scored (criteria : SearchCriteria) (target_date : date)
    (cands : list Candidate) :
  collect_candidates criteria target_date = Ok cands ->
  Forall (scored_by_scorer criteria) cands.
Proof.
  unfold collect_candidates, bind.
  destruct (stage1 criteria target_date ([], ∅)) as [st1|e] eqn:H1; [|discriminate].
  destruct (stage2 criteria target_date st1) as [st2|e] eqn:H2; [|discriminate].
  intros [= <-].
  assert (Hst1 : Forall (scored_by_scorer criteria) (fst st1)).
  { revert H1. unfold stage1.
    match goal with
    | |- context [if ?c then entity_patient ?a ?b else None] =>
        destruct (if c then entity_patient a b else None) as [[patient claims]|]
    end; [|intros [= <-]; constructor].
    destruct (is_nil claims); [intros [= <-]; constructor|].
    apply (for_each_invariant (fun st => Forall (scored_by_scorer criteria) (fst st)));
      [constructor|].
    intros st0 x st1' _ Hst0. unfold stage1_body.
    destruct (_ || _); [intros [= <-]; exact Hst0|].
    destruct (negb _); [intros [= <-]; exact Hst0|].
    apply score_and_collect_invariant. exact Hst0. }
  revert H2. unfold stage2, bind.
  match goal with
  | |- context [if ?c then entity_subscriber ?a ?b else None] =>
      destruct (if c then entity_subscriber a b else None) as [[subscriber [inssub|]]|]
  end; try (intros [= <-]; exact Hst1).
  destruct (request_claims_by_inssub _) as [[l|b]|e]; try discriminate;
    [|intros [= <-]; exact Hst1].
  apply (for_each_invariant (fun st => Forall (scored_by_scorer criteria) (fst st)));
    [exact Hst1|].
  intros st0 x st1' _ Hst0. unfold stage2_body, bind.
  destruct (_ || _); [intros [= <-]; exact Hst0|].
  destruct (negb (prefilter_passes _ _)); [intros [= <-]; exact Hst0|].
  destruct (negb (Z_truthy _)); [intros [= <-]; exact Hst0|].
  destruct (request_patient _) as [[owner|]|e]; try discriminate;
    [|intros [= <-]; exact Hst0].
  destruct (negb (Z_truthy _)); [intros [= <-]; exact Hst0|].
  apply score_and_collect_invariant. exact Hst0.
Qed.

(** What [find_matching_claims] returns: nothing, or the prioritized
    matches of the candidates of score 89 or more, sorted by score. *)
Lemma find_matching_claims_unfold (criteria : SearchCriteria) (res : list ClaimMatch) :
  find_matching_claims criteria = Ok res ->
  res = []
  \/ exists (target_date : date) (cands : list Candidate) (ms : list ClaimMatch),
       strptime_date (date_of_service criteria) = Some target_date
       /\ collect_candidates criteria target_date = Ok cands
       /\ Forall2 (fun c m => match_of_candidate c = Ok m)
            (sort_desc cand_score
               (List.filter (fun cand => MIN_ACCEPTABLE_SCORE <=? cand_score cand) cands))
            ms
       /\ res = prioritize (List.filter (fun m => negb (is_secondary m)) ms)
                  (List.filter (fun m => is_secondary m) ms).
Proof.
  unfold find_matching_claims, bind.
  destruct (strptime_date (date_of_service criteria)) as [target_date|];
    [|intros [= <-]; left; reflexivity].
  destruct (collect_candidates criteria target_date) as [cands|e] eqn:Hc; [|discriminate].
  destruct (is_nil _); [intros [= <-]; left; reflexivity|].
  destruct (build_matches _) as [groups|e] eqn:Hb; [|discriminate].
  intros [= <-]. right.
  apply build_matches_groups in Hb as (ms & Hall & Hp & Hs).
  exists target_date, cands, ms. rewrite Hp, Hs. auto.
Qed.

End RemoteProperties.

Lemma Forall2_In_right {A B} (R : A -> B -> Prop) (l : list A) (l' : list B) (y : B) :
  Forall2 R l l' -> In y l' -> exists x, In x l /\ R x y.
Proof.
  induction 1 as [|a b l l' Hab _ IH]; intros Hin; [destruct Hin|].
  destruct Hin as [-> | Hin].
  - exists a. split; [left; reflexivity | exact Hab].
  - destruct (IH Hin) as (x & Hx & Hr). exists x. split; [right; exact Hx | exact Hr].
Qed.

Section ScoreRange.
Context `{PyLib} `{Remote}.

(** Every match that [find_matching_claims] returns was built from a
    candidate that the scorer accepted and that passed the floor. *)
Lemma find_matching_claims_origin (criteria : SearchCriteria) (res : list ClaimMatch)
    (m : ClaimMatch) :
  find_matching_claims criteria = Ok res -> In m res ->
  exists c : Candidate,
    scored_by_scorer criteria c
    /\ MIN_ACCEPTABLE_SCORE <= cand_score c
    /\ match_score m = Some (cand_score c).
Proof.
  intros Hrun Hin.
  apply find_matching_claims_unfold in Hrun as [-> | (td & cands & ms & _ & Hc & Hall & ->)];
    [destruct Hin|].
  apply collect_candidates_scored in Hc. rewrite List.Forall_forall in Hc.
  assert (Hms : forall m0, In m0 ms ->
            exists c, scored_by_scorer criteria c
                      /\ MIN_ACCEPTABLE_SCORE <= cand_score c
                      /\ match_score m0 = Some (cand_score c)).
  { intros m0 Hm0.
    destruct (Forall2_In_right _ _ _ _ Hall Hm0) as (c & Hcin & Hm).
    apply sort_desc_In, List.filter_In in Hcin as [Hcin Hfloor].
    exists c. split; [apply Hc, Hcin|]. split; [apply Z.leb_le, Hfloor|].
    apply match_of_candidate_fields in Hm. tauto. }
  apply prioritize_In in Hin as [Hin | [Hin | (m0 & Hin & ->)]];
    apply List.filter_In in Hin as [Hin _]; apply Hms in Hin; exact Hin.
Qed.

(** C1.  A candidate that passes the four gates of the scorer (the date,
    the status, the name gate with the name score [name_score], the
    procedures) gets the score 30 + 10 + nameScore + 30, with a name
    score between 20 and 30; and a candidate for which the scorer
    returns a score other than 0 passed the four gates, the name gate
    with a name score between 20 and 30, and its score is 30 + 10 +
    nameScore + 30 for that name score, hence between 90 and 100.
    [find_matching_claims] keeps the candidates of score 89 or more:
    every match that it returns carries a score, which is at least 89,
    and is the score, between 90 and 100, of a candidate that passed the
    four gates. *)
Theorem api_score_range_and_floor :
  (forall (api_claim_data : ApiClaim) (procs : list ProcDict) (criteria : SearchCriteria)
          (owner : PatientDict) (name_score : Z),
      api_passes_four_gates api_claim_data procs criteria owner name_score ->
      20 <= name_score <= 30
      /\ exists (ab : bool) (ot : string),
           _score_api_claim_candidate api_claim_data procs criteria owner
           = (30 + 10 + name_score + 30, ab, ot))
  /\ (forall (api_claim_data : ApiClaim) (procs : list ProcDict)
             (criteria : SearchCriteria) (owner : PatientDict)
             (s : Z) (ab : bool) (ot : string),
        _score_api_claim_candidate api_claim_data procs criteria owner = (s, ab, ot) ->
        s <> 0 ->
        exists name_score : Z,
          api_passes_four_gates api_claim_data procs criteria owner name_score
          /\ 20 <= name_score <= 30
          /\ s = 30 + 10 + name_score + 30
          /\ 90 <= s <= 100)
  /\ (forall (criteria : SearchCriteria) (res : list ClaimMatch) (m : ClaimMatch),
        find_matching_claims criteria = Ok res -> In m res ->
        exists s : Z,
          match_score m = Some s /\ 89 <= s /\ 90 <= s <= 100
          /\ exists (c : Candidate) (name_score : Z),
               api_passes_four_gates (api_claim_raw c) (claim_procs_raw c) criteria
                 (source_patient_details c) name_score
               /\ s = 30 + 10 + name_score + 30).
Proof.
  split; [|split].
  - intros api_claim_data procs criteria owner name_score Hgates.
    apply four_gates_api_score. exact Hgates.
  - intros api_claim_data procs criteria owner s ab ot Hs Hnz.
    destruct (api_score_four_gates _ _ _ _ _ _ _ Hs Hnz) as (ns & Hg & Hb & ->).
    exists ns. repeat split; try assumption; try apply Hg; lia.
  - intros criteria res m Hrun Hin.
    destruct (find_matching_claims_origin _ _ _ Hrun Hin) as (c & [Hs Hpos] & Hfloor & Hm).
    exists (cand_score c). split; [exact Hm|].
    unfold MIN_ACCEPTABLE_SCORE in Hfloor. split; [exact Hfloor|].
    assert (Hnz : cand_score c <> 0) by lia.
    destruct (api_score_four_gates _ _ _ _ _ _ _ Hs Hnz) as (ns & Hg & Hb & Heq).
    split; [lia|]. exists c, ns. split; [exact Hg | exact Heq].
Qed.

End ScoreRange.

(** C1 on the practice of the examples.  Claim 101 of John Smith against
    a remittance for John Smyth passes the four gates, the name gate
    with the name score 25, and gets the score 95; against the
    remittance for John Smith it gets the score 100, which is the score
    of a candidate whose name score is 30; and the two matches returned
    for that remittance carry that score. *)
Lemma api_score_range_and_floor_witness :
  (@api_passes_four_gates prefix_lib (api_claim_of 101 "2024-03-05" "S" "P")
     [api_proc "D0120" (F64.of_Z 50) 1] smyth_criteria john_smith 25
   /\ @_score_api_claim_candidate prefix_lib (api_claim_of 101 "2024-03-05" "S" "P")
        [api_proc "D0120" (F64.of_Z 50) 1] smyth_criteria john_smith
      = (95, false, ""))
  /\ (exists name_score : Z,
        @api_passes_four_gates prefix_lib (api_claim_of 101 "2024-03-05" "S" "P")
          [api_proc "D0120" (F64.of_Z 50) 1] demo_criteria john_smith name_score
        /\ 20 <= name_score <= 30
        /\ 100 = 30 + 10 + name_score + 30
        /\ 90 <= 100 <= 100)
  /\ (exists (res : list ClaimMatch) (m : ClaimMatch),
        @find_matching_claims prefix_lib demo_remote demo_criteria = Ok res
        /\ In m res
        /\ exists s : Z,
             match_score m = Some s /\ 89 <= s /\ 90 <= s <= 100
             /\ exists (c : Candidate) (name_score : Z),
                  @api_passes_four_gates prefix_lib (api_claim_raw c) (claim_procs_raw c)
                    demo_criteria (source_patient_details c) name_score
                  /\ s = 30 + 10 + name_score + 30).
Proof.
  split; [|split].
  - assert (Hgates : @api_passes_four_gates prefix_lib
                       (api_claim_of 101 "2024-03-05" "S" "P")
                       [api_proc "D0120" (F64.of_Z 50) 1] smyth_criteria john_smith 25).
    { split; [split|split].
      - exists march_5. split; vm_compute; reflexivity.
      - left. reflexivity.
      - vm_compute. reflexivity.
      - right. split; [discriminate|]. split; [discriminate|]. left.
        vm_compute. reflexivity. }
    split; [exact Hgates|].
    destruct (proj1 (@api_score_range_and_floor prefix_lib demo_remote)
                (api_claim_of 101 "2024-03-05" "S" "P") [api_proc "D0120" (F64.of_Z 50) 1]
                smyth_criteria john_smith 25 Hgates) as (_ & ab & ot & Hscore).
    rewrite Hscore. vm_compute in Hscore. injection Hscore as <- <-. reflexivity.
  - apply (proj1 (proj2 (@api_score_range_and_floor prefix_lib demo_remote))
             (api_claim_of 101 "2024-03-05" "S" "P") [api_proc "D0120" (F64.of_Z 50) 1]
             demo_criteria john_smith 100 false "").
    + vm_compute. reflexivity.
    + lia.
  - assert (Hrun : exists res m rest,
               @find_matching_claims prefix_lib demo_remote demo_criteria = Ok res
               /\ res = m :: rest).
    { vm_compute. do 3 eexists. split; reflexivity. }
    destruct Hrun as (res & m & rest & Hrun & Hres).
    assert (Hin : In m res) by (rewrite Hres; left; reflexivity).
    exists res, m. split; [exact Hrun|]. split; [exact Hin|].
    exact (proj2 (proj2 (@api_score_range_and_floor prefix_lib demo_remote))
             demo_criteria res m Hrun Hin).
Defined.

(** ** Cache path *)

Section CacheProperties.
Context `{PyLib}.

(** The cases of one turn of the loop over the cached claims. *)
Lemma evaluate_cached_claim_cases (criteria : SearchCriteria) (target_date_obj : date)
    (fn ln : string) (claim : CachedClaim) (o : cache_outcome) :
  evaluate_cached_claim criteria target_date_obj fn ln claim = Ok o ->
  (exists g, o = Skipped g /\ g <> GateName /\ g <> GateProcedures)
  \/ (cache_reaches_name_gate target_date_obj claim
      /\ match name_gate (cached_patient_fn claim) (cached_patient_ln claim) fn ln with
         | None => o = Skipped GateName
         | Some name_score =>
             cache_after_name_gate criteria target_date_obj claim name_score o
         end).
Proof.
  unfold evaluate_cached_claim, cache_reaches_name_gate.
  fold (cached_date_str claim) (cached_patient_fn claim) (cached_patient_ln claim).
  destruct (str_truthy (cached_date_str claim)) eqn:Hds; cbn [negb].
  2:{ intros [= <-]. left. eexists. split; [reflexivity|]. split; discriminate. }
  destruct (strptime_date _) as [cd|] eqn:Hcd.
  2:{ intros [= <-]. left. eexists. split; [reflexivity|]. split; discriminate. }
  destruct (bool_decide (cd = target_date_obj)) eqn:Hd; cbn [negb].
  2:{ intros [= <-]. left. eexists. split; [reflexivity|]. split; discriminate. }
  apply bool_decide_eq_true_1 in Hd. subst cd.
  destruct (cache_status_passes claim) eqn:Hst; cbn [negb].
  2:{ intros [= <-]. left. eexists. split; [reflexivity|]. split; discriminate. }
  destruct (str_truthy (cached_patient_fn claim)) eqn:Hfn; cbn [negb orb].
  2:{ intros [= <-]. left. eexists. split; [reflexivity|]. split; discriminate. }
  destruct (str_truthy (cached_patient_ln claim)) eqn:Hln; cbn [negb].
  2:{ intros [= <-]. left. eexists. split; [reflexivity|]. split; discriminate. }
  intros Hrun. right. split; [auto|].
  destruct (name_gate _ _ fn ln) as [ns|]; [|injection Hrun as <-; reflexivity].
  unfold cache_after_name_gate. cbn zeta.
  destruct (Qleb (cache_procedure_percentage criteria claim) (49 # 100)) eqn:Hpct.
  - pose proof (proj1 (Qleb_true _ _) Hpct) as Hle.
    unfold cache_match_source in Hrun. rewrite Hpct in Hrun.
    destruct (_has_strong_non_procedure_match_with_fees _ _ _ _ _) eqn:Hfee.
    + unfold bind in Hrun.
      destruct (int_of (or_Z (cc_claim_num claim) _)); [|discriminate].
      destruct (int_of (or_Z (cc_pat_num claim) _)); [|discriminate].
      injection Hrun as <-. cbn. repeat split; auto.
    + destruct (_has_procedure_count_match _ _ _ _ _) eqn:Hcnt.
      * unfold bind in Hrun.
        destruct (int_of (or_Z (cc_claim_num claim) _)); [|discriminate].
        destruct (int_of (or_Z (cc_pat_num claim) _)); [|discriminate].
        injection Hrun as <-. cbn. repeat split; auto.
      * injection Hrun as <-. auto.
  - assert (Hlt : (49 # 100 < cache_procedure_percentage criteria claim)%Q).
    { apply Qnot_le_lt. intros Hle. apply Qleb_true in Hle. congruence. }
    unfold cache_match_source, bind in Hrun.
    destruct (int_of (or_Z (cc_claim_num claim) _)); [|discriminate].
    destruct (int_of (or_Z (cc_pat_num claim) _)); [|discriminate].
    injection Hrun as <-. cbn. repeat split; auto.
Qed.

(** A cached claim that reaches the name gate and fails it is skipped
    there. *)
Lemma evaluate_cached_claim_name_fail (criteria : SearchCriteria) (target_date_obj : date)
    (fn ln : string) (claim : CachedClaim) :
  cache_reaches_name_gate target_date_obj claim ->
  name_gate (cached_patient_fn claim) (cached_patient_ln claim) fn ln = None ->
  evaluate_cached_claim criteria target_date_obj fn ln claim = Ok (Skipped GateName).
Proof.
  intros (Hds & Hcd & Hst & Hfn & Hln) Hg. unfold evaluate_cached_claim.
  fold (cached_date_str claim) (cached_patient_fn claim) (cached_patient_ln claim).
  rewrite Hds, Hcd, Hst, Hfn, Hln, Hg. cbn [negb orb].
  rewrite bool_decide_eq_true_2 by reflexivity. reflexivity.
Qed.

End CacheProperties.

(** ** The name gate and its swap retry *)

Section NameGate.
Context `{PyLib}.

(** The gate by the score of the criteria's names ([original]) and the
    score of the swapped names ([swapped]). *)
Lemma name_gate_cases (claim_fn claim_ln : option string) (crit_fn crit_ln : string) :
  let original :=
    _calculate_name_match_score_with_nicknames claim_fn claim_ln crit_fn crit_ln in
  let swapped :=
    _calculate_name_match_score_with_nicknames claim_fn claim_ln crit_ln crit_fn in
  (name_gate claim_fn claim_ln crit_fn crit_ln = None <-> original < 20 /\ swapped < 20)
  /\ (original < 20 -> 20 <= swapped ->
      name_gate claim_fn claim_ln crit_fn crit_ln = Some swapped)
  /\ (20 <= original -> name_gate claim_fn claim_ln crit_fn crit_ln = Some original).
Proof.
  cbn zeta. unfold name_gate.
  destruct (_ <? 20) eqn:Ho; [apply Z.ltb_lt in Ho | apply Z.ltb_ge in Ho].
  - destruct (20 <=? _) eqn:Hs; [apply Z.leb_le in Hs | apply Z.leb_gt in Hs].
    + split; [split; [discriminate | lia]|]. split; [reflexivity | lia].
    + split; [split; [auto | reflexivity]|]. split; lia.
  - split; [split; [discriminate | lia]|]. split; [lia | reflexivity].
Qed.

(** C7.  In the scorer of a remote candidate and in the loop over the
    cached claims, a candidate is rejected at the name gate if and only
    if it reached that gate and both the score of the criteria's names
    and the score of the swapped names are below 20; when the first is
    below 20 and the second is 20 or more, the second is the name score:
    it is the one in the verdict, and in the score of the match. *)
Theorem name_gate_swap_retry :
  (forall (api_claim_data : ApiClaim) (procs : list ProcDict) (criteria : SearchCriteria)
          (owner : PatientDict),
      let original :=
        _calculate_name_match_score_with_nicknames (p_FName owner) (p_LName owner)
          (patient_first_name criteria) (patient_last_name criteria) in
      let swapped :=
        _calculate_name_match_score_with_nicknames (p_FName owner) (p_LName owner)
          (patient_last_name criteria) (patient_first_name criteria) in
      (score_api_claim_verdict api_claim_data procs criteria owner = Rejected GateName
       <-> api_reaches_name_gate api_claim_data criteria /\ original < 20 /\ swapped < 20)
      /\ (forall name_score ab ot,
             score_api_claim_verdict api_claim_data procs criteria owner
             = Accepted name_score ab ot ->
             original < 20 -> 20 <= swapped /\ name_score = swapped))
  /\ (forall (criteria : SearchCriteria) (target_date_obj : date) (fn ln : string)
             (claim : CachedClaim),
        let original :=
          _calculate_name_match_score_with_nicknames (cached_patient_fn claim)
            (cached_patient_ln claim) fn ln in
        let swapped :=
          _calculate_name_match_score_with_nicknames (cached_patient_fn claim)
            (cached_patient_ln claim) ln fn in
        (evaluate_cached_claim criteria target_date_obj fn ln claim = Ok (Skipped GateName)
         <-> cache_reaches_name_gate target_date_obj claim /\ original < 20 /\ swapped < 20)
        /\ (forall m,
               evaluate_cached_claim criteria target_date_obj fn ln claim = Ok (Matched m) ->
               original < 20 ->
               20 <= swapped
               /\ match_score m
                  = Some (30 + 10 + swapped + 30 + subscriber_bonus_points criteria claim))).
Proof.
  split.
  - intros api_claim_data procs criteria owner original swapped.
    destruct (name_gate_cases (p_FName owner) (p_LName owner)
                (patient_first_name criteria) (patient_last_name criteria))
      as (Hnone & Hswap & Horig).
    fold original swapped in Hnone, Hswap, Horig.
    split.
    + split.
      * intros Hv.
        assert (Hreach : api_reaches_name_gate api_claim_data criteria).
        { apply (verdict_reaches_name_gate _ procs _ owner); rewrite Hv; discriminate. }
        split; [exact Hreach|]. apply Hnone.
        destruct Hreach as [(d & Hc & Ht) Hst].
        rewrite (verdict_after_status _ _ _ _ d Hc Ht Hst) in Hv.
        destruct (name_gate _ _ _ _); [|reflexivity].
        cbn zeta in Hv.
        repeat match type of Hv with
               | (if ?b then _ else _) = _ => destruct b
               end; discriminate.
      * intros ([(d & Hc & Ht) Hst] & Hlow).
        rewrite (verdict_after_status _ _ _ _ d Hc Ht Hst).
        rewrite (proj2 Hnone Hlow). reflexivity.
    + intros ns ab ot Hv Ho.
      assert (Hreach : api_reaches_name_gate api_claim_data criteria).
      { apply (verdict_reaches_name_gate _ procs _ owner); rewrite Hv; discriminate. }
      destruct Hreach as [(d & Hc & Ht) Hst].
      rewrite (verdict_after_status _ _ _ _ d Hc Ht Hst) in Hv.
      destruct (Z_lt_le_dec swapped 20) as [Hs | Hs].
      * rewrite (proj2 Hnone (conj Ho Hs)) in Hv. discriminate.
      * split; [exact Hs|]. rewrite (Hswap Ho Hs) in Hv. cbn zeta in Hv.
        repeat match type of Hv with
               | (if ?b then _ else _) = _ => destruct b
               end; try discriminate; injection Hv as <- _ _; reflexivity.
  - intros criteria target_date_obj fn ln claim original swapped.
    destruct (name_gate_cases (cached_patient_fn claim) (cached_patient_ln claim) fn ln)
      as (Hnone & Hswap & Horig).
    fold original swapped in Hnone, Hswap, Horig.
    split.
    + split.
      * intros Hrun.
        apply evaluate_cached_claim_cases in Hrun as [(g & [= <-] & Hg & _) | [Hreach Hcase]];
          [congruence|].
        split; [exact Hreach|]. apply Hnone.
        destruct (name_gate _ _ fn ln) as [ns|]; [|reflexivity].
        destruct Hcase as [Hg _]. discriminate.
      * intros (Hreach & Hlow). apply evaluate_cached_claim_name_fail; [exact Hreach|].
        apply Hnone, Hlow.
    + intros m Hrun Ho.
      apply evaluate_cached_claim_cases in Hrun as [(g & [=] & _) | [Hreach Hcase]].
      destruct (Z_lt_le_dec swapped 20) as [Hs | Hs].
      * rewrite (proj2 Hnone (conj Ho Hs)) in Hcase. discriminate.
      * split; [exact Hs|]. rewrite (Hswap Ho Hs) in Hcase.
        destruct Hcase as (_ & Hscore & _). exact Hscore.
Qed.

End NameGate.

(** ** Primary and secondary matches *)

Lemma prioritize_convention (ms : list ClaimMatch) :
  Forall (fun m => has_pending_secondary m = false) ms ->
  pending_secondary_convention ms
    (prioritize (List.filter (fun m => negb (is_secondary m)) ms)
       (List.filter (fun m => is_secondary m) ms)).
Proof.
  intros Hms. rewrite List.Forall_forall in Hms.
  unfold pending_secondary_convention. cbn zeta.
  set (primary := List.filter (fun m => negb (is_secondary m)) ms).
  set (secondary := List.filter (fun m => is_secondary m) ms).
  assert (Hp : Forall (fun m => is_secondary m = false /\ has_pending_secondary m = false)
                 primary).
  { apply List.Forall_forall. intros m Hin. apply List.filter_In in Hin as [Hin Hf].
    split; [apply negb_true_iff, Hf | apply Hms, Hin]. }
  assert (Hs : Forall (fun m => is_secondary m = true /\ has_pending_secondary m = false)
                 secondary).
  { apply List.Forall_forall. intros m Hin. apply List.filter_In in Hin as [Hin Hf].
    split; [exact Hf | apply Hms, Hin]. }
  split; [|split; [|split]].
  - intros Hpne Hsne. rewrite prioritize_both by assumption. split; [reflexivity|].
    intros m Hin Hprim. apply List.in_app_or in Hin as [Hin | Hin].
    + apply List.in_map_iff in Hin as (m0 & <- & _). reflexivity.
    + rewrite List.Forall_forall in Hs. destruct (Hs m Hin) as [Hsec _]. congruence.
  - intros ->. apply prioritize_primary_only.
  - intros ->. apply prioritize_secondary_only.
  - apply prioritize_flag_only_on_primary; assumption.
Qed.

Section Partition.
Context `{PyLib} `{Remote}.

(** The matches of the cache path come from the cached claims. *)
Lemma cache_potential_matches_origin (criteria : SearchCriteria) (target_date_obj : date)
    (fn ln : string) (db_claims : list CachedClaim) (pm : list ClaimMatch) :
  cache_potential_matches criteria target_date_obj fn ln db_claims = Ok pm ->
  Forall (fun m => exists claim, In claim db_claims
                                 /\ evaluate_cached_claim criteria target_date_obj fn ln claim
                                    = Ok (Matched m)) pm.
Proof.
  unfold cache_potential_matches.
  apply (for_each_invariant
           (fun pm => Forall (fun m => exists claim, In claim db_claims
                                 /\ evaluate_cached_claim criteria target_date_obj fn ln claim
                                    = Ok (Matched m)) pm)); [constructor|].
  intros st0 claim st1 Hin Hst0. unfold cache_step, bind.
  destruct (evaluate_cached_claim _ _ _ _ claim) as [[g|m]|e] eqn:He; try discriminate;
    intros [= <-]; [exact Hst0|].
  apply List.Forall_app. split; [exact Hst0|]. constructor; [|constructor]. eauto.
Qed.

Lemma cache_potential_matches_unflagged (criteria : SearchCriteria) (target_date_obj : date)
    (fn ln : string) (db_claims : list CachedClaim) (pm : list ClaimMatch) :
  cache_potential_matches criteria target_date_obj fn ln db_claims = Ok pm ->
  Forall (fun m => has_pending_secondary m = false) pm.
Proof.
  intros Hrun. apply cache_potential_matches_origin in Hrun.
  eapply List.Forall_impl; [|exact Hrun]. cbn beta.
  intros m (claim & _ & He).
  apply evaluate_cached_claim_cases in He as [(g & [=] & _) | [_ Hcase]].
  destruct (name_gate _ _ fn ln); [|discriminate].
  destruct Hcase as (_ & _ & _ & Hflag). exact Hflag.
Qed.

(** What [filter_cached_claims] returns: nothing, or the prioritized
    matches of the cached claims, sorted by score. *)
Lemma filter_cached_claims_unfold (criteria : SearchCriteria) (db_claims : list CachedClaim)
    (res : list ClaimMatch) :
  filter_cached_claims criteria db_claims = Ok res ->
  res = []
  \/ exists (target_date_obj : date) (fn ln : string) (pm : list ClaimMatch),
       strptime_date (date_of_service criteria) = Some target_date_obj
       /\ criteria_name_to_use criteria = Some (fn, ln)
       /\ cache_potential_matches criteria target_date_obj fn ln db_claims = Ok pm
       /\ res = finalize_matches pm.
Proof.
  unfold filter_cached_claims, bind.
  destruct (is_nil db_claims); [intros [= <-]; left; reflexivity|].
  destruct (strptime_date _) as [td|]; [|intros [= <-]; left; reflexivity].
  destruct (criteria_name_to_use criteria) as [[fn ln]|];
    [|intros [= <-]; left; reflexivity].
  destruct (cache_potential_matches _ _ _ _ _) as [pm|e] eqn:Hpm; [|discriminate].
  intros [= <-]. right. exists td, fn, ln, pm. auto.
Qed.

Lemma convention_nil : pending_secondary_convention [] [].
Proof.
  unfold pending_secondary_convention. cbn. repeat split; try congruence.
  intros m [].
Qed.

(** C5.  The cache path returns the empty list without looking for a
    match when there is no cached claim, when the date of the criteria
    does not parse or when the criteria name no patient; the remote path
    when the date does not parse.  In every other case the list returned
    follows the convention of the pending secondary for the sorted
    matches that passed the gates: with primary and secondary matches,
    it is the primary matches, each with the flag
    [has_pending_secondary], followed by the secondary matches; with one
    group only, it is that group; and the flag is never set on a match
    whose [is_secondary] is true. *)
Theorem pending_secondary_partition :
  (forall (criteria : SearchCriteria) (db_claims : list CachedClaim)
          (res : list ClaimMatch),
      filter_cached_claims criteria db_claims = Ok res ->
      ((db_claims = []
        \/ strptime_date (date_of_service criteria) = None
        \/ criteria_name_to_use criteria = None)
       /\ res = [])
      \/ exists (target_date_obj : date) (fn ln : string) (pm : list ClaimMatch),
           strptime_date (date_of_service criteria) = Some target_date_obj
           /\ criteria_name_to_use criteria = Some (fn, ln)
           /\ cache_potential_matches criteria target_date_obj fn ln db_claims = Ok pm
           /\ pending_secondary_convention (sort_desc score_key pm) res)
  /\ (forall (criteria : SearchCriteria) (res : list ClaimMatch),
        find_matching_claims criteria = Ok res ->
        (strptime_date (date_of_service criteria) = None /\ res = [])
        \/ exists (target_date : date) (cands : list Candidate) (ms : list ClaimMatch),
             strptime_date (date_of_service criteria) = Some target_date
             /\ collect_candidates criteria target_date = Ok cands
             /\ Forall2 (fun c m => match_of_candidate c = Ok m)
                  (sort_desc cand_score
                     (List.filter (fun cand => MIN_ACCEPTABLE_SCORE <=? cand_score cand)
                        cands))
                  ms
             /\ pending_secondary_convention ms res).
Proof.
  split.
  - intros criteria db_claims res. unfold filter_cached_claims, bind.
    destruct (is_nil db_claims) eqn:Hnil.
    { intros [= <-]. left. split; [left; apply is_nil_true, Hnil | reflexivity]. }
    destruct (strptime_date _) as [td|] eqn:Ht; [|intros [= <-]; left; auto].
    destruct (criteria_name_to_use criteria) as [[fn ln]|] eqn:Hn;
      [|intros [= <-]; left; auto].
    destruct (cache_potential_matches _ _ _ _ _) as [pm|e] eqn:Hpm; [|discriminate].
    intros [= <-]. right. exists td, fn, ln, pm.
    split; [reflexivity|]. split; [reflexivity|]. split; [exact Hpm|].
    apply prioritize_convention.
    apply cache_potential_matches_unflagged in Hpm.
    eapply Permutation_Forall; [|exact Hpm].
    symmetry. apply sort_desc_permutation.
  - intros criteria res. unfold find_matching_claims, bind.
    destruct (strptime_date _) as [td|] eqn:Ht; [|intros [= <-]; left; auto].
    destruct (collect_candidates criteria td) as [cands|e] eqn:Hc; [|discriminate].
    destruct (is_nil _) eqn:Hnil.
    { intros [= <-]. right. exists td, cands, []. apply is_nil_true in Hnil.
      rewrite Hnil. split; [reflexivity|]. split; [exact Hc|].
      split; [constructor | apply convention_nil]. }
    destruct (build_matches _) as [groups|e] eqn:Hb; [|discriminate].
    intros [= <-]. right.
    apply build_matches_groups in Hb as (ms & Hall & Hp & Hs).
    exists td, cands, ms. rewrite Hp, Hs.
    split; [reflexivity|]. split; [exact Hc|]. split; [exact Hall|].
    apply prioritize_convention. apply List.Forall_forall. intros m Hin.
    destruct (Forall2_In_right _ _ _ _ Hall Hin) as (c & _ & Hm).
    apply match_of_candidate_fields in Hm. tauto.
Qed.

(** C9.  When the date of service of the criteria does not parse, the
    cache path and the remote path return the empty list and raise
    nothing. *)
Theorem unparseable_criteria_date_returns_empty (criteria : SearchCriteria)
    (db_claims : list CachedClaim) :
  strptime_date (date_of_service criteria) = None ->
  filter_cached_claims criteria db_claims = Ok []
  /\ find_matching_claims criteria = Ok [].
Proof.
  intros Hd. unfold filter_cached_claims, find_matching_claims. rewrite Hd.
  destruct (is_nil db_claims); auto.
Qed.

End Partition.

(** ** Score and source tag on the cache path *)

Section CacheScore.
Context `{PyLib}.

(** Every match that [filter_cached_claims] returns was built from a
    cached claim that passed the gates; the partition may have set its
    flag [has_pending_secondary]. *)
Lemma filter_cached_claims_origin (criteria : SearchCriteria) (db_claims : list CachedClaim)
    (res : list ClaimMatch) (m : ClaimMatch) :
  filter_cached_claims criteria db_claims = Ok res -> In m res ->
  exists (target_date_obj : date) (fn ln : string) (claim : CachedClaim) (m0 : ClaimMatch),
    strptime_date (date_of_service criteria) = Some target_date_obj
    /\ criteria_name_to_use criteria = Some (fn, ln)
    /\ In claim db_claims
    /\ evaluate_cached_claim criteria target_date_obj fn ln claim = Ok (Matched m0)
    /\ (m = m0 \/ m = set_has_pending_secondary m0).
Proof.
  intros Hrun Hin.
  apply filter_cached_claims_unfold in Hrun
    as [-> | (td & fn & ln & pm & Ht & Hn & Hpm & ->)]; [destruct Hin|].
  apply cache_potential_matches_origin in Hpm. rewrite List.Forall_forall in Hpm.
  assert (Hsorted : forall m0, In m0 (sort_desc score_key pm) ->
            exists claim, In claim db_claims
                          /\ evaluate_cached_claim criteria td fn ln claim = Ok (Matched m0)).
  { intros m0 Hm0. apply sort_desc_In in Hm0. apply Hpm. exact Hm0. }
  unfold finalize_matches in Hin.
  apply prioritize_In in Hin as [Hin | [Hin | (m0 & Hin & ->)]];
    apply List.filter_In in Hin as [Hin _];
    destruct (Hsorted _ Hin) as (claim & Hc & He).
  - exists td, fn, ln, claim, m. repeat split; auto.
  - exists td, fn, ln, claim, m. repeat split; auto.
  - exists td, fn, ln, claim, m0. repeat split; auto.
Qed.


(** C10.  A cached claim that is accepted with a procedure match of at
    most 49 percent was accepted by one of the two overrides; when the
    conditions of the procedure-count override hold its source is
    [database_count_match], also when the fee-array override is the one
    that fired; the source is [database_alternate_benefit] exactly when
    the conditions of the procedure-count override do not hold. *)
Theorem cache_override_source_tag (criteria : SearchCriteria) (target_date_obj : date)
    (fn ln : string) (claim : CachedClaim) (m : ClaimMatch) :
  evaluate_cached_claim criteria target_date_obj fn ln claim = Ok (Matched m) ->
  (cache_procedure_percentage criteria claim <= 49 # 100)%Q ->
  exists name_score : Z,
    name_gate (cached_patient_fn claim) (cached_patient_ln claim) fn ln = Some name_score
    /\ let fee :=
         _has_strong_non_procedure_match_with_fees target_date_obj target_date_obj
           name_score (cached_procs_list claim) (procedures (payment_info criteria)) in
       let cnt :=
         _has_procedure_count_match target_date_obj target_date_obj
           name_score (cached_procs_list claim) (procedures (payment_info criteria)) in
       (fee = true \/ cnt = true)
       /\ (cnt = true -> match_source m = Some "database_count_match")
       /\ (fee = true -> cnt = true -> match_source m = Some "database_count_match")
       /\ (match_source m = Some "database_alternate_benefit" <-> cnt = false).
Proof.
  intros Hrun Hpct.
  apply evaluate_cached_claim_cases in Hrun as [(g & [=] & _) | [_ Hcase]].
  destruct (name_gate _ _ fn ln) as [ns|]; [|discriminate].
  exists ns. split; [reflexivity|]. cbn zeta.
  destruct Hcase as (Hpass & _ & Hsrc & _).
  rewrite (proj2 (Qleb_true _ _) Hpct) in Hsrc.
  split.
  - destruct Hpass as [Hlt | [_ Hov]]; [|exact Hov].
    exfalso. apply (Qlt_not_le _ _ Hlt Hpct).
  - rewrite Hsrc.
    destruct (_has_procedure_count_match _ _ _ _ _);
      repeat split; intros; congruence.
Qed.

End CacheScore.

(** C10 at a cached claim billed D0140 for 50 against a remittance of
    D0120 submitted 50: the fee-array override fires, the counts are
    equal too, and the source is [database_count_match]. *)
Lemma cache_override_source_tag_witness :
  let claim :=
    {| cc_claim_num := Some 1; cc_ClaimNum := None;
       cc_pat_num := Some 7; cc_PatNum := None;
       cc_date_of_service := Some "2024-03-05"; cc_claim_date := None;
       cc_DateService := None;
       cc_claim_status := Some "S"; cc_ClaimStatus := None;
       cc_is_secondary := None; cc_IsSecondary := None;
       cc_plan_type := None; cc_ClaimType := None;
       cc_patient_first_name := Some "John"; cc_pat_fn := None;
       cc_patient_last_name := Some "Smith"; cc_pat_ln := None;
       cc_procedures :=
         Some [ {| pd_proc_code := Some "D0140"; pd_code := None; pd_CodeSent := None;
                   pd_fee_billed := Some (F64.of_Z 50); pd_FeeBilled := None;
                   pd_claim_proc_num := Some 1; pd_ClaimProcNum := None |} ];
       cc_claim_procs := None;
       cc_subscriber_first_name := None; cc_subscriber_last_name := None;
       cc_claim_fee := Some (F64.of_Z 50); cc_ClaimFee := None;
       cc_has_secondary_plan := None; cc_is_supplemental := None |} in
  let target := {| year := 2024; month := 3; day := 5 |} in
  exists m : ClaimMatch,
    @evaluate_cached_claim prefix_lib demo_criteria target "John" "Smith" claim
    = Ok (Matched m)
    /\ _has_strong_non_procedure_match_with_fees target target 30
         (cached_procs_list claim) (procedures (payment_info demo_criteria)) = true
    /\ _has_procedure_count_match target target 30
         (cached_procs_list claim) (procedures (payment_info demo_criteria)) = true
    /\ match_source m = Some "database_count_match".
Proof.
  intros claim target.
  assert (Hrun : exists m,
             @evaluate_cached_claim prefix_lib demo_criteria target "John" "Smith" claim
             = Ok (Matched m)).
  { vm_compute. eexists. reflexivity. }
  destruct Hrun as (m & Hrun). exists m. split; [exact Hrun|].
  assert (Hfee : _has_strong_non_procedure_match_with_fees target target 30
                   (cached_procs_list claim) (procedures (payment_info demo_criteria))
                 = true) by (vm_compute; reflexivity).
  assert (Hcnt : _has_procedure_count_match target target 30
                   (cached_procs_list claim) (procedures (payment_info demo_criteria))
                 = true) by (vm_compute; reflexivity).
  split; [exact Hfee|]. split; [exact Hcnt|].
  assert (Hpct : (@cache_procedure_percentage demo_criteria claim <= 49 # 100)%Q)
    by (vm_compute; discriminate).
  destruct (@cache_override_source_tag prefix_lib demo_criteria target "John" "Smith"
              claim m Hrun Hpct) as (ns & Hgate & _ & _ & Hboth & _).
  assert (Hns : ns = 30).
  { assert (Hg : @name_gate prefix_lib (cached_patient_fn claim) (cached_patient_ln claim)
                   "John" "Smith" = Some 30) by (vm_compute; reflexivity).
    congruence. }
  subst ns. exact (Hboth Hfee Hcnt).
Defined.

(** ** Subscriber bonus *)

Section SubscriberBonus.
Context `{PyLib}.





End SubscriberBonus.

(** ** Supplemental fallback *)

Section Supplemental.
Context `{PyLib} `{Remote}.

Lemma supplemental_line_overlaps_code (criteria : SearchCriteria) (proc : ProcDict) :
  supplemental_line_overlaps criteria proc = true ->
  exists code, pd_CodeSent proc = Some code
               /\ normalize_procedure_code code ∈ eob_proc_codes_normalized criteria.
Proof.
  unfold supplemental_line_overlaps, normalize_procedure_code_opt.
  destruct (pd_CodeSent proc) as [code|]; [|discriminate].
  intros Hb. apply andb_prop in Hb as [_ Hb]. apply bool_decide_eq_true_1 in Hb.
  exists code. auto.
Qed.

Lemma supplemental_body_invariant (criteria : SearchCriteria) (target_date_obj : date)
    (pat_num : option Z) (claims : list ApiClaim) (st st' : list ClaimMatch)
    (api_claim : ApiClaim) :
  strptime_date (date_of_service criteria) = Some target_date_obj ->
  In api_claim claims ->
  (ac_ClaimStatus api_claim = Some "R" \/ ac_ClaimStatus api_claim = Some "S") ->
  Forall (supplemental_evidence criteria claims) st ->
  supplemental_body criteria target_date_obj pat_num st api_claim = Ok st' ->
  Forall (supplemental_evidence criteria claims) st'.
Proof.
  intros Ht Hin Hst Hall. unfold supplemental_body, bind, subscript.
  destruct (strptime_date (default "" _)) as [cd|] eqn:Hcd; [|intros [= <-]; exact Hall].
  destruct (bool_decide (cd = target_date_obj)) eqn:Hd; cbn [negb];
    [|intros [= <-]; exact Hall].
  apply bool_decide_eq_true_1 in Hd. subst cd.
  destruct (ac_ClaimNum api_claim) as [cn|] eqn:Hcn; [|discriminate].
  destruct (request_claimprocs cn) as [[[|p l]|[|]]|e] eqn:Hreq; try discriminate;
    try (intros [= <-]; exact Hall).
  destruct (is_nil (supplemental_match_procs criteria (p :: l))) eqn:Hm;
    [intros [= <-]; exact Hall|].
  destruct (ac_DateService api_claim) as [ds|] eqn:Hds; [|discriminate].
  intros [= <-]. apply List.Forall_app. split; [exact Hall|].
  constructor; [|constructor].
  unfold supplemental_evidence. cbn [is_supplemental match_source match_score claim_num].
  repeat split.
  apply is_nil_false in Hm. unfold supplemental_match_procs in Hm.
  destruct (List.filter (supplemental_line_overlaps criteria) (p :: l)) as [|proc rest] eqn:Hf;
    [cbn in Hm; congruence|].
  assert (Hp : In proc (List.filter (supplemental_line_overlaps criteria) (p :: l)))
    by (rewrite Hf; left; reflexivity).
  apply List.filter_In in Hp as [Hpin Hov].
  apply supplemental_line_overlaps_code in Hov as (code & Hcode & Hel).
  exists api_claim, target_date_obj, (p :: l), proc, code.
  rewrite Hds. repeat split; auto.
Qed.

(** C6.  Every match returned by the supplemental fallback has
    [is_supplemental] true, the source [api_supplemental] and no score;
    it was built from a claim of the patient found by name whose status
    is Received or Sent, whose date of service parses to the date of the
    criteria, and one of whose procedure lines has a normalized code in
    the set of the normalized codes of the criteria. *)
Theorem supplemental_match_shape (criteria : SearchCriteria) (skip_api_fallback : bool)
    (m : ClaimMatch) :
  In m (find_matching_claims_api_fallback criteria skip_api_fallback) ->
  exists (first_name : string) (patient : PatientDict) (claims : list ApiClaim),
    entity_patient (patient_last_name criteria) first_name = Some (patient, claims)
    /\ supplemental_evidence criteria claims m.
Proof.
  unfold find_matching_claims_api_fallback.
  destruct skip_api_fallback; [intros []|].
  destruct (if Py.truthy (patient_first_name criteria) then _ else _) as [fn|];
    [|intros []].
  destruct (_ || _); [intros []|].
  destruct (entity_patient _ fn) as [[patient claims]|] eqn:He; [|intros []].
  destruct (is_nil _); [intros []|].
  destruct (strptime_date (date_of_service criteria)) as [td|] eqn:Ht; [|intros []].
  destruct (for_each _ _ _) as [ms|e] eqn:Hrun; [|intros []].
  intros Hin. exists fn, patient, claims. split; [exact He|].
  assert (Hall : Forall (supplemental_evidence criteria claims) ms).
  { revert Hrun.
    apply (for_each_invariant (Forall (supplemental_evidence criteria claims)));
      [constructor|].
    intros st0 api_claim st1 Hc Hst0 Hbody.
    apply List.filter_In in Hc as [Hc Hstatus].
    apply orb_true_iff in Hstatus. rewrite !str_is_true in Hstatus.
    eapply supplemental_body_invariant; eauto. }
  rewrite List.Forall_forall in Hall. apply Hall, Hin.
Qed.

End Supplemental.

(** ** The properties on the practice of the examples *)

(** C2 (amended) at claim 101 with five lines against a remittance of
    five lines, no code in common: the fees of the two sides stand in
    different orders, and four of the five pairs of the sorted lists
    agree, which is the 80 percent that the rule asks for. *)
Lemma fee_array_override_iff_witness :
  @score_api_claim_verdict prefix_lib (api_claim_of 101 "2024-03-05" "S" "P")
    five_line_procs five_line_criteria john_smith
  = Accepted 30 true "fee_match"
  /\ fee_array_conditions 30 five_line_procs
       (procedures (payment_info five_line_criteria))
  /\ close_pairs (sorted_fees (positive_billed_fees five_line_procs))
       (sorted_fees
          (positive_submitted_amounts (procedures (payment_info five_line_criteria))))
     = 4%nat.
Proof.
  assert (Hv : @score_api_claim_verdict prefix_lib (api_claim_of 101 "2024-03-05" "S" "P")
                 five_line_procs five_line_criteria john_smith
               = Accepted 30 true "fee_match") by (vm_compute; reflexivity).
  split; [exact Hv|]. split; [|vm_compute; reflexivity].
  refine (proj1 (proj1 (@fee_array_override_iff prefix_lib
                          (api_claim_of 101 "2024-03-05" "S" "P")
                          five_line_procs five_line_criteria john_smith
                          march_5 30 _ _ _ _ _)) Hv).
  - vm_compute. reflexivity.
  - vm_compute. reflexivity.
  - left. reflexivity.
  - vm_compute. reflexivity.
  - vm_compute. discriminate.
Defined.

(** C2 (counterexample).  A claim line billed 1.14 against a remittance
    line submitted 2.14, for a candidate of name score 30 with no code in
    common.  The two amounts differ by exactly one dollar, so the
    conditions of the rule hold on the amounts: one pair, and it agrees.
    In binary64 [abs(1.14 - 2.14)] is [1.0000000000000002], which is more
    than [1.0], and the quotient by [2.14] is more than [0.02]: the
    override does not fire, and the scorer accepts the candidate by the
    count of its lines instead. *)
Lemma fee_array_override_decimal_counterexample :
  @strptime_date prefix_lib
    (default "" (ac_DateService (api_claim_of 101 "2024-03-05" "S" "P")))
  = Some march_5
  /\ @strptime_date prefix_lib (date_of_service one_dollar_criteria) = Some march_5
  /\ ac_ClaimStatus (api_claim_of 101 "2024-03-05" "S" "P") = Some "S"
  /\ @name_gate prefix_lib (p_FName john_smith) (p_LName john_smith)
       (patient_first_name one_dollar_criteria) (patient_last_name one_dollar_criteria)
     = Some 30
  /\ (api_procedure_percentage one_dollar_criteria one_dollar_procs <= 49 # 100)%Q
  /\ decimal_fee_array_conditions 30 one_dollar_procs
       (procedures (payment_info one_dollar_criteria))
  /\ _has_strong_non_procedure_match_with_fees march_5 march_5 30 one_dollar_procs
       (procedures (payment_info one_dollar_criteria))
     = false
  /\ @score_api_claim_verdict prefix_lib (api_claim_of 101 "2024-03-05" "S" "P")
       one_dollar_procs one_dollar_criteria john_smith
     = Accepted 30 true "count_match"
  /\ ~ (@score_api_claim_verdict prefix_lib (api_claim_of 101 "2024-03-05" "S" "P")
         one_dollar_procs one_dollar_criteria john_smith
       = Accepted 30 true "fee_match"
       <-> decimal_fee_array_conditions 30 one_dollar_procs
             (procedures (payment_info one_dollar_criteria))).
Proof.
  assert (Hdec : decimal_fee_array_conditions 30 one_dollar_procs
                   (procedures (payment_info one_dollar_criteria))).
  { exists [114], [214], [114], [214].
    split; [vm_compute; reflexivity|]. split; [vm_compute; reflexivity|].
    split; [repeat constructor|]. split; [repeat constructor|].
    split; [lia|]. split; [discriminate|]. split; [discriminate|].
    split; [reflexivity|].
    split; [repeat constructor|]. split; [reflexivity|].
    split; [repeat constructor|]. split; [reflexivity|].
    vm_compute. lia. }
  assert (Hv : @score_api_claim_verdict prefix_lib (api_claim_of 101 "2024-03-05" "S" "P")
                 one_dollar_procs one_dollar_criteria john_smith
               = Accepted 30 true "count_match") by (vm_compute; reflexivity).
  split; [vm_compute; reflexivity|]. split; [vm_compute; reflexivity|].
  split; [reflexivity|]. split; [vm_compute; reflexivity|].
  split; [vm_compute; discriminate|]. split; [exact Hdec|].
  split; [vm_compute; reflexivity|]. split; [exact Hv|].
  intros [_ Hfire]. specialize (Hfire Hdec). rewrite Hv in Hfire. discriminate.
Qed.

(** C5 on two cached claims, a primary and a secondary one, on the
    remote practice, whose two Sent claims are a primary and a secondary
    one, and on one cached primary claim alone.  With both groups the
    primary match comes back with the flag and before the secondary
    match; alone it comes back without the flag. *)
Lemma pending_secondary_partition_witness :
  (@filter_cached_claims prefix_lib demo_criteria
     [cached_claim_of 1 "S" false; cached_claim_of 2 "S" true]
   = Ok [example_match 1 115 "database_strict" false true;
         example_match 2 115 "database_strict" true false]
   /\ pending_secondary_convention
        [example_match 1 115 "database_strict" false false;
         example_match 2 115 "database_strict" true false]
        [example_match 1 115 "database_strict" false true;
         example_match 2 115 "database_strict" true false])
  /\ (@find_matching_claims prefix_lib demo_remote demo_criteria
      = Ok [example_match 101 100 "api_strict_scored" false true;
            example_match 102 100 "api_strict_scored" true false]
      /\ pending_secondary_convention
           [example_match 101 100 "api_strict_scored" false false;
            example_match 102 100 "api_strict_scored" true false]
           [example_match 101 100 "api_strict_scored" false true;
            example_match 102 100 "api_strict_scored" true false])
  /\ (@filter_cached_claims prefix_lib demo_criteria [cached_claim_of 1 "S" false]
      = Ok [example_match 1 115 "database_strict" false false]
      /\ pending_secondary_convention
           [example_match 1 115 "database_strict" false false]
           [example_match 1 115 "database_strict" false false]).
Proof.
  split; [|split].
  - assert (Hrun : @filter_cached_claims prefix_lib demo_criteria
                     [cached_claim_of 1 "S" false; cached_claim_of 2 "S" true]
                   = Ok [example_match 1 115 "database_strict" false true;
                         example_match 2 115 "database_strict" true false])
      by (vm_compute; reflexivity).
    split; [exact Hrun|].
    destruct (proj1 (@pending_secondary_partition prefix_lib demo_remote) _ _ _ Hrun)
      as [[Hexit _] | (td & fn & ln & pm & Ht & Hn & Hpm & Hconv)].
    { exfalso. destruct Hexit as [Hx | [Hx | Hx]]; vm_compute in Hx; discriminate. }
    vm_compute in Ht. injection Ht as <-.
    vm_compute in Hn. injection Hn as <- <-.
    vm_compute in Hpm. injection Hpm as <-.
    exact Hconv.
  - assert (Hrun : @find_matching_claims prefix_lib demo_remote demo_criteria
                   = Ok [example_match 101 100 "api_strict_scored" false true;
                         example_match 102 100 "api_strict_scored" true false])
      by (vm_compute; reflexivity).
    split; [exact Hrun|].
    destruct (proj2 (@pending_secondary_partition prefix_lib demo_remote) _ _ Hrun)
      as [[Hexit _] | (td & cands & ms & Ht & Hc & Hall & Hconv)].
    { exfalso. vm_compute in Hexit. discriminate. }
    vm_compute in Ht. injection Ht as <-.
    vm_compute in Hc. injection Hc as <-.
    vm_compute in Hall.
    apply Forall2_cons_inv_l in Hall as (m1 & ms1 & Hm1 & Hall & ->).
    apply Forall2_cons_inv_l in Hall as (m2 & ms2 & Hm2 & Hall & ->).
    apply Forall2_nil_inv_l in Hall as ->.
    injection Hm1 as <-. injection Hm2 as <-.
    exact Hconv.
  - assert (Hrun : @filter_cached_claims prefix_lib demo_criteria
                     [cached_claim_of 1 "S" false]
                   = Ok [example_match 1 115 "database_strict" false false])
      by (vm_compute; reflexivity).
    split; [exact Hrun|].
    destruct (proj1 (@pending_secondary_partition prefix_lib demo_remote) _ _ _ Hrun)
      as [[Hexit _] | (td & fn & ln & pm & Ht & Hn & Hpm & Hconv)].
    { exfalso. destruct Hexit as [Hx | [Hx | Hx]]; vm_compute in Hx; discriminate. }
    vm_compute in Ht. injection Ht as <-.
    vm_compute in Hn. injection Hn as <- <-.
    vm_compute in Hpm. injection Hpm as <-.
    exact Hconv.
Defined.

(** C6 on the remote practice: the first supplemental match. *)
Lemma supplemental_match_shape_witness :
  exists (m : ClaimMatch) (rest : list ClaimMatch) (first_name : string)
         (patient : PatientDict) (claims : list ApiClaim),
    @find_matching_claims_api_fallback prefix_lib demo_remote demo_criteria false
    = m :: rest
    /\ @entity_patient demo_remote (patient_last_name demo_criteria) first_name
       = Some (patient, claims)
    /\ @supplemental_evidence prefix_lib demo_remote demo_criteria claims m.
Proof.
  assert (Hrun : exists m rest,
             @find_matching_claims_api_fallback prefix_lib demo_remote demo_criteria false
             = m :: rest).
  { vm_compute. do 2 eexists. reflexivity. }
  destruct Hrun as (m & rest & Hrun).
  assert (Hin : In m (@find_matching_claims_api_fallback prefix_lib demo_remote
                        demo_criteria false))
    by (rewrite Hrun; left; reflexivity).
  destruct (@supplemental_match_shape prefix_lib demo_remote demo_criteria false m Hin)
    as (fn & patient & claims & He & Hev).
  exists m, rest, fn, patient, claims. auto.
Defined.

(** C7 on the transposed names: the first attempt scores 0, the swapped
    attempt scores 30 and is the name score of the accepted candidate and
    of the cached match. *)
Lemma name_gate_swap_retry_witness :
  (@_calculate_name_match_score_with_nicknames prefix_lib (Some "John") (Some "Smith")
     "Smith" "John" < 20
   /\ 20 <= @_calculate_name_match_score_with_nicknames prefix_lib (Some "John")
              (Some "Smith") "John" "Smith"
   /\ 30 = @_calculate_name_match_score_with_nicknames prefix_lib (Some "John")
             (Some "Smith") "John" "Smith")
  /\ (exists m : ClaimMatch,
        @evaluate_cached_claim prefix_lib transposed_criteria march_5 "Smith" "John"
          (cached_claim_of 1 "S" false) = Ok (Matched m)
        /\ match_score m
           = Some (30 + 10
                   + @_calculate_name_match_score_with_nicknames prefix_lib
                       (Some "John") (Some "Smith") "John" "Smith"
                   + 30
                   + @subscriber_bonus_points prefix_lib transposed_criteria
                       (cached_claim_of 1 "S" false))).
Proof.
  assert (Hlow : @_calculate_name_match_score_with_nicknames prefix_lib (Some "John")
                   (Some "Smith") "Smith" "John" < 20) by (vm_compute; reflexivity).
  split.
  - split; [exact Hlow|].
    refine (proj2 (proj1 (@name_gate_swap_retry prefix_lib)
                     (api_claim_of 101 "2024-03-05" "S" "P")
                     [api_proc "D0120" (F64.of_Z 50) 1] transposed_criteria john_smith)
              30 false "" _ Hlow).
    vm_compute. reflexivity.
  - assert (Hrun : exists m,
               @evaluate_cached_claim prefix_lib transposed_criteria march_5 "Smith" "John"
                 (cached_claim_of 1 "S" false) = Ok (Matched m)).
    { vm_compute. eexists. reflexivity. }
    destruct Hrun as (m & Hrun). exists m. split; [exact Hrun|].
    exact (proj2 (proj2 (proj2 (@name_gate_swap_retry prefix_lib)
                           transposed_criteria march_5 "Smith" "John"
                           (cached_claim_of 1 "S" false))
                    m Hrun Hlow)).
Defined.


(** C9 at a date written month first. *)
Lemma unparseable_criteria_date_returns_empty_witness :
  let criteria :=
    criteria_of "03/05/2024" "John" "Smith" "John" "Smith"
      [eob_line "D0120" (F64.of_Z 50) (F64.of_Z 40)] in
  @strptime_date prefix_lib (date_of_service criteria) = None
  /\ @filter_cached_claims prefix_lib criteria [cached_claim_of 1 "S" false] = Ok []
  /\ @find_matching_claims prefix_lib demo_remote criteria = Ok [].
Proof.
  intros criteria.
  assert (Hd : @strptime_date prefix_lib (date_of_service criteria) = None)
    by (vm_compute; reflexivity).
  split; [exact Hd|].
  exact (@unparseable_criteria_date_returns_empty prefix_lib demo_remote criteria
           [cached_claim_of 1 "S" false] Hd).
Defined.

(** * Further properties *)

(** ** Normal form of a procedure code *)

Lemma isdigit_String (c : ascii) (r : string) :
  Py.isdigit (String c r) = Py.is_digit c && Py.all_chars Py.is_digit r.
Proof. reflexivity. Qed.

Lemma strip_leading_zeros_decompose (digits : string) :
  exists k : nat, digits = zeros k +:+ strip_leading_zeros digits.
Proof.
  induction digits as [|c r IH]; [exists 0%nat; reflexivity|].
  cbn [strip_leading_zeros].
  destruct ((4 <? Py.len (String c r)) && Ascii.eqb c "0") eqn:Hb.
  - apply andb_prop in Hb as [_ Hc]. apply Ascii.eqb_eq in Hc. subst c.
    destruct IH as (k & Hk). exists (S k). rewrite Hk at 1. reflexivity.
  - exists 0%nat. reflexivity.
Qed.

(** X1.  A code made of the prefix D and more than four digits is
    normalized by removing leading zeros only: the digits are some zeros
    followed by the body of the result, which is a digit string of four
    characters or more that either has exactly four characters or does
    not start with a zero. *)
Theorem normalize_prefixed_code_shape (digits : string) :
  Py.isdigit digits = true -> 4 < Py.len digits ->
  exists (k : nat) (body : string),
    digits = zeros k +:+ body
    /\ normalize_procedure_code (String "D" digits) = String "D" body
    /\ Py.isdigit body = true
    /\ 4 <= Py.len body
    /\ (Py.len body = 4 \/ Py.startswith "0" body = false).
Proof.
  intros Hd Hlen.
  destruct (strip_leading_zeros_decompose digits) as (k & Hk).
  destruct (strip_leading_zeros_result digits Hlen) as ([Hlo Hhi] & Hs & _).
  exists k, (strip_leading_zeros digits).
  split; [exact Hk|]. split.
  - rewrite normalize_prefixed, Hd, (proj2 (Z.ltb_lt _ _) Hlen). reflexivity.
  - split.
    + apply isdigit_all_chars. split.
      * intros He. rewrite He in Hlo. unfold Py.len in Hlo. cbn in Hlo. lia.
      * apply strip_leading_zeros_digits. apply isdigit_all_chars in Hd. tauto.
    + split; [exact Hlo|]. destruct Hs as [Hs | Hs]; [left; lia | right; exact Hs].
Qed.

(** X1 on a code of six digits. *)
Lemma normalize_prefixed_code_shape_witness :
  exists (k : nat) (body : string),
    "000120" = zeros k +:+ body
    /\ normalize_procedure_code "D000120" = String "D" body
    /\ Py.isdigit body = true
    /\ 4 <= Py.len body
    /\ (Py.len body = 4 \/ Py.startswith "0" body = false).
Proof.
  apply (normalize_prefixed_code_shape "000120"); vm_compute; reflexivity.
Defined.

Lemma len_zeros_append (k : nat) (d : string) :
  Py.len (zeros k +:+ d) = Z.of_nat k + Py.len d.
Proof.
  induction k as [|k IH]; [change (zeros 0 +:+ d) with d; lia|].
  change (zeros (S k) +:+ d) with (String "0" (zeros k +:+ d)).
  rewrite len_String, IH. lia.
Qed.

Lemma strip_leading_zeros_padding (k : nat) (d : string) :
  4 <= Py.len d ->
  strip_leading_zeros (zeros k +:+ d) = strip_leading_zeros d.
Proof.
  intros Hd. induction k as [|k IH]; [reflexivity|].
  change (zeros (S k) +:+ d) with (String "0" (zeros k +:+ d)).
  cbn [strip_leading_zeros].
  rewrite len_String, len_zeros_append.
  rewrite (proj2 (Z.ltb_lt 4 _)) by lia. rewrite Ascii.eqb_refl. cbn [andb].
  exact IH.
Qed.

Lemma all_chars_zeros_append (k : nat) (d : string) :
  Py.all_chars Py.is_digit d = true ->
  Py.all_chars Py.is_digit (zeros k +:+ d) = true.
Proof.
  intros Hd. induction k as [|k IH]; [exact Hd|].
  change (zeros (S k) +:+ d) with (String "0" (zeros k +:+ d)).
  cbn [Py.all_chars]. rewrite IH. reflexivity.
Qed.

(** X2.  Zero padding in front of four digits or more does not change
    the normal form of a prefixed code: the codes D0120, D00120,
    D000120, ... all normalize alike. *)
Theorem normalize_ignores_zero_padding (k : nat) (d : string) :
  Py.isdigit d = true -> 4 <= Py.len d ->
  normalize_procedure_code (String "D" (zeros k +:+ d))
  = normalize_procedure_code (String "D" d).
Proof.
  intros Hd Hlen.
  assert (Hall : Py.all_chars Py.is_digit d = true)
    by (apply isdigit_all_chars in Hd; tauto).
  assert (Hpad : Py.isdigit (zeros k +:+ d) = true).
  { apply isdigit_all_chars. split.
    - intros He. pose proof (len_zeros_append k d) as Hl. rewrite He in Hl.
      unfold Py.len in Hl at 1. cbn in Hl. lia.
    - apply all_chars_zeros_append. exact Hall. }
  rewrite !normalize_prefixed, Hpad, Hd, !andb_true_r, len_zeros_append.
  destruct (4 <? Py.len d) eqn:H4.
  - apply Z.ltb_lt in H4. rewrite (proj2 (Z.ltb_lt 4 _)) by lia.
    rewrite strip_leading_zeros_padding by lia. reflexivity.
  - apply Z.ltb_ge in H4.
    destruct (4 <? Z.of_nat k + Py.len d) eqn:Hk.
    + rewrite strip_leading_zeros_padding by lia.
      rewrite strip_leading_zeros_short by (left; lia). reflexivity.
    + apply Z.ltb_ge in Hk. assert (k = 0%nat) by lia. subst k. reflexivity.
Qed.

(** X2 on a padded code. *)
Lemma normalize_ignores_zero_padding_witness :
  normalize_procedure_code (String "D" (zeros 3 +:+ "0120"))
  = normalize_procedure_code (String "D" "0120").
Proof.
  apply normalize_ignores_zero_padding; vm_compute; [reflexivity | discriminate].
Defined.

(** ** Match percentage *)

Lemma ratio_bounds (count total : nat) :
  (count <= total)%nat -> (0 <= ratio count total)%Q /\ (ratio count total <= 1)%Q.
Proof.
  intros Hle. unfold ratio.
  destruct total as [|t].
  - assert (count = 0%nat) by lia. subst. split; vm_compute; discriminate.
  - assert (Hpos : (0 < inject_Z (Z.of_nat (S t)))%Q).
    { unfold Qlt, inject_Z. simpl. lia. }
    split.
    + apply Qle_shift_div_l; [exact Hpos|]. unfold Qle, Qmult, inject_Z. simpl. lia.
    + apply Qle_shift_div_r; [exact Hpos|]. unfold Qle, Qmult, inject_Z. simpl. lia.
Qed.

(** X3.  The match percentage is a ratio between 0 and 1, whatever the
    two lists of codes. *)
Theorem match_percentage_bounds (payment_codes db_codes : list string) :
  (0 <= match_percentage (_match_procedure_codes payment_codes db_codes))%Q
  /\ (match_percentage (_match_procedure_codes payment_codes db_codes) <= 1)%Q.
Proof.
  unfold _match_procedure_codes.
  destruct payment_codes as [|p ps]; [split; vm_compute; discriminate|].
  destruct db_codes as [|d ds]; [split; vm_compute; discriminate|].
  destruct (_ && _); [split; vm_compute; discriminate|].
  cbn [match_percentage].
  destruct (bool_decide _); [split; vm_compute; discriminate|].
  apply ratio_bounds. apply subseteq_size. set_solver.
Qed.

Lemma list_to_set_nil_iff (l : list string) :
  list_to_set (C := gset string) l = ∅ <-> l = [].
Proof.
  split; [|intros ->; reflexivity].
  destruct l as [|x l]; [reflexivity|]. intros He.
  assert (x ∈ (list_to_set (x :: l) : gset string)) by set_solver.
  rewrite He in H. set_solver.
Qed.

(** X4.  The match percentage depends on the two sets of codes only:
    the order of the codes and their repetitions do not matter. *)
Theorem match_percentage_set_invariant (payment_codes payment_codes' db_codes db_codes'
    : list string) :
  list_to_set (C := gset string) payment_codes = list_to_set payment_codes' ->
  list_to_set (C := gset string) db_codes = list_to_set db_codes' ->
  match_percentage (_match_procedure_codes payment_codes db_codes)
  = match_percentage (_match_procedure_codes payment_codes' db_codes').
Proof.
  intros Hp Hd.
  destruct payment_codes as [|p ps].
  { symmetry in Hp. apply list_to_set_nil_iff in Hp. subst. reflexivity. }
  destruct payment_codes' as [|p' ps'].
  { apply list_to_set_nil_iff in Hp. discriminate. }
  destruct db_codes as [|d ds].
  { symmetry in Hd. apply list_to_set_nil_iff in Hd. subst. reflexivity. }
  destruct db_codes' as [|d' ds'].
  { apply list_to_set_nil_iff in Hd. discriminate. }
  unfold _match_procedure_codes. rewrite <- Hp, <- Hd.
  destruct (bool_decide (size (list_to_set (p :: ps) : gset string) = 1%nat)) eqn:H1;
    cbn [andb]; [|reflexivity].
  destruct (bool_decide (size (list_to_set (d :: ds) : gset string) = 1%nat)) eqn:H2;
    cbn [andb]; [|reflexivity].
  apply bool_decide_eq_true_1 in H1. apply bool_decide_eq_true_1 in H2.
  apply size_one_list_to_set_head in H1. apply size_one_list_to_set_head in H2.
  assert (p' = p).
  { rewrite H1 in Hp. symmetry in Hp. apply list_to_set_singleton_head in Hp. exact Hp. }
  assert (d' = d).
  { rewrite H2 in Hd. symmetry in Hd. apply list_to_set_singleton_head in Hd. exact Hd. }
  subst. reflexivity.
Qed.

(** X4 on two orders of the same codes. *)
Lemma match_percentage_set_invariant_witness :
  match_percentage (_match_procedure_codes ["D0120"; "D0140"; "D0120"] ["D1110"; "D0120"])
  = match_percentage (_match_procedure_codes ["D0140"; "D0120"] ["D0120"; "D1110"; "D1110"]).
Proof.
  apply match_percentage_set_invariant; apply leibniz_equiv; set_solver.
Defined.

Lemma ratio_one_iff (count total : nat) :
  (0 < total)%nat -> ((ratio count total == 1)%Q <-> count = total).
Proof.
  intros Ht. unfold ratio.
  assert (Hnz : ~ (inject_Z (Z.of_nat total) == 0)%Q).
  { unfold Qeq, inject_Z. simpl. lia. }
  split.
  - intros He.
    assert (Hm : (inject_Z (Z.of_nat count) == inject_Z (Z.of_nat total))%Q).
    { rewrite <- (Qmult_div_r (inject_Z (Z.of_nat count)) (inject_Z (Z.of_nat total)) Hnz).
      rewrite He. ring. }
    unfold Qeq, inject_Z in Hm. simpl in Hm. lia.
  - intros ->. field. exact Hnz.
Qed.

Lemma ratio_zero_iff (count total : nat) :
  (0 < total)%nat -> ((ratio count total == 0)%Q <-> count = 0%nat).
Proof.
  intros Ht. unfold ratio.
  assert (Hnz : ~ (inject_Z (Z.of_nat total) == 0)%Q).
  { unfold Qeq, inject_Z. simpl. lia. }
  split.
  - intros He.
    assert (Hm : (inject_Z (Z.of_nat count) == 0)%Q).
    { rewrite <- (Qmult_div_r (inject_Z (Z.of_nat count)) (inject_Z (Z.of_nat total)) Hnz).
      rewrite He. ring. }
    unfold Qeq, inject_Z in Hm. simpl in Hm. lia.
  - intros ->. field. exact Hnz.
Qed.

(** The special case of a single repeated code returns the value that
    the general formula gives. *)
Lemma match_percentage_ratio (payment_codes db_codes : list string) :
  payment_codes <> [] -> db_codes <> [] ->
  (match_percentage (_match_procedure_codes payment_codes db_codes)
   == ratio (size (normalized_code_set payment_codes ∩ normalized_code_set db_codes))
            (size (normalized_code_set payment_codes)))%Q.
Proof.
  intros Hp Hd.
  destruct payment_codes as [|x l]; [congruence|].
  destruct db_codes as [|y l']; [congruence|].
  unfold _match_procedure_codes.
  destruct (bool_decide (size (list_to_set (x :: l) : gset string) = 1%nat)
            && bool_decide (size (list_to_set (y :: l') : gset string) = 1%nat)
            && String.eqb (normalize_procedure_code x) (normalize_procedure_code y))
    eqn:Hc.
  - apply andb_prop in Hc as [Hc Hn]. apply andb_prop in Hc as [H1 H2].
    apply bool_decide_eq_true_1 in H1. apply bool_decide_eq_true_1 in H2.
    apply String.eqb_eq in Hn.
    apply size_one_list_to_set_head in H1. apply size_one_list_to_set_head in H2.
    cbn [match_percentage]. unfold normalized_code_set. rewrite H1, H2.
    assert (Hx : (set_map normalize_procedure_code ({[ x ]} : gset string) : gset string)
                 = {[ normalize_procedure_code x ]})
      by (apply leibniz_equiv; set_solver).
    assert (Hy : (set_map normalize_procedure_code ({[ y ]} : gset string) : gset string)
                 = {[ normalize_procedure_code x ]})
      by (rewrite Hn; apply leibniz_equiv; set_solver).
    rewrite Hx, Hy.
    assert (Hi : ({[ normalize_procedure_code x ]} ∩ {[ normalize_procedure_code x ]}
                  : gset string) = {[ normalize_procedure_code x ]})
      by (apply leibniz_equiv; set_solver).
    rewrite Hi, size_singleton. vm_compute. reflexivity.
  - cbn [match_percentage]. fold (normalized_code_set (x :: l)).
    fold (normalized_code_set (y :: l')).
    rewrite bool_decide_eq_false_2; [reflexivity|].
    apply size_set_map_nonempty. congruence.
Qed.

(** X5.  For two non-empty lists the match percentage is always the
    size of the intersection of the two normalized code sets over the
    size of the normalized payment code set, also in the special case of
    a single repeated code.  It is 1 exactly when every normalized
    payment code is a normalized code of the claim, and 0 exactly when no
    normalized payment code is one. *)
Theorem match_percentage_is_overlap_ratio (payment_codes db_codes : list string) :
  payment_codes <> [] -> db_codes <> [] ->
  (match_percentage (_match_procedure_codes payment_codes db_codes)
   == ratio (size (normalized_code_set payment_codes ∩ normalized_code_set db_codes))
            (size (normalized_code_set payment_codes)))%Q
  /\ ((match_percentage (_match_procedure_codes payment_codes db_codes) == 1)%Q
      <-> normalized_code_set payment_codes ⊆ normalized_code_set db_codes)
  /\ ((match_percentage (_match_procedure_codes payment_codes db_codes) == 0)%Q
      <-> normalized_code_set payment_codes ∩ normalized_code_set db_codes = ∅).
Proof.
  intros Hp Hd.
  assert (Hnz : size (normalized_code_set payment_codes) <> 0%nat)
    by (apply size_set_map_nonempty; exact Hp).
  split; [exact (match_percentage_ratio _ _ Hp Hd)|].
  rewrite (match_percentage_ratio _ _ Hp Hd).
  split.
  - rewrite ratio_one_iff by lia. split.
    + intros Hs.
      assert (Heq : normalized_code_set payment_codes ∩ normalized_code_set db_codes
                    = normalized_code_set payment_codes)
        by (apply set_subseteq_size_eq; [set_solver | lia]).
      set_solver.
    + intros Hsub. f_equal. apply leibniz_equiv. set_solver.
  - rewrite ratio_zero_iff by lia. split.
    + intros Hs. apply size_empty_inv in Hs. apply leibniz_equiv. exact Hs.
    + intros ->. apply size_empty.
Qed.

(** X5 on the repeated code D8670, on a remittance all of whose codes
    are on the claim and on one none of whose codes is. *)
Lemma match_percentage_is_overlap_ratio_witness :
  (match_percentage (_match_procedure_codes ["D8670"; "D8670"] ["D08670"])
   == ratio (size (normalized_code_set ["D8670"; "D8670"] ∩ normalized_code_set ["D08670"]))
            (size (normalized_code_set ["D8670"; "D8670"])))%Q
  /\ (match_percentage (_match_procedure_codes ["0120"; "D0140"] ["D0140"; "D0120"; "D1110"])
      == 1)%Q
  /\ (match_percentage (_match_procedure_codes ["D0120"] ["D0140"; "D1110"]) == 0)%Q.
Proof.
  split; [|split].
  - exact (proj1 (match_percentage_is_overlap_ratio ["D8670"; "D8670"] ["D08670"]
                    ltac:(discriminate) ltac:(discriminate))).
  - apply (proj1 (proj2 (match_percentage_is_overlap_ratio ["0120"; "D0140"]
                           ["D0140"; "D0120"; "D1110"]
                           ltac:(discriminate) ltac:(discriminate)))).
    apply (bool_decide_unpack _). vm_compute. exact I.
  - apply (proj2 (proj2 (match_percentage_is_overlap_ratio ["D0120"] ["D0140"; "D1110"]
                           ltac:(discriminate) ltac:(discriminate)))).
    apply (bool_decide_unpack _). vm_compute. exact I.
Defined.

(** ** Nicknames *)

(** X6.  Two names are related in one order exactly when they are in the
    other. *)
Theorem are_names_related_symmetric (name1 name2 : string) :
  are_names_related name1 name2 = are_names_related name2 name1.
Proof.
  unfold are_names_related. rewrite orb_comm.
  destruct (_ || _); [reflexivity|].
  apply bool_decide_ext. rewrite (comm_L (∩)). reflexivity.
Qed.

(** X7.  A name is related to itself exactly when it is not blank, that
    is not empty once lowered and stripped; and a blank name is related
    to nothing: whatever the second name, the two are not related, in
    either order. *)
Theorem are_names_related_reflexive_iff (name : string) :
  (are_names_related name name = true <-> Py.truthy (Py.strip (Py.lower name)) = true)
  /\ (Py.truthy (Py.strip (Py.lower name)) = false ->
      forall other : string,
        are_names_related name other = false /\ are_names_related other name = false).
Proof.
  split.
  - unfold are_names_related.
    destruct (Py.truthy (Py.strip (Py.lower name))); cbn [negb orb].
    + split; [reflexivity|]. intros _. apply bool_decide_eq_true_2.
      unfold get_name_variations.
      destruct (_nickname_to_group !! _); set_solver.
    + split; discriminate.
  - intros Hblank other. unfold are_names_related. rewrite Hblank. cbn [negb orb].
    rewrite orb_true_r. split; reflexivity.
Qed.

(** X7 on the name of two spaces, which is blank: it is related neither
    to itself nor to William. *)
Lemma are_names_related_reflexive_iff_witness :
  Py.truthy (Py.strip (Py.lower "  ")) = false
  /\ are_names_related "  " "  " = false
  /\ are_names_related "  " "William" = false
  /\ are_names_related "William" "  " = false.
Proof.
  assert (Hblank : Py.truthy (Py.strip (Py.lower "  ")) = false)
    by (vm_compute; reflexivity).
  split; [exact Hblank|].
  split; [exact (proj1 (proj2 (are_names_related_reflexive_iff "  ") Hblank "  "))|].
  exact (proj2 (are_names_related_reflexive_iff "  ") Hblank "William").
Defined.

(** ** Edit distance *)

Lemma edit_distance_nil_l (q : list ascii) :
  edit_distance [] q = Z.of_nat (List.length q).
Proof. reflexivity. Qed.

Lemma edit_distance_nil_r (p : list ascii) :
  edit_distance p [] = Z.of_nat (List.length p).
Proof. destruct p; reflexivity. Qed.

Lemma edit_distance_cons (c b : ascii) (p q : list ascii) :
  edit_distance (c :: p) (b :: q)
  = Z.min (Z.min (edit_distance p (b :: q) + 1) (edit_distance (c :: p) q + 1))
          (edit_distance p q + (if Ascii.eqb c b then 0 else 1)).
Proof. reflexivity. Qed.

Lemma row_from_unfold (p q rest : list ascii) :
  row_from p q rest
  = edit_distance p q :: match rest with [] => [] | b :: r => row_from p (b :: q) r end.
Proof. destruct rest; reflexivity. Qed.

(** One row of the table from the row above. *)
Lemma lev_row_spec (c : ascii) (p rest q : list ascii) :
  lev_row c rest (row_from p q rest) (edit_distance (c :: p) q)
  = List.tl (row_from (c :: p) q rest).
Proof.
  revert q. induction rest as [|b r IH]; intros q; [reflexivity|].
  rewrite (row_from_unfold p q (b :: r)), (row_from_unfold p (b :: q) r).
  cbn [lev_row].
  rewrite <- (row_from_unfold p (b :: q) r).
  rewrite <- (edit_distance_cons c b p q).
  rewrite IH. cbn [row_from List.tl].
  rewrite (row_from_unfold (c :: p) (b :: q) r). reflexivity.
Qed.

Lemma lev_rows_spec (s1 p s2 : list ascii) :
  lev_rows s1 s2 (Z.of_nat (List.length p)) (row_from p [] s2)
  = row_from (List.rev s1 ++ p) [] s2.
Proof.
  revert p. induction s1 as [|c s1 IH]; intros p; [reflexivity|].
  cbn [lev_rows].
  replace (Z.of_nat (List.length p) + 1) with (edit_distance (c :: p) [])
    by (rewrite edit_distance_nil_r; cbn [List.length]; lia).
  rewrite lev_row_spec.
  replace (edit_distance (c :: p) [] :: List.tl (row_from (c :: p) [] s2))
    with (row_from (c :: p) [] s2) by (destruct s2; reflexivity).
  rewrite edit_distance_nil_r. rewrite IH.
  cbn [List.rev]. rewrite <- List.app_assoc. reflexivity.
Qed.

Lemma row_from_nil (q rest : list ascii) :
  row_from [] q rest
  = List.map Z.of_nat (seq (List.length q) (List.length rest + 1)).
Proof.
  revert q. induction rest as [|b r IH]; intros q; [reflexivity|].
  rewrite row_from_unfold, IH. reflexivity.
Qed.

Lemma row_from_last (p q rest : list ascii) :
  List.last (row_from p q rest) 0 = edit_distance p (List.rev rest ++ q).
Proof.
  revert q. induction rest as [|b r IH]; intros q; [reflexivity|].
  rewrite row_from_unfold.
  replace (List.last (edit_distance p q :: row_from p (b :: q) r) 0)
    with (List.last (row_from p (b :: q) r) 0)
    by (rewrite (row_from_unfold p (b :: q) r); reflexivity).
  rewrite IH. cbn [List.rev]. rewrite <- List.app_assoc. reflexivity.
Qed.

Lemma length_list_ascii (s : string) :
  List.length (list_ascii_of_string s) = String.length s.
Proof. induction s as [|c s IH]; [reflexivity|]. cbn. rewrite IH. reflexivity. Qed.

(** The dynamic programme without the swap of its arguments. *)
Lemma levenshtein_rows_distance (s1 s2 : string) :
  (if (String.length s2 =? 0)%nat then Py.len s1
   else List.last
          (lev_rows (list_ascii_of_string s1) (list_ascii_of_string s2) 0
             (List.map Z.of_nat (seq 0 (String.length s2 + 1)))) 0)
  = edit_distance (List.rev (list_ascii_of_string s1)) (List.rev (list_ascii_of_string s2)).
Proof.
  destruct (String.length s2 =? 0)%nat eqn:H0.
  - apply Nat.eqb_eq in H0. destruct s2; [|discriminate].
    cbn [list_ascii_of_string List.rev]. rewrite edit_distance_nil_r.
    rewrite List.length_rev, length_list_ascii. reflexivity.
  - rewrite <- (length_list_ascii s2).
    pose proof (row_from_nil [] (list_ascii_of_string s2)) as Hr.
    cbn [List.length] in Hr. rewrite <- Hr.
    change 0 with (Z.of_nat (List.length (@nil ascii))) at 1.
    rewrite lev_rows_spec, row_from_last, !List.app_nil_r. reflexivity.
Qed.

Lemma edit_distance_bounds (p q : list ascii) :
  Z.abs (Z.of_nat (List.length p) - Z.of_nat (List.length q)) <= edit_distance p q
  /\ edit_distance p q <= Z.max (Z.of_nat (List.length p)) (Z.of_nat (List.length q)).
Proof.
  revert q. induction p as [|c p IHp]; intros q.
  - rewrite edit_distance_nil_l. cbn [List.length]. lia.
  - induction q as [|b q IHq].
    + rewrite edit_distance_nil_r. cbn [List.length]. lia.
    + rewrite edit_distance_cons.
      pose proof (IHp (b :: q)) as H1. pose proof (IHp q) as H2.
      cbn [List.length] in *. destruct (Ascii.eqb c b); lia.
Qed.

Lemma edit_distance_symmetric (p q : list ascii) :
  edit_distance p q = edit_distance q p.
Proof.
  revert q. induction p as [|c p IHp]; intros q.
  - rewrite edit_distance_nil_l, edit_distance_nil_r. reflexivity.
  - induction q as [|b q IHq].
    + rewrite edit_distance_nil_l, edit_distance_nil_r. reflexivity.
    + rewrite !edit_distance_cons, (IHp (b :: q)), IHq, (IHp q), (Ascii.eqb_sym b c). lia.
Qed.

Lemma edit_distance_zero_iff (p q : list ascii) : edit_distance p q = 0 <-> p = q.
Proof.
  revert q. induction p as [|c p IHp]; intros q.
  - rewrite edit_distance_nil_l. destruct q; cbn [List.length]; split;
      try reflexivity; try discriminate; lia.
  - induction q as [|b q IHq].
    + rewrite edit_distance_nil_r. cbn [List.length]. split; [lia | discriminate].
    + rewrite edit_distance_cons.
      pose proof (edit_distance_bounds p (b :: q)) as H1.
      pose proof (edit_distance_bounds (c :: p) q) as H2.
      pose proof (edit_distance_bounds p q) as H3.
      destruct (Ascii.eqb c b) eqn:Hcb.
      * apply Ascii.eqb_eq in Hcb. subst b. split.
        -- intros Hz. f_equal. apply IHp. lia.
        -- intros [= ->]. assert (edit_distance q q = 0) by (apply IHp; reflexivity). lia.
      * apply Ascii.eqb_neq in Hcb. split; [lia|]. intros [= -> _]. congruence.
Qed.

(** The dynamic programme computes the edit distance. *)
Lemma levenshtein_edit_distance (s1 s2 : string) :
  levenshtein_distance s1 s2
  = edit_distance (List.rev (list_ascii_of_string s1)) (List.rev (list_ascii_of_string s2)).
Proof.
  unfold levenshtein_distance.
  destruct (String.length s1 <? String.length s2)%nat.
  - rewrite levenshtein_rows_distance. apply edit_distance_symmetric.
  - apply levenshtein_rows_distance.
Qed.

Lemma list_ascii_of_string_inj (s1 s2 : string) :
  list_ascii_of_string s1 = list_ascii_of_string s2 -> s1 = s2.
Proof.
  intros He. rewrite <- (string_of_list_ascii_of_string s1),
    <- (string_of_list_ascii_of_string s2), He. reflexivity.
Qed.

(** The distance lies between the difference of the two lengths and the
    length of the longer string. *)
Lemma levenshtein_distance_range (s1 s2 : string) :
  Z.abs (Py.len s1 - Py.len s2) <= levenshtein_distance s1 s2
  /\ levenshtein_distance s1 s2 <= Z.max (Py.len s1) (Py.len s2).
Proof.
  rewrite levenshtein_edit_distance.
  pose proof (edit_distance_bounds (List.rev (list_ascii_of_string s1))
                (List.rev (list_ascii_of_string s2))) as Hb.
  rewrite !List.length_rev, !length_list_ascii in Hb. exact Hb.
Qed.

(** X8.  [levenshtein_distance] computes the edit distance, the value
    that the recurrence on the last characters of the two strings
    defines (insertion, deletion and substitution of one character, each
    of cost 1).  Hence it is 0 exactly for two equal strings, it does
    not depend on the order of its arguments (also for two strings of
    one length, which the function does not swap), and it lies between
    the difference of the two lengths and the length of the longer
    string. *)
Theorem levenshtein_is_edit_distance (s1 s2 : string) :
  levenshtein_distance s1 s2
  = edit_distance (List.rev (list_ascii_of_string s1)) (List.rev (list_ascii_of_string s2))
  /\ (levenshtein_distance s1 s2 = 0 <-> s1 = s2)
  /\ levenshtein_distance s1 s2 = levenshtein_distance s2 s1
  /\ Z.abs (Py.len s1 - Py.len s2) <= levenshtein_distance s1 s2
     <= Z.max (Py.len s1) (Py.len s2).
Proof.
  split; [apply levenshtein_edit_distance|]. split; [|split].
  - rewrite levenshtein_edit_distance, edit_distance_zero_iff. split.
    + intros He. apply list_ascii_of_string_inj.
      rewrite <- (List.rev_involutive (list_ascii_of_string s1)), He.
      apply List.rev_involutive.
    + intros ->. reflexivity.
  - rewrite !levenshtein_edit_distance. apply edit_distance_symmetric.
  - apply levenshtein_distance_range.
Qed.

(** ** Name similarity *)

(** X9.  The similarity analyzer gives one of the scores 0, 4, 5, 6, 8,
    10, 12 and 15, and the full score 15 exactly for two non-empty names
    whose normal forms are equal and not empty. *)
Theorem similarity_score_exact_iff (name1 name2 : string) :
  In (score (calculate_enhanced_similarity name1 name2)) [0; 4; 5; 6; 8; 10; 12; 15]
  /\ (score (calculate_enhanced_similarity name1 name2) = 15
      <-> Py.truthy name1 = true /\ Py.truthy name2 = true
          /\ Py.truthy (normalize_name_for_matching name1) = true
          /\ normalize_name_for_matching name1 = normalize_name_for_matching name2).
Proof.
  unfold calculate_enhanced_similarity.
  destruct (Py.truthy name1), (Py.truthy name2); cbn [negb orb score];
    try (split; [cbn; tauto | split; [discriminate | intros (? & ? & _); discriminate]]).
  destruct (Py.truthy (normalize_name_for_matching name1)) eqn:Hn1; cbn [negb orb].
  2:{ cbn [score]. split; [cbn; tauto|]. split; [discriminate|].
      intros (_ & _ & ? & _). discriminate. }
  destruct (Py.truthy (normalize_name_for_matching name2)) eqn:Hn2; cbn [negb orb].
  2:{ cbn [score]. split; [cbn; tauto|]. split; [discriminate|].
      intros (_ & _ & _ & He). rewrite He in Hn1. congruence. }
  destruct (String.eqb _ _) eqn:Heq.
  { apply String.eqb_eq in Heq. cbn [score]. split; [cbn; tauto|]. tauto. }
  apply String.eqb_neq in Heq.
  repeat match goal with
         | |- context [if ?b then _ else _] => destruct b
         end; cbn [score];
    (split; [cbn; tauto | split; [discriminate | intros (_ & _ & _ & ?); congruence]]).
Qed.

Lemma lev_similarity_bounds (d m : Z) :
  0 <= d <= m -> 0 < m ->
  (0 <= 1 - inject_Z d / inject_Z m)%Q /\ (1 - inject_Z d / inject_Z m <= 1)%Q.
Proof.
  intros Hd Hm.
  assert (Hpos : (0 < inject_Z m)%Q) by (unfold Qlt, inject_Z; simpl; lia).
  assert (H0 : (0 <= inject_Z d / inject_Z m)%Q).
  { apply Qle_shift_div_l; [exact Hpos|]. unfold Qle, Qmult, inject_Z. simpl. lia. }
  assert (H1 : (inject_Z d / inject_Z m <= 1)%Q).
  { apply Qle_shift_div_r; [exact Hpos|]. unfold Qle, Qmult, inject_Z. simpl. lia. }
  split.
  - apply (Qplus_le_r _ _ (inject_Z d / inject_Z m)). ring_simplify. exact H1.
  - apply (Qplus_le_r _ _ (inject_Z d / inject_Z m)). ring_simplify.
    apply (Qplus_le_l _ _ (-(1))). ring_simplify. exact H0.
Qed.

(** X10.  The similarity ratio of two names lies between 0 and 1. *)
Theorem similarity_ratio_bounds (name1 name2 : string) :
  (0 <= similarity (calculate_enhanced_similarity name1 name2))%Q
  /\ (similarity (calculate_enhanced_similarity name1 name2) <= 1)%Q.
Proof.
  unfold calculate_enhanced_similarity. cbn zeta.
  set (norm1 := normalize_name_for_matching name1).
  set (norm2 := normalize_name_for_matching name2).
  set (L := if 0 <? Z.max (Py.len norm1) (Py.len norm2)
            then (1 - inject_Z (levenshtein_distance norm1 norm2)
                      / inject_Z (Z.max (Py.len norm1) (Py.len norm2)))%Q
            else 0%Q).
  set (C := if bool_decide (_ ∪ _ ≠ ∅) then ratio _ _ else 0%Q).
  assert (HL : (0 <= L)%Q /\ (L <= 1)%Q).
  { subst L. destruct (0 <? _) eqn:Hm; [|split; vm_compute; discriminate].
    apply Z.ltb_lt in Hm. apply lev_similarity_bounds; [|exact Hm].
    pose proof (levenshtein_distance_range norm1 norm2). lia. }
  assert (HC : (0 <= C)%Q /\ (C <= 1)%Q).
  { subst C. destruct (bool_decide _); [|split; vm_compute; discriminate].
    apply ratio_bounds. apply subseteq_size. set_solver. }
  clearbody L C.
  repeat match goal with
         | |- context [if ?b then _ else _] => destruct b
         end; cbn [similarity]; try assumption; split; vm_compute; discriminate.
Qed.

(** ** Name score *)

Section NameScoreExtra.
Context `{PyLib}.

(** X11.  The name score is 0 or lies between 15 and 30: no point is
    earned unless the first name matches, and a matched first name gives
    15 points. *)
Theorem name_score_zero_or_first_name_points
    (claim_fn claim_ln : option string) (crit_fn crit_ln : string) :
  _calculate_name_match_score_with_nicknames claim_fn claim_ln crit_fn crit_ln = 0
  \/ 15 <= _calculate_name_match_score_with_nicknames claim_fn claim_ln crit_fn crit_ln <= 30.
Proof.
  unfold _calculate_name_match_score_with_nicknames.
  repeat match goal with
         | |- context [if negb ?b then _ else _] => destruct b; cbn [negb]
         | |- context [if Py.truthy ?x then _ else _] => destruct (Py.truthy x)
         end; try (left; reflexivity); try (right; lia).
  all: destruct (ln_score_in_try _ _) as [z|] eqn:Hz; simpl; [|right; lia].
  all: apply ln_score_in_try_bounds in Hz; right; lia.
Qed.

Lemma truthy_of_clean (s : string) :
  Py.truthy (Py.strip (Py.lower s)) = true -> Py.truthy s = true.
Proof. destruct s; [discriminate | reflexivity]. Qed.

Lemma truthy_of_lower_strip (s : string) :
  Py.truthy (Py.lower (Py.strip s)) = true -> Py.truthy s = true.
Proof. destruct s; [discriminate | reflexivity]. Qed.

Lemma related_names_not_blank (x y : string) :
  are_names_related x y = true -> Py.truthy x = true /\ Py.truthy y = true.
Proof.
  unfold are_names_related.
  destruct (Py.truthy (Py.strip (Py.lower x))) eqn:Hx; [|discriminate].
  destruct (Py.truthy (Py.strip (Py.lower y))) eqn:Hy; [|discriminate].
  intros _. split; apply truthy_of_clean; assumption.
Qed.

(** X12.  When the first name of the criteria and the first name of the
    claim, both lowered and stripped, are related by the nickname table,
    the name score is at least 15 whatever the searches of the regex
    engine answer, and it is 30 when the criteria has a blank last
    name. *)
Theorem related_first_names_score (c_fn : string) (claim_ln : option string)
    (crit_fn crit_ln : string) :
  are_names_related (Py.lower (Py.strip crit_fn)) (Py.lower (Py.strip c_fn)) = true ->
  15 <= _calculate_name_match_score_with_nicknames (Some c_fn) claim_ln crit_fn crit_ln
  /\ (Py.strip crit_ln = "" ->
      _calculate_name_match_score_with_nicknames (Some c_fn) claim_ln crit_fn crit_ln = 30).
Proof.
  intros Hrel.
  destruct (related_names_not_blank _ _ Hrel) as [Hq Hc].
  pose proof (truthy_of_lower_strip _ Hq) as Hq0.
  pose proof (truthy_of_lower_strip _ Hc) as Hc0.
  unfold _calculate_name_match_score_with_nicknames.
  rewrite Hq0, Hq. cbn [negb str_truthy].
  change (default "" (Some c_fn)) with c_fn. rewrite Hc0, Hc, Hrel. cbn [negb].
  split.
  - destruct (Py.truthy (if Py.truthy crit_ln then _ else _)); [|lia].
    destruct (negb _); [lia|].
    destruct (ln_score_in_try _ _) as [z|] eqn:Hz; simpl; [|lia].
    apply ln_score_in_try_bounds in Hz. lia.
  - intros Hblank. rewrite Hblank.
    change (Py.lower "") with "".
    destruct (Py.truthy crit_ln); reflexivity.
Qed.

End NameScoreExtra.

(** X12 on William and Bill, with a library whose searches always
    raise. *)
Lemma related_first_names_score_witness :
  15 <= @_calculate_name_match_score_with_nicknames raising_lib (Some "Bill")
          (Some "Smith") " William" ""
  /\ @_calculate_name_match_score_with_nicknames raising_lib (Some "Bill")
       (Some "Smith") " William" "" = 30.
Proof.
  assert (Hrel : are_names_related (Py.lower (Py.strip " William"))
                   (Py.lower (Py.strip "Bill")) = true) by (vm_compute; reflexivity).
  destruct (@related_first_names_score raising_lib "Bill" (Some "Smith") " William" ""
              Hrel) as [Hlow Hfull].
  split; [exact Hlow | exact (Hfull eq_refl)].
Defined.

(** ** Override tags of the scorer *)

Section OverrideTags.
Context `{PyLib}.

(** X13.  In the tuple that the scorer returns the override type is
    empty, [fee_match] or [count_match]; the flag of the alternate
    benefit is set exactly when the type is not empty, never with a score
    of 0 and only for a procedure match of at most 49 percent;
    [fee_match] means that the conditions of the fee-array override hold
    for the name score (the score less 70), and [count_match] that the
    claim has as many lines as the remittance while those conditions do
    not hold: the fee-array override has precedence. *)
Theorem api_override_tags (api_claim_data : ApiClaim) (procs : list ProcDict)
    (criteria : SearchCriteria) (owner : PatientDict) (s : Z) (ab : bool) (ot : string) :
  _score_api_claim_candidate api_claim_data procs criteria owner = (s, ab, ot) ->
  (ot = "" \/ ot = "fee_match" \/ ot = "count_match")
  /\ (ab = true <-> ot <> "")
  /\ (s = 0 -> ab = false)
  /\ (ab = true -> (api_procedure_percentage criteria procs <= 49 # 100)%Q)
  /\ (ot = "fee_match" ->
      fee_array_conditions (s - 70) procs (procedures (payment_info criteria)))
  /\ (ot = "count_match" ->
      List.length procs = List.length (procedures (payment_info criteria))
      /\ ~ fee_array_conditions (s - 70) procs (procedures (payment_info criteria))).
Proof.
  unfold _score_api_claim_candidate. intros Hs.
  destruct (score_api_claim_verdict _ _ _ _) as [g | ns ab' ot'] eqn:Hv.
  - injection Hs as <- <- <-. tags_conjuncts.
  - injection Hs as <- <- <-.
    replace (30 + 10 + ns + 30 - 70) with ns by lia.
    assert (Hreach : api_reaches_name_gate api_claim_data criteria).
    { apply (verdict_reaches_name_gate _ procs _ owner); rewrite Hv; discriminate. }
    destruct Hreach as [(d & Hc & Ht) Hst].
    rewrite (verdict_after_status _ _ _ _ d Hc Ht Hst) in Hv.
    destruct (name_gate _ _ _ _) as [ns'|] eqn:Hg; [|discriminate].
    pose proof (name_gate_bounds _ _ _ _ _ Hg) as Hb.
    cbn zeta in Hv.
    destruct (negb (is_nil (procedures (payment_info criteria))) && negb (is_nil procs)).
    + destruct (Qltb (49 # 100) (api_procedure_percentage criteria procs)) eqn:Hpct.
      { injection Hv as <- <- <-. tags_conjuncts. }
      apply Qltb_false in Hpct.
      destruct (_has_strong_non_procedure_match_with_fees d d ns' procs _) eqn:Hfee.
      { injection Hv as <- <- <-. apply fee_override_decides in Hfee. tags_conjuncts. }
      destruct (_has_procedure_count_match d d ns' procs _) eqn:Hcnt; [|discriminate].
      injection Hv as <- <- <-. apply count_match_iff in Hcnt as [_ Hlen].
      tags_conjuncts. split; [exact Hlen|].
      intros Hcond. apply fee_override_decides with (d := d) in Hcond. congruence.
    + destruct (_ && _); [|discriminate].
      injection Hv as <- <- <-. tags_conjuncts.
Qed.

End OverrideTags.

(** X13 on claim 101 billed D0140 for 60 against the remittance of D0120
    submitted 50: the fees differ, the counts agree. *)
Lemma api_override_tags_witness :
  List.length [api_proc "D0140" (F64.of_Z 60) 1]
  = List.length (procedures (payment_info demo_criteria))
  /\ ~ fee_array_conditions (100 - 70) [api_proc "D0140" (F64.of_Z 60) 1]
         (procedures (payment_info demo_criteria)).
Proof.
  refine (proj2 (proj2 (proj2 (proj2 (proj2
            (@api_override_tags prefix_lib (api_claim_of 101 "2024-03-05" "S" "P")
               [api_proc "D0140" (F64.of_Z 60) 1] demo_criteria john_smith
               100 true "count_match" _))))) eq_refl).
  vm_compute. reflexivity.
Defined.

(** ** Order of the matches *)

Lemma insert_desc_descending {A} (key : A -> Z) (x : A) (l : list A) :
  descending key l -> descending key (insert_desc key x l).
Proof.
  unfold descending. induction l as [|y r IH]; intros Hl; cbn [insert_desc].
  - repeat constructor.
  - apply StronglySorted_inv in Hl as [Hr Hy].
    destruct (key x <? key y) eqn:E.
    + apply Z.ltb_lt in E. constructor; [apply IH, Hr|].
      eapply Permutation_Forall; [symmetry; apply insert_desc_permutation|].
      constructor; [lia | exact Hy].
    + apply Z.ltb_ge in E. constructor; [constructor; assumption|].
      constructor; [exact E|].
      eapply List.Forall_impl; [|exact Hy]. cbn beta. intros b Hb. lia.
Qed.

(** [sort_desc] sorts. *)
Lemma sort_desc_descending {A} (key : A -> Z) (l : list A) :
  descending key (sort_desc key l).
Proof.
  induction l as [|x l IH]; cbn; [constructor|].
  apply insert_desc_descending. exact IH.
Qed.

Lemma descending_filter {A} (key : A -> Z) (f : A -> bool) (l : list A) :
  descending key l -> descending key (List.filter f l).
Proof.
  unfold descending. induction 1 as [|a l Hl IH Ha]; cbn [List.filter]; [constructor|].
  destruct (f a); [|exact IH]. constructor; [exact IH|].
  apply List.Forall_forall. intros b Hb. apply List.filter_In in Hb as [Hb _].
  rewrite List.Forall_forall in Ha. apply Ha, Hb.
Qed.

Lemma descending_Forall2 {A B} (key : A -> Z) (key' : B -> Z) (R : A -> B -> Prop)
    (l : list A) (l' : list B) :
  (forall a b, R a b -> key' b = key a) ->
  Forall2 R l l' -> descending key l -> descending key' l'.
Proof.
  intros HR Hall. unfold descending.
  induction Hall as [|a b l l' Hab Hall IH]; intros Hs; [constructor|].
  apply StronglySorted_inv in Hs as [Hl Ha]. constructor; [apply IH, Hl|].
  apply List.Forall_forall. intros b' Hb'.
  destruct (Forall2_In_right _ _ _ _ Hall Hb') as (a' & Ha' & Hr).
  rewrite List.Forall_forall in Ha. rewrite (HR _ _ Hab), (HR _ _ Hr). apply Ha, Ha'.
Qed.

Lemma descending_map {A} (key : A -> Z) (g : A -> A) (l : list A) :
  (forall x, key (g x) = key x) -> descending key l -> descending key (List.map g l).
Proof.
  intros Hg. apply (descending_Forall2 key key (fun a b => b = g a)).
  - intros a b ->. apply Hg.
  - induction l; cbn; constructor; auto.
Qed.

(** The partition of sorted matches: the primary matches, then the
    secondary ones, each group still sorted. *)
Lemma prioritize_primary_first (ms : list ClaimMatch) :
  descending score_key ms ->
  exists primary secondary : list ClaimMatch,
    prioritize (List.filter (fun m => negb (is_secondary m)) ms)
      (List.filter (fun m => is_secondary m) ms)
    = (primary ++ secondary)%list
    /\ Forall (fun m => is_secondary m = false) primary
    /\ Forall (fun m => is_secondary m = true) secondary
    /\ descending score_key primary
    /\ descending score_key secondary.
Proof.
  intros Hms.
  set (primary := List.filter (fun m => negb (is_secondary m)) ms).
  set (secondary := List.filter (fun m => is_secondary m) ms).
  assert (Hp : Forall (fun m => is_secondary m = false) primary).
  { apply List.Forall_forall. intros m Hin. apply List.filter_In in Hin as [_ Hf].
    apply negb_true_iff, Hf. }
  assert (Hs : Forall (fun m => is_secondary m = true) secondary).
  { apply List.Forall_forall. intros m Hin. apply List.filter_In in Hin as [_ Hf].
    exact Hf. }
  assert (Hdp : descending score_key primary) by (apply descending_filter, Hms).
  assert (Hds : descending score_key secondary) by (apply descending_filter, Hms).
  destruct primary as [|p0 pr] eqn:Ep; destruct secondary as [|s0 sr] eqn:Es.
  - exists [], []. cbn. auto.
  - exists [], (s0 :: sr). cbn. auto.
  - exists (p0 :: pr), []. cbn. rewrite List.app_nil_r. auto.
  - exists (List.map set_has_pending_secondary (p0 :: pr)), (s0 :: sr).
    split; [reflexivity|]. split; [|split; [exact Hs|split; [|exact Hds]]].
    + apply List.Forall_map. eapply List.Forall_impl; [|exact Hp].
      intros m Hm. destruct m; exact Hm.
    + apply descending_map; [|exact Hdp]. intros m. destruct m; reflexivity.
Qed.

Section Ordering.
Context `{PyLib} `{Remote}.

(** X14.  The list that [find_matching_claims] returns has the primary
    matches before the secondary ones, and in each of the two groups the
    scores do not increase. *)
Theorem remote_matches_primary_first (criteria : SearchCriteria) (res : list ClaimMatch) :
  find_matching_claims criteria = Ok res ->
  exists primary secondary : list ClaimMatch,
    res = (primary ++ secondary)%list
    /\ Forall (fun m => is_secondary m = false) primary
    /\ Forall (fun m => is_secondary m = true) secondary
    /\ descending score_key primary
    /\ descending score_key secondary.
Proof.
  intros Hrun.
  apply find_matching_claims_unfold in Hrun as [-> | (td & cands & ms & _ & _ & Hall & ->)].
  - exists [], []. repeat split; constructor.
  - apply prioritize_primary_first.
    apply (descending_Forall2 cand_score score_key _ _ _ (fun c m Hm =>
             f_equal (default 0) (proj1 (match_of_candidate_fields c m Hm))) Hall).
    apply sort_desc_descending.
Qed.

(** X15.  The list that [filter_cached_claims] returns has the primary
    matches before the secondary ones, and in each of the two groups the
    scores do not increase. *)
Theorem cache_matches_primary_first (criteria : SearchCriteria)
    (db_claims : list CachedClaim) (res : list ClaimMatch) :
  filter_cached_claims criteria db_claims = Ok res ->
  exists primary secondary : list ClaimMatch,
    res = (primary ++ secondary)%list
    /\ Forall (fun m => is_secondary m = false) primary
    /\ Forall (fun m => is_secondary m = true) secondary
    /\ descending score_key primary
    /\ descending score_key secondary.
Proof.
  intros Hrun.
  apply filter_cached_claims_unfold in Hrun as [-> | (td & fn & ln & pm & _ & _ & _ & ->)].
  - exists [], []. repeat split; constructor.
  - unfold finalize_matches. apply prioritize_primary_first, sort_desc_descending.
Qed.

End Ordering.

(** X14 on the practice of the examples. *)
Lemma remote_matches_primary_first_witness :
  exists res primary secondary : list ClaimMatch,
    @find_matching_claims prefix_lib demo_remote demo_criteria = Ok res
    /\ res = (primary ++ secondary)%list
    /\ Forall (fun m => is_secondary m = false) primary
    /\ Forall (fun m => is_secondary m = true) secondary
    /\ descending score_key primary
    /\ descending score_key secondary.
Proof.
  assert (Hrun : exists res,
             @find_matching_claims prefix_lib demo_remote demo_criteria = Ok res)
    by (vm_compute; eexists; reflexivity).
  destruct Hrun as [res Hrun].
  destruct (@remote_matches_primary_first prefix_lib demo_remote demo_criteria res Hrun)
    as (primary & secondary & Hres).
  exists res, primary, secondary. split; [exact Hrun | exact Hres].
Defined.

(** X15 on a cache with a secondary claim stored before a primary one. *)
Lemma cache_matches_primary_first_witness :
  exists res primary secondary : list ClaimMatch,
    @filter_cached_claims prefix_lib demo_criteria
      [cached_claim_of 2 "S" true; cached_claim_of 1 "S" false] = Ok res
    /\ res = (primary ++ secondary)%list
    /\ Forall (fun m => is_secondary m = false) primary
    /\ Forall (fun m => is_secondary m = true) secondary
    /\ descending score_key primary
    /\ descending score_key secondary.
Proof.
  assert (Hrun : exists res,
             @filter_cached_claims prefix_lib demo_criteria
               [cached_claim_of 2 "S" true; cached_claim_of 1 "S" false] = Ok res)
    by (vm_compute; eexists; reflexivity).
  destruct Hrun as [res Hrun].
  destruct (@cache_matches_primary_first prefix_lib demo_criteria _ res Hrun)
    as (primary & secondary & Hres).
  exists res, primary, secondary. split; [exact Hrun | exact Hres].
Defined.

(** ** The candidates of the remote path *)

Lemma NoDup_map_filter {A B} (f : A -> B) (p : A -> bool) (l : list A) :
  List.NoDup (List.map f l) -> List.NoDup (List.map f (List.filter p l)).
Proof.
  induction l as [|a l IH]; cbn [List.map List.filter]; intros Hnd; [constructor|].
  apply List.NoDup_cons_iff in Hnd as [Ha Hl].
  destruct (p a); [|apply IH, Hl].
  cbn [List.map]. constructor; [|apply IH, Hl].
  intros Hin. apply Ha. apply List.in_map_iff in Hin as (x & Hx & Hin).
  apply List.filter_In in Hin as [Hin _]. apply List.in_map_iff. eauto.
Qed.

(** The two groups of a partition hold the elements of the list. *)
Lemma partition_permutation {A} (p : A -> bool) (l : list A) :
  Permutation (List.filter (fun x => negb (p x)) l ++ List.filter p l)%list l.
Proof.
  induction l as [|a l IH]; cbn [List.filter]; [reflexivity|].
  destruct (p a); cbn [negb].
  - rewrite <- Permutation_middle. apply perm_skip. exact IH.
  - cbn [app]. apply perm_skip. exact IH.
Qed.

(** The partition changes no claim number. *)
Lemma prioritize_claim_nums (primary secondary : list ClaimMatch) :
  List.map claim_num (prioritize primary secondary)
  = List.map claim_num (primary ++ secondary)%list.
Proof.
  unfold prioritize.
  destruct primary as [|p0 pr], secondary as [|s0 sr]; cbn [is_nil negb];
    rewrite ?List.app_nil_r; try reflexivity.
  rewrite !List.map_app, List.map_map. f_equal.
Qed.

Section Candidates.
Context `{PyLib} `{Remote}.

Lemma score_and_collect_distinct (criteria : SearchCriteria) (api_claim : ApiClaim)
    (owner : PatientDict) (st st' : collect_state) :
  distinct_candidates st ->
  default 0 (ac_ClaimNum api_claim) ∉ snd st ->
  score_and_collect criteria api_claim (default 0 (ac_ClaimNum api_claim)) owner st
  = Ok st' ->
  distinct_candidates st'.
Proof.
  intros [Hnd Hin] Hnew. unfold score_and_collect, bind.
  destruct (request_claimprocs _) as [resp|e]; [|discriminate].
  destruct (_score_api_claim_candidate _ _ _ _) as [[s ab] ot].
  destruct (0 <? s); intros [= <-]; [|split; assumption].
  unfold distinct_candidates. cbn [fst snd]. split.
  - rewrite List.map_app. cbn [List.map].
    apply List.NoDup_app; [exact Hnd | repeat constructor; intros [] |].
    intros z Hz [Heq | []]. unfold cand_claim_num in Heq. cbn in Heq. subst z.
    apply List.in_map_iff in Hz as (c & Hc & Hcin). apply Hnew.
    rewrite <- Hc. apply Hin, Hcin.
  - intros c Hc. apply List.in_app_or in Hc as [Hc | [<- | []]].
    + apply elem_of_union_r, Hin, Hc.
    + apply elem_of_union_l, elem_of_singleton. reflexivity.
Qed.

Lemma collect_candidates_distinct (criteria : SearchCriteria) (target_date : date)
    (cands : list Candidate) :
  collect_candidates criteria target_date = Ok cands ->
  List.NoDup (List.map cand_claim_num cands).
Proof.
  unfold collect_candidates, bind.
  destruct (stage1 criteria target_date ([], ∅)) as [st1|e] eqn:H1; [|discriminate].
  destruct (stage2 criteria target_date st1) as [st2|e] eqn:H2; [|discriminate].
  intros [= <-].
  assert (Hinit : distinct_candidates ([], ∅)).
  { split; [constructor | intros c []]. }
  assert (Hst1 : distinct_candidates st1).
  { revert H1. unfold stage1.
    match goal with
    | |- context [if ?c then entity_patient ?a ?b else None] =>
        destruct (if c then entity_patient a b else None) as [[patient claims]|]
    end; [|intros [= <-]; exact Hinit].
    destruct (is_nil claims); [intros [= <-]; exact Hinit|].
    apply (for_each_invariant distinct_candidates); [exact Hinit|].
    intros st0 x st1' _ Hst0. unfold stage1_body.
    destruct (negb (Z_truthy _)); cbn [orb]; [intros [= <-]; exact Hst0|].
    destruct (bool_decide _) eqn:Hseen; [intros [= <-]; exact Hst0|].
    apply bool_decide_eq_false_1 in Hseen.
    destruct (negb _); [intros [= <-]; exact Hst0|].
    apply score_and_collect_distinct; assumption. }
  enough (Hst2 : distinct_candidates st2) by exact (proj1 Hst2).
  revert H2. unfold stage2, bind.
  match goal with
  | |- context [if ?c then entity_subscriber ?a ?b else None] =>
      destruct (if c then entity_subscriber a b else None) as [[subscriber [inssub|]]|]
  end; try (intros [= <-]; exact Hst1).
  destruct (request_claims_by_inssub _) as [[l|b]|e]; try discriminate;
    [|intros [= <-]; exact Hst1].
  apply (for_each_invariant distinct_candidates); [exact Hst1|].
  intros st0 x st1' _ Hst0. unfold stage2_body, bind.
  destruct (negb (Z_truthy (ac_ClaimNum x))); cbn [orb]; [intros [= <-]; exact Hst0|].
  destruct (bool_decide _) eqn:Hseen; [intros [= <-]; exact Hst0|].
  apply bool_decide_eq_false_1 in Hseen.
  destruct (negb (prefilter_passes _ _)); [intros [= <-]; exact Hst0|].
  destruct (negb (Z_truthy _)); [intros [= <-]; exact Hst0|].
  destruct (request_patient _) as [[owner|]|e]; try discriminate;
    [|intros [= <-]; exact Hst0].
  destruct (negb (Z_truthy _)); [intros [= <-]; exact Hst0|].
  apply score_and_collect_distinct; assumption.
Qed.

(** What a match takes from the claim of its candidate. *)
Lemma match_of_candidate_claim (c : Candidate) (m : ClaimMatch) :
  match_of_candidate c = Ok m ->
  claim_num m = cand_claim_num c
  /\ ac_DateService (api_claim_raw c) = Some (cm_date_of_service m)
  /\ claim_status m
     = match ac_claim_status (api_claim_raw c) with
       | Some status => Some status
       | None => ac_ClaimStatus (api_claim_raw c)
       end
  /\ is_secondary m = str_is (ac_ClaimType (api_claim_raw c)) "S"
  /\ match_source m
     = Some (api_match_source (cand_used_alternate_benefit c) (cand_override_type c))
  /\ claim_procs m = api_match_procs (claim_procs_raw c).
Proof.
  unfold match_of_candidate, bind, subscript, cand_claim_num.
  destruct (ac_ClaimNum _); [|discriminate].
  destruct (ac_DateService _); [|discriminate].
  destruct (ac_ClaimStatus _); [|discriminate].
  destruct (ac_PatNum _); [|discriminate].
  intros [= <-]. cbn. destruct (ac_claim_status _); auto 10.
Qed.

(** X16.  No claim number occurs twice in the list that
    [find_matching_claims] returns, also when the search by the patient
    and the search by the subscriber both lead to the claim. *)
Theorem remote_matches_distinct_claims (criteria : SearchCriteria)
    (res : list ClaimMatch) :
  find_matching_claims criteria = Ok res ->
  List.NoDup (List.map claim_num res).
Proof.
  intros Hrun.
  apply find_matching_claims_unfold in Hrun
    as [-> | (td & cands & ms & _ & Hc & Hall & ->)]; [constructor|].
  rewrite prioritize_claim_nums.
  eapply Permutation_NoDup;
    [apply Permutation_map; symmetry; apply partition_permutation|].
  assert (Hnums : List.map claim_num ms
                  = List.map cand_claim_num
                      (sort_desc cand_score
                         (List.filter (fun cand => MIN_ACCEPTABLE_SCORE <=? cand_score cand)
                            cands))).
  { induction Hall as [|c m l l' Hm _ IH]; [reflexivity|].
    cbn [List.map]. rewrite IH.
    rewrite (proj1 (match_of_candidate_claim c m Hm)). reflexivity. }
  rewrite Hnums.
  eapply Permutation_NoDup;
    [apply Permutation_map; symmetry; apply sort_desc_permutation|].
  apply NoDup_map_filter, (collect_candidates_distinct criteria td), Hc.
Qed.

End Candidates.

(** X16 on a practice in which the search by the subscriber leads to the
    claims that the search by the patient has found. *)
Lemma remote_matches_distinct_claims_witness :
  exists res : list ClaimMatch,
    @find_matching_claims prefix_lib
      {| entity_patient := @entity_patient demo_remote;
         entity_subscriber := fun _ _ =>
           Some (john_smith, Some {| is_InsSubNum := Some 5 |});
         request_claimprocs := @request_claimprocs demo_remote;
         request_claims_by_inssub := fun _ =>
           Ok (RespList [api_claim_of 101 "2024-03-05" "S" "P";
                         api_claim_of 104 "2024-03-05" "S" "P"]);
         request_patient := @request_patient demo_remote;
         request_patplans := @request_patplans demo_remote |}
      demo_criteria = Ok res
    /\ List.length res = 3%nat
    /\ List.NoDup (List.map claim_num res).
Proof.
  match goal with
  | |- exists res, @find_matching_claims ?L ?R ?c = Ok res /\ _ =>
      assert (Hrun : exists res, @find_matching_claims L R c = Ok res
                                 /\ List.length res = 3%nat)
        by (vm_compute; eexists; split; reflexivity);
      destruct Hrun as (res & Hrun & Hlen);
      exists res; split; [exact Hrun|]; split; [exact Hlen|];
      exact (@remote_matches_distinct_claims L R c res Hrun)
  end.
Defined.

(** ** What a match of the remote path says of its claim *)

Section RemoteSoundness.
Context `{PyLib} `{Remote}.

(** Every match that [find_matching_claims] returns is the match of a
    candidate that the scorer accepted, with or without the flag of the
    partition. *)
Lemma find_matching_claims_candidate (criteria : SearchCriteria) (res : list ClaimMatch)
    (m : ClaimMatch) :
  find_matching_claims criteria = Ok res -> In m res ->
  exists (c : Candidate) (m0 : ClaimMatch),
    scored_by_scorer criteria c
    /\ match_of_candidate c = Ok m0
    /\ (m = m0 \/ m = set_has_pending_secondary m0).
Proof.
  intros Hrun Hin.
  apply find_matching_claims_unfold in Hrun as [-> | (td & cands & ms & _ & Hc & Hall & ->)];
    [destruct Hin|].
  apply collect_candidates_scored in Hc. rewrite List.Forall_forall in Hc.
  assert (Hms : forall m0, In m0 ms ->
            exists c, scored_by_scorer criteria c /\ match_of_candidate c = Ok m0).
  { intros m0 Hm0.
    destruct (Forall2_In_right _ _ _ _ Hall Hm0) as (c & Hcin & Hm).
    apply sort_desc_In, List.filter_In in Hcin as [Hcin _].
    exists c. split; [apply Hc, Hcin | exact Hm]. }
  apply prioritize_In in Hin as [Hin | [Hin | (m0 & Hin & ->)]];
    apply List.filter_In in Hin as [Hin _];
    destruct (Hms _ Hin) as (c & Hsc & Hm); eauto 10.
Qed.

(** X17.  Every match that [find_matching_claims] returns is the match of
    a candidate that the scorer accepted, built from a claim record whose
    [ClaimStatus] is Sent or Held; the [claim_status] of the match is the
    value of the record under the key [claim_status] when the record has
    that key, and that [ClaimStatus] when it has not.  The date of
    service of the match parses to the date of the criteria; the match
    is not supplemental and its source is one of the three tags of the
    remote path. *)
Theorem remote_matches_from_open_claims (criteria : SearchCriteria)
    (res : list ClaimMatch) (m : ClaimMatch) :
  find_matching_claims criteria = Ok res -> In m res ->
  (exists c : Candidate,
      scored_by_scorer criteria c
      /\ ac_ClaimNum (api_claim_raw c) = Some (claim_num m)
      /\ ac_DateService (api_claim_raw c) = Some (cm_date_of_service m)
      /\ (ac_ClaimStatus (api_claim_raw c) = Some "S"
          \/ ac_ClaimStatus (api_claim_raw c) = Some "H")
      /\ match ac_claim_status (api_claim_raw c) with
         | Some status => claim_status m = Some status
         | None => claim_status m = Some "S" \/ claim_status m = Some "H"
         end)
  /\ (exists d : date,
         strptime_date (cm_date_of_service m) = Some d
         /\ strptime_date (date_of_service criteria) = Some d)
  /\ is_supplemental m = false
  /\ (match_source m = Some "api_strict_scored"
      \/ match_source m = Some "api_alternate_benefit"
      \/ match_source m = Some "api_count_match").
Proof.
  intros Hrun Hin.
  destruct (find_matching_claims_candidate _ _ _ Hrun Hin)
    as (c & m0 & Hsc & Hm & Hmm).
  pose proof Hsc as [Hs Hpos].
  assert (Hnz : cand_score c <> 0) by lia.
  destruct (api_score_of_verdict _ _ _ _ _ _ _ Hs Hnz) as (ns & Hv & _).
  assert (Hreach : api_reaches_name_gate (api_claim_raw c) criteria).
  { apply (verdict_reaches_name_gate _ (claim_procs_raw c) _ (source_patient_details c));
      rewrite Hv; discriminate. }
  destruct Hreach as [(d & Hcd & Htd) Hst].
  destruct (match_of_candidate_claim c m0 Hm) as (Hnum & Hds & Hstatus & _ & Hsrc & _).
  destruct (match_of_candidate_fields c m0 Hm) as (_ & _ & Hsup).
  assert (Hsame : claim_status m = claim_status m0
                  /\ cm_date_of_service m = cm_date_of_service m0
                  /\ is_supplemental m = is_supplemental m0
                  /\ match_source m = match_source m0
                  /\ claim_num m = claim_num m0).
  { destruct Hmm as [-> | ->]; cbn; auto. }
  destruct Hsame as (-> & -> & -> & -> & ->).
  rewrite Hds in Hcd. cbn in Hcd.
  split.
  { exists c. split; [exact Hsc|]. split; [|split; [exact Hds|split; [exact Hst|]]].
    - rewrite Hnum. unfold cand_claim_num.
      revert Hm. unfold match_of_candidate, bind, subscript.
      destruct (ac_ClaimNum _); [reflexivity | discriminate].
    - rewrite Hstatus. destruct (ac_claim_status _); [reflexivity | exact Hst]. }
  split; [eauto|]. split; [exact Hsup|].
  rewrite Hsrc. unfold api_match_source.
  destruct (cand_used_alternate_benefit c); [|auto].
  destruct (String.eqb _ "count_match"); [auto|].
  destruct (String.eqb _ "fee_match"); auto.
Qed.

End RemoteSoundness.

(** X17 on the practice whose claim carries both keys of the status:
    the claim is Sent, and the match has the status Received that the
    record holds under [claim_status]. *)
Lemma remote_matches_from_open_claims_witness :
  exists (res : list ClaimMatch) (m : ClaimMatch),
    @find_matching_claims prefix_lib two_status_remote demo_criteria = Ok res
    /\ In m res
    /\ claim_status m = Some "R"
    /\ (exists c : Candidate,
           @scored_by_scorer prefix_lib demo_criteria c
           /\ ac_ClaimNum (api_claim_raw c) = Some (claim_num m)
           /\ ac_DateService (api_claim_raw c) = Some (cm_date_of_service m)
           /\ (ac_ClaimStatus (api_claim_raw c) = Some "S"
               \/ ac_ClaimStatus (api_claim_raw c) = Some "H")
           /\ match ac_claim_status (api_claim_raw c) with
              | Some status => claim_status m = Some status
              | None => claim_status m = Some "S" \/ claim_status m = Some "H"
              end)
    /\ (exists d : date,
           @strptime_date prefix_lib (cm_date_of_service m) = Some d
           /\ @strptime_date prefix_lib (date_of_service demo_criteria) = Some d)
    /\ is_supplemental m = false
    /\ (match_source m = Some "api_strict_scored"
        \/ match_source m = Some "api_alternate_benefit"
        \/ match_source m = Some "api_count_match").
Proof.
  assert (Hrun : exists res m rest,
             @find_matching_claims prefix_lib two_status_remote demo_criteria = Ok res
             /\ res = m :: rest /\ claim_status m = Some "R")
    by (vm_compute; do 3 eexists; repeat split; reflexivity).
  destruct Hrun as (res & m & rest & Hrun & Hres & Hstatus).
  assert (Hin : In m res) by (rewrite Hres; left; reflexivity).
  exists res, m. split; [exact Hrun|]. split; [exact Hin|]. split; [exact Hstatus|].
  exact (@remote_matches_from_open_claims prefix_lib two_status_remote demo_criteria res m
           Hrun Hin).
Defined.

(** ** The procedure gate of the scorer *)

Section ProcedureGate.
Context `{PyLib}.

(** X18.  A candidate that passed the name gate is turned away at the
    procedure gate exactly when the claim and the remittance differ in
    their number of lines and either one of them has no line, or the
    procedure match is at most 49 percent and the conditions of the
    fee-array override do not hold.  A claim with as many lines as the
    remittance is never turned away there, whatever its codes. *)
Theorem procedure_gate_rejects_iff (api_claim_data : ApiClaim) (procs : list ProcDict)
    (criteria : SearchCriteria) (owner : PatientDict) (d : date) (name_score : Z) :
  strptime_date (default "" (ac_DateService api_claim_data)) = Some d ->
  strptime_date (date_of_service criteria) = Some d ->
  (ac_ClaimStatus api_claim_data = Some "S" \/ ac_ClaimStatus api_claim_data = Some "H") ->
  name_gate (p_FName owner) (p_LName owner)
    (patient_first_name criteria) (patient_last_name criteria) = Some name_score ->
  (_score_api_claim_candidate api_claim_data procs criteria owner = (0, false, "")
   <-> List.length procs <> List.length (procedures (payment_info criteria))
       /\ (procs = [] \/ procedures (payment_info criteria) = []
           \/ ((api_procedure_percentage criteria procs <= 49 # 100)%Q
               /\ ~ fee_array_conditions name_score procs
                      (procedures (payment_info criteria)))))
  /\ (List.length procs = List.length (procedures (payment_info criteria)) ->
      exists (ab : bool) (ot : string),
        _score_api_claim_candidate api_claim_data procs criteria owner
        = (30 + 10 + name_score + 30, ab, ot)).
Proof.
  intros Hc Ht Hs Hn.
  pose proof (name_gate_bounds _ _ _ _ _ Hn) as Hb.
  unfold _score_api_claim_candidate.
  rewrite (verdict_after_status _ _ _ _ d Hc Ht Hs), Hn. cbn zeta.
  pose proof (count_match_iff d name_score procs (procedures (payment_info criteria)))
    as Hcount.
  pose proof (fee_override_decides d name_score procs (procedures (payment_info criteria)))
    as Hfee.
  destruct (procedures (payment_info criteria)) as [|e el] eqn:He;
    destruct procs as [|p pl] eqn:Hp; cbn [is_nil negb andb].
  - split; [|intros _; do 2 eexists; reflexivity]. split; [intros [= ?]; lia | intros [Hlen _]; exfalso; apply Hlen; reflexivity].
  - split; [|intros [=]]. split; [intros _; split; [discriminate | auto] | reflexivity].
  - split; [|intros [=]]. split; [intros _; split; [discriminate | auto] | reflexivity].
  - destruct (Qltb (49 # 100) _) eqn:Hpct.
    { split; [|intros _; do 2 eexists; reflexivity]. split; [intros [= ?]; lia|].
      intros (_ & [[=] | [[=] | [Hle _]]]).
      apply Qltb_true in Hpct. exfalso. exact (Qlt_not_le _ _ Hpct Hle). }
    apply Qltb_false in Hpct.
    destruct (_has_strong_non_procedure_match_with_fees d d name_score _ _) eqn:Ef.
    { split; [|intros _; do 2 eexists; reflexivity]. split; [intros [= ?]; lia|].
      intros (_ & [[=] | [[=] | [_ Hnf]]]). exfalso. apply Hnf, Hfee. reflexivity. }
    destruct (_has_procedure_count_match d d name_score _ _) eqn:Ec.
    { split; [|intros _; do 2 eexists; reflexivity]. split; [intros [= ?]; lia|].
      intros (Hlen & _). exfalso. apply Hlen. apply Hcount. reflexivity. }
    split.
    + split; [intros _ | reflexivity].
      split.
      * intros Hlen. assert (Hx : false = true) by (apply Hcount; split; [lia | exact Hlen]).
        discriminate.
      * right. right. split; [exact Hpct|]. intros Hf. apply Hfee in Hf. discriminate.
    + intros Hlen. assert (Hx : false = true) by (apply Hcount; split; [lia | exact Hlen]).
      discriminate.
Qed.

End ProcedureGate.

(** X18 on claim 101 with the two lines D0140 and D0150 against the
    remittance of the one line D0120: no code in common, no fee to pair,
    another number of lines. *)
Lemma procedure_gate_rejects_iff_witness :
  @_score_api_claim_candidate prefix_lib (api_claim_of 101 "2024-03-05" "S" "P")
    [api_proc "D0140" (F64.of_Z 60) 1; api_proc "D0150" (F64.of_Z 70) 2] demo_criteria john_smith
  = (0, false, "").
Proof.
  apply (proj1 (@procedure_gate_rejects_iff prefix_lib
                  (api_claim_of 101 "2024-03-05" "S" "P")
                  [api_proc "D0140" (F64.of_Z 60) 1; api_proc "D0150" (F64.of_Z 70) 2]
                  demo_criteria john_smith march_5 30
                  ltac:(vm_compute; reflexivity) ltac:(vm_compute; reflexivity)
                  ltac:(left; reflexivity) ltac:(vm_compute; reflexivity))).
  split; [vm_compute; discriminate|].
  right. right. split; [vm_compute; discriminate|].
  intros (_ & _ & _ & Hlen & _). vm_compute in Hlen. discriminate.
Defined.

(** ** What a match of the cache path says of its claim *)

Section CacheSoundness.
Context `{PyLib}.

Lemma subscriber_bonus_values (criteria : SearchCriteria) (claim : CachedClaim) :
  subscriber_bonus_points criteria claim = 0
  \/ subscriber_bonus_points criteria claim = 8
  \/ subscriber_bonus_points criteria claim = 15.
Proof.
  unfold subscriber_bonus_points.
  destruct (subscriber_name_score criteria claim) as [s|]; [|auto].
  destruct (s =? 30); [auto|]. destruct (15 <=? s); auto.
Qed.

(** The fields of the match of a cached claim. *)
Lemma evaluate_cached_claim_matched (criteria : SearchCriteria) (target_date_obj : date)
    (fn ln : string) (claim : CachedClaim) (m : ClaimMatch) :
  evaluate_cached_claim criteria target_date_obj fn ln claim = Ok (Matched m) ->
  exists name_score : Z,
    cache_reaches_name_gate target_date_obj claim
    /\ name_gate (cached_patient_fn claim) (cached_patient_ln claim) fn ln = Some name_score
    /\ match_score m
       = Some (30 + 10 + name_score + 30 + subscriber_bonus_points criteria claim)
    /\ cm_date_of_service m = default "" (cached_date_str claim)
    /\ or_Z (cc_claim_num claim) (cc_ClaimNum claim) = Some (claim_num m)
    /\ or_Z (cc_pat_num claim) (cc_PatNum claim) = Some (pat_num m)
    /\ (match_source m = Some "database_strict"
        \/ match_source m = Some "database_alternate_benefit"
        \/ match_source m = Some "database_count_match")
    /\ claim_procs m = cache_match_procs claim.
Proof.
  unfold evaluate_cached_claim, cache_reaches_name_gate.
  fold (cached_date_str claim) (cached_patient_fn claim) (cached_patient_ln claim).
  destruct (str_truthy (cached_date_str claim)) eqn:Hds; cbn [negb]; [|discriminate].
  destruct (strptime_date _) as [cd|] eqn:Hcd; [|discriminate].
  destruct (bool_decide (cd = target_date_obj)) eqn:Hd; cbn [negb]; [|discriminate].
  apply bool_decide_eq_true_1 in Hd. subst cd.
  destruct (cache_status_passes claim) eqn:Hst; cbn [negb]; [|discriminate].
  destruct (str_truthy (cached_patient_fn claim)) eqn:Hfn; cbn [negb orb]; [|discriminate].
  destruct (str_truthy (cached_patient_ln claim)) eqn:Hln; cbn [negb]; [|discriminate].
  destruct (name_gate _ _ fn ln) as [ns|]; [|discriminate].
  cbn zeta. intros Hrun. exists ns.
  assert (Hsrc : forall ab pct cd td,
             cache_match_source ab pct cd td ns claim criteria = "database_strict"
             \/ cache_match_source ab pct cd td ns claim criteria
                = "database_alternate_benefit"
             \/ cache_match_source ab pct cd td ns claim criteria
                = "database_count_match").
  { intros ab pct cd td. unfold cache_match_source.
    repeat match goal with
           | |- context [if ?b then _ else _] => destruct b
           end; auto. }
  match type of Hrun with
  | match ?o with Some _ => _ | None => _ end = _ =>
      destruct o as [ab|]; [|discriminate]
  end.
  unfold bind in Hrun.
  destruct (or_Z (cc_claim_num claim) _) as [cn|]; [|discriminate].
  destruct (or_Z (cc_pat_num claim) _) as [pn|]; [|discriminate].
  cbn [int_of] in Hrun. injection Hrun as <-.
  cbn [match_score cm_date_of_service claim_num pat_num match_source claim_procs].
  repeat split; auto.
  destruct (Hsrc ab (cache_procedure_percentage criteria claim) target_date_obj
              target_date_obj) as [-> | [-> | ->]]; auto.
Qed.

(** The score of a match of the cache path. *)
Lemma cache_match_score_range (criteria : SearchCriteria) (db_claims : list CachedClaim)
    (res : list ClaimMatch) (m : ClaimMatch) :
  filter_cached_claims criteria db_claims = Ok res -> In m res ->
  exists s : Z, match_score m = Some s /\ 90 <= s <= 115.
Proof.
  intros Hrun Hin.
  destruct (filter_cached_claims_origin _ _ _ _ Hrun Hin)
    as (td & fn & ln & claim & m0 & _ & _ & _ & He & Hmm).
  apply evaluate_cached_claim_matched in He as (ns & _ & Hg & Hscore & _).
  apply name_gate_bounds in Hg.
  assert (Hsame : match_score m = match_score m0)
    by (destruct Hmm as [-> | ->]; reflexivity).
  rewrite Hsame. eexists. split; [exact Hscore|].
  destruct (subscriber_bonus_values criteria claim) as [-> | [-> | ->]]; lia.
Qed.

(** X19.  Every match that [filter_cached_claims] returns carries a
    score between 90 and 115, a date of service that parses to the date
    of the criteria and one of the three source tags of the cache path,
    and it bears the number of a cached claim that passes the status
    gate: Sent, Held, or Received and not flagged as secondary. *)
Theorem cache_matches_sound (criteria : SearchCriteria) (db_claims : list CachedClaim)
    (res : list ClaimMatch) (m : ClaimMatch) :
  filter_cached_claims criteria db_claims = Ok res -> In m res ->
  (exists s : Z, match_score m = Some s /\ 90 <= s <= 115)
  /\ (exists d : date,
         strptime_date (cm_date_of_service m) = Some d
         /\ strptime_date (date_of_service criteria) = Some d)
  /\ (match_source m = Some "database_strict"
      \/ match_source m = Some "database_alternate_benefit"
      \/ match_source m = Some "database_count_match")
  /\ (exists claim : CachedClaim,
         In claim db_claims
         /\ or_Z (cc_claim_num claim) (cc_ClaimNum claim) = Some (claim_num m)
         /\ cache_status_passes claim = true).
Proof.
  intros Hrun Hin. split; [exact (cache_match_score_range _ _ _ _ Hrun Hin)|].
  destruct (filter_cached_claims_origin _ _ _ _ Hrun Hin)
    as (td & fn & ln & claim & m0 & Ht & _ & Hclaim & He & Hmm).
  apply evaluate_cached_claim_matched in He
    as (ns & (_ & Hcd & Hst & _) & _ & _ & Hdate & Hnum & _ & Hsrc & _).
  assert (Hsame : cm_date_of_service m = cm_date_of_service m0
                  /\ match_source m = match_source m0
                  /\ claim_num m = claim_num m0).
  { destruct Hmm as [-> | ->]; cbn; auto. }
  destruct Hsame as (-> & -> & ->).
  split; [|split; [exact Hsrc | eauto]]. exists td. rewrite Hdate. auto.
Qed.

(** A loop raises what one of its turns raises. *)
Lemma for_each_raise {A S : Type} (body : S -> A -> result S) (l : list A) (st : S)
    (e : exn) :
  for_each body l st = Raise e -> exists st0 x, In x l /\ body st0 x = Raise e.
Proof.
  revert st. induction l as [|x l IH]; intros st; cbn [for_each]; [discriminate|].
  unfold bind. destruct (body st x) as [st'|e'] eqn:Hb.
  - intros Hrun. destruct (IH _ Hrun) as (st0 & y & Hy & Hr).
    exists st0, y. split; [right; exact Hy | exact Hr].
  - intros [= <-]. exists st, x. split; [left; reflexivity | exact Hb].
Qed.

(** X20.  The one exception that leaves [filter_cached_claims] is the
    [TypeError] of [int(None)]: a cached claim that has passed the gates
    carries no claim number or no patient number. *)
Theorem cache_search_raises_on_missing_number (criteria : SearchCriteria)
    (db_claims : list CachedClaim) (e : exn) :
  filter_cached_claims criteria db_claims = Raise e ->
  e = TypeError
  /\ exists claim : CachedClaim,
       In claim db_claims
       /\ (or_Z (cc_claim_num claim) (cc_ClaimNum claim) = None
           \/ or_Z (cc_pat_num claim) (cc_PatNum claim) = None).
Proof.
  unfold filter_cached_claims, bind.
  destruct (is_nil db_claims); [discriminate|].
  destruct (strptime_date _) as [td|]; [|discriminate].
  destruct (criteria_name_to_use criteria) as [[fn ln]|]; [|discriminate].
  destruct (cache_potential_matches _ _ _ _ _) as [pm|e'] eqn:Hpm; [discriminate|].
  intros [= <-]. apply for_each_raise in Hpm as (st0 & claim & Hin & Hbody).
  enough (Hc : e' = TypeError
               /\ (or_Z (cc_claim_num claim) (cc_ClaimNum claim) = None
                   \/ or_Z (cc_pat_num claim) (cc_PatNum claim) = None))
    by (destruct Hc; eauto).
  revert Hbody. unfold cache_step, bind.
  destruct (evaluate_cached_claim _ _ _ _ claim) as [[g|m]|e0] eqn:He; try discriminate.
  intros [= <-]. revert He. unfold evaluate_cached_claim, bind.
  repeat match goal with
         | |- (if ?b then _ else _) = _ -> _ => destruct b; try discriminate
         | |- match ?o with Some _ => _ | None => _ end = _ -> _ =>
             destruct o; try discriminate
         end.
  all: cbn zeta.
  all: repeat match goal with
         | |- match (match ?o with Some _ => _ | None => _ end) with _ => _ end = _ -> _ =>
             destruct o; try discriminate
         | |- match (if ?b then _ else _) with _ => _ end = _ -> _ =>
             destruct b; try discriminate
         end.
  all: destruct (or_Z (cc_claim_num claim) _) as [cn|]; cbn [int_of];
    [|intros [= <-]; auto].
  all: destruct (or_Z (cc_pat_num claim) _) as [pn|]; cbn [int_of];
    [discriminate | intros [= <-]; auto].
Qed.

End CacheSoundness.

(** X19 on the first match of a cache of two claims. *)
Lemma cache_matches_sound_witness :
  exists (res : list ClaimMatch) (m : ClaimMatch),
    @filter_cached_claims prefix_lib demo_criteria
      [cached_claim_of 1 "S" false; cached_claim_of 2 "S" true] = Ok res
    /\ In m res
    /\ (exists s : Z, match_score m = Some s /\ 90 <= s <= 115)
    /\ (exists d : date,
           @strptime_date prefix_lib (cm_date_of_service m) = Some d
           /\ @strptime_date prefix_lib (date_of_service demo_criteria) = Some d)
    /\ (match_source m = Some "database_strict"
        \/ match_source m = Some "database_alternate_benefit"
        \/ match_source m = Some "database_count_match")
    /\ (exists claim : CachedClaim,
           In claim [cached_claim_of 1 "S" false; cached_claim_of 2 "S" true]
           /\ or_Z (cc_claim_num claim) (cc_ClaimNum claim) = Some (claim_num m)
           /\ cache_status_passes claim = true).
Proof.
  assert (Hrun : exists res m rest,
             @filter_cached_claims prefix_lib demo_criteria
               [cached_claim_of 1 "S" false; cached_claim_of 2 "S" true] = Ok res
             /\ res = m :: rest)
    by (vm_compute; do 3 eexists; split; reflexivity).
  destruct Hrun as (res & m & rest & Hrun & Hres).
  assert (Hin : In m res) by (rewrite Hres; left; reflexivity).
  exists res, m. split; [exact Hrun|]. split; [exact Hin|].
  exact (@cache_matches_sound prefix_lib demo_criteria _ res m Hrun Hin).
Defined.

(** X20 on a cache whose second claim has no claim number. *)
Lemma cache_search_raises_on_missing_number_witness :
  @filter_cached_claims prefix_lib demo_criteria
    [cached_claim_of 1 "S" false; unnumbered_cached_claim] = Raise TypeError
  /\ exists claim : CachedClaim,
       In claim [cached_claim_of 1 "S" false; unnumbered_cached_claim]
       /\ (or_Z (cc_claim_num claim) (cc_ClaimNum claim) = None
           \/ or_Z (cc_pat_num claim) (cc_PatNum claim) = None).
Proof.
  assert (Hrun : @filter_cached_claims prefix_lib demo_criteria
                   [cached_claim_of 1 "S" false; unnumbered_cached_claim]
                 = Raise TypeError) by (vm_compute; reflexivity).
  split; [exact Hrun|].
  exact (proj2 (@cache_search_raises_on_missing_number prefix_lib demo_criteria _ _ Hrun)).
Defined.

(** ** The lines of a supplemental match *)

Section SupplementalLines.
Context `{PyLib} `{Remote}.

Lemma supplemental_match_procs_overlap (criteria : SearchCriteria)
    (api_claim_procs_full : list ProcDict) :
  Forall (overlapping_line (eob_proc_codes_normalized criteria))
    (supplemental_match_procs criteria api_claim_procs_full).
Proof.
  unfold supplemental_match_procs. apply List.Forall_map, List.Forall_forall.
  intros proc Hin. apply List.filter_In in Hin as [_ Hov].
  apply supplemental_line_overlaps_code in Hov as (code & Hcode & Hel).
  exists code. auto.
Qed.

(** The fields of a supplemental match. *)
Lemma fallback_match_fields (criteria : SearchCriteria) (skip_api_fallback : bool)
    (m : ClaimMatch) :
  In m (find_matching_claims_api_fallback criteria skip_api_fallback) ->
  match_score m = None
  /\ is_supplemental m = true
  /\ match_source m = Some "api_supplemental"
  /\ claim_procs m <> []
  /\ Forall (overlapping_line (eob_proc_codes_normalized criteria)) (claim_procs m)
  /\ has_pending_secondary m = false.
Proof.
  unfold find_matching_claims_api_fallback.
  destruct skip_api_fallback; [intros []|].
  destruct (if Py.truthy (patient_first_name criteria) then _ else _) as [fn|];
    [|intros []].
  destruct (_ || _); [intros []|].
  destruct (entity_patient _ fn) as [[patient claims]|]; [|intros []].
  destruct (is_nil _); [intros []|].
  destruct (strptime_date (date_of_service criteria)) as [td|]; [|intros []].
  destruct (for_each _ _ _) as [ms|e] eqn:Hrun; [|intros []].
  intros Hin.
  set (good := fun m : ClaimMatch =>
         match_score m = None
         /\ is_supplemental m = true
         /\ match_source m = Some "api_supplemental"
         /\ claim_procs m <> []
         /\ Forall (overlapping_line (eob_proc_codes_normalized criteria)) (claim_procs m)
         /\ has_pending_secondary m = false).
  assert (Hall : Forall good ms).
  { revert Hrun. apply (for_each_invariant (Forall good)); [constructor|].
    intros st0 api_claim st1 _ Hst0. unfold supplemental_body, bind, subscript.
    destruct (strptime_date (default "" _)) as [cd|]; [|intros [= <-]; exact Hst0].
    destruct (negb _); [intros [= <-]; exact Hst0|].
    destruct (ac_ClaimNum api_claim) as [cn|]; [|discriminate].
    destruct (request_claimprocs cn) as [[[|p l]|[|]]|e]; try discriminate;
      try (intros [= <-]; exact Hst0).
    destruct (is_nil (supplemental_match_procs criteria (p :: l))) eqn:Hm;
      [intros [= <-]; exact Hst0|].
    destruct (ac_DateService api_claim) as [ds|]; [|discriminate].
    intros [= <-]. apply List.Forall_app. split; [exact Hst0|].
    constructor; [|constructor]. unfold good.
    cbn [claim_procs has_pending_secondary match_score is_supplemental match_source].
    do 3 (split; [reflexivity|]).
    split; [apply is_nil_false, Hm|].
    split; [apply supplemental_match_procs_overlap | reflexivity]. }
  rewrite List.Forall_forall in Hall. apply Hall, Hin.
Qed.

(** X21.  A supplemental match lists at least one procedure line, and
    each line that it lists carries the code as the claim sent it, whose
    normalized form is one of the normalized codes of the criteria: the
    lines of the claim outside the remittance are left out. *)
Theorem supplemental_lines_overlap (criteria : SearchCriteria) (skip_api_fallback : bool)
    (m : ClaimMatch) :
  In m (find_matching_claims_api_fallback criteria skip_api_fallback) ->
  claim_procs m <> []
  /\ Forall (overlapping_line (eob_proc_codes_normalized criteria)) (claim_procs m).
Proof.
  intros Hin. apply fallback_match_fields in Hin as (_ & _ & _ & Hne & Hall & _).
  split; assumption.
Qed.

(** ** Names that the fallback needs *)

Lemma rstrip_empty_head (c : ascii) (r : string) :
  Py.rstrip (String c r) = "" -> Py.is_space c = true /\ Py.rstrip r = "".
Proof.
  cbn [Py.rstrip]. destruct (Py.rstrip r); [|discriminate].
  destruct (Py.is_space c); [auto | discriminate].
Qed.

Lemma rstrip_empty_spaces (s : string) :
  Py.rstrip s = "" -> Py.all_chars Py.is_space s = true.
Proof.
  induction s as [|c r IH]; [reflexivity|].
  intros Hs. apply rstrip_empty_head in Hs as [Hc Hr].
  cbn [Py.all_chars]. rewrite Hc, (IH Hr). reflexivity.
Qed.

(** A string that [strip] empties holds white space only. *)
Lemma strip_empty_spaces (s : string) :
  Py.strip s = "" -> Py.all_chars Py.is_space s = true.
Proof.
  unfold Py.strip. induction s as [|c r IH]; [reflexivity|].
  cbn [Py.lstrip Py.all_chars]. destruct (Py.is_space c) eqn:Hc; [exact IH|].
  intros Hs. apply rstrip_empty_head in Hs as [Hc' _]. congruence.
Qed.

(** White space holds no token. *)
Lemma split_tokens_spaces (s : string) :
  Py.all_chars Py.is_space s = true -> split_tokens Py.is_space s = [].
Proof.
  intros Hs. unfold split_tokens.
  enough (Hgo : split_go Py.is_space s = (EmptyString, [])) by (rewrite Hgo; reflexivity).
  induction s as [|c r IH]; [reflexivity|].
  cbn [Py.all_chars] in Hs. apply andb_prop in Hs as [Hc Hr].
  cbn [split_go]. rewrite (IH Hr), Hc. reflexivity.
Qed.

(** X22.  The supplemental fallback returns nothing, for every practice,
    when the first name of the patient is blank or the last name is
    empty. *)
Theorem fallback_requires_names (criteria : SearchCriteria) (skip_api_fallback : bool) :
  Py.strip (patient_first_name criteria) = "" \/ patient_last_name criteria = "" ->
  find_matching_claims_api_fallback criteria skip_api_fallback = [].
Proof.
  intros Hblank. unfold find_matching_claims_api_fallback.
  destruct skip_api_fallback; [reflexivity|].
  destruct Hblank as [Hfn | Hln].
  - destruct (Py.truthy (patient_first_name criteria)); [|reflexivity].
    unfold first_token.
    rewrite (split_tokens_spaces _ (strip_empty_spaces _ Hfn)). reflexivity.
  - rewrite Hln.
    destruct (if Py.truthy (patient_first_name criteria) then _ else _) as [fn|];
      [|reflexivity].
    cbn [Py.truthy negb]. rewrite orb_true_r. reflexivity.
Qed.

End SupplementalLines.

(** X21 on the first supplemental match of the practice of the
    examples. *)
Lemma supplemental_lines_overlap_witness :
  exists (m : ClaimMatch) (rest : list ClaimMatch),
    @find_matching_claims_api_fallback prefix_lib demo_remote demo_criteria false
    = m :: rest
    /\ claim_procs m <> []
    /\ Forall (overlapping_line (eob_proc_codes_normalized demo_criteria)) (claim_procs m).
Proof.
  assert (Hrun : exists m rest,
             @find_matching_claims_api_fallback prefix_lib demo_remote demo_criteria false
             = m :: rest)
    by (vm_compute; do 2 eexists; reflexivity).
  destruct Hrun as (m & rest & Hrun).
  exists m, rest. split; [exact Hrun|].
  apply (@supplemental_lines_overlap prefix_lib demo_remote demo_criteria false m).
  rewrite Hrun. left. reflexivity.
Defined.

(** X22 on a remittance whose patient has two spaces for a first name. *)
Lemma fallback_requires_names_witness :
  @find_matching_claims_api_fallback prefix_lib demo_remote
    (criteria_of "2024-03-05" "  " "Smith" "" "" [eob_line "D0120" (F64.of_Z 50) (F64.of_Z 40)])
    false = [].
Proof.
  apply (@fallback_requires_names prefix_lib demo_remote). left. reflexivity.
Defined.

(** ** The caller *)

Section CallerProperties.
Context `{PyLib} `{Remote}.

(** X23.  The list that [OpenDentalAPI.find_matching_claims] returns is
    of one kind: matches of the cache, each with a score between 90 and
    115, or supplemental matches, none of which carries a score. *)
Theorem caller_matches_of_one_kind (criteria : SearchCriteria)
    (claims_data : option ClaimsData) (skip_api_fallback : bool) :
  Forall (fun m => exists s : Z, match_score m = Some s /\ 90 <= s <= 115)
    (OpenDentalAPI.find_matching_claims criteria claims_data skip_api_fallback)
  \/ Forall (fun m => match_score m = None
                      /\ is_supplemental m = true
                      /\ match_source m = Some "api_supplemental")
       (OpenDentalAPI.find_matching_claims criteria claims_data skip_api_fallback).
Proof.
  unfold OpenDentalAPI.find_matching_claims. cbn zeta.
  assert (Hfb : Forall (fun m => match_score m = None
                                 /\ is_supplemental m = true
                                 /\ match_source m = Some "api_supplemental")
                  (find_matching_claims_api_fallback criteria skip_api_fallback)).
  { apply List.Forall_forall. intros m Hin.
    apply fallback_match_fields in Hin as (? & ? & ? & _). auto. }
  destruct (claims_data_truthy claims_data).
  - destruct (filter_cached_claims criteria _) as [db_matches|e] eqn:Hdb.
    + destruct (is_nil db_matches); cbn [negb].
      * destruct skip_api_fallback; [left; constructor | right; exact Hfb].
      * left. apply List.Forall_forall. intros m Hin.
        exact (cache_match_score_range _ _ _ _ Hdb Hin).
    + destruct skip_api_fallback; [left; constructor | right; exact Hfb].
  - destruct skip_api_fallback; [left; constructor | right; exact Hfb].
Qed.

(** X24.  With criteria whose date of service does not parse,
    [OpenDentalAPI.find_matching_claims] returns nothing, whatever the
    cache and the practice hold. *)
Theorem caller_unparseable_date (criteria : SearchCriteria)
    (claims_data : option ClaimsData) (skip_api_fallback : bool) :
  strptime_date (date_of_service criteria) = None ->
  OpenDentalAPI.find_matching_claims criteria claims_data skip_api_fallback = [].
Proof.
  intros Hdate.
  assert (Hfb : find_matching_claims_api_fallback criteria skip_api_fallback = []).
  { unfold find_matching_claims_api_fallback. rewrite Hdate.
    repeat match goal with
           | |- (if ?b then _ else _) = _ => destruct b; try reflexivity
           | |- match ?o with Some _ => _ | None => _ end = _ =>
               destruct o as [?|]; try reflexivity
           | |- (let '(_, _) := ?p in _) = _ => destruct p
           end. }
  assert (Hdb : filter_cached_claims criteria (claims_of claims_data) = Ok []).
  { unfold filter_cached_claims. rewrite Hdate. destruct (is_nil _); reflexivity. }
  unfold OpenDentalAPI.find_matching_claims. cbn zeta. rewrite Hfb, Hdb.
  destruct (claims_data_truthy claims_data), skip_api_fallback; reflexivity.
Qed.

End CallerProperties.

(** X25.  With [skip_api_fallback] the caller returns what the search in
    the cache returns, and nothing when that search raises, for every
    practice: the practice is not consulted. *)
Theorem caller_skip_is_cache_only (L : PyLib) (R : Remote) (criteria : SearchCriteria)
    (claims_data : option ClaimsData) :
  @OpenDentalAPI.find_matching_claims L R criteria claims_data true
  = match @filter_cached_claims L criteria (claims_of claims_data) with
    | Ok db_matches => db_matches
    | Raise _ => []
    end.
Proof.
  unfold OpenDentalAPI.find_matching_claims. cbn zeta.
  destruct (claims_data_truthy claims_data) eqn:Ht.
  - destruct (filter_cached_claims criteria _) as [[|m l]|e]; reflexivity.
  - assert (Hnil : claims_of claims_data = []).
    { destruct claims_data as [[[l|] other]|]; try reflexivity. discriminate. }
    rewrite Hnil. reflexivity.
Qed.

(** X24 on a remittance dated the American way. *)
Lemma caller_unparseable_date_witness :
  @OpenDentalAPI.find_matching_claims prefix_lib demo_remote
    (criteria_of "03/05/2024" "John" "Smith" "" "" [eob_line "D0120" (F64.of_Z 50) (F64.of_Z 40)])
    (Some {| cd_claims := Some [cached_claim_of 1 "S" false]; cd_other_keys := false |})
    false
  = [].
Proof.
  apply (@caller_unparseable_date prefix_lib demo_remote). vm_compute. reflexivity.
Defined.

(** ** The search of a person by name *)

Lemma Qmult_7_10_bounds (q : Q) :
  (0 <= q)%Q -> (q <= 1)%Q -> (0 <= q * (7 # 10))%Q /\ (q * (7 # 10) <= 7 # 10)%Q.
Proof.
  intros H0 H1. split.
  - apply Qmult_le_0_compat; [exact H0 | discriminate].
  - eapply Qle_trans; [apply Qmult_le_compat_r; [exact H1 | discriminate]|].
    rewrite Qmult_1_l. apply Qle_refl.
Qed.

(** The four cases of the score of a first name. *)
Lemma first_name_score_values (first_name_lower : string) (c : PatientDict) :
  let entity_first_name := Py.lower (default "" (p_FName c)) in
  (entity_first_name = first_name_lower /\ first_name_score first_name_lower c = 1%Q)
  \/ (Py.startswith first_name_lower entity_first_name = true
      /\ first_name_score first_name_lower c = (9 # 10)%Q)
  \/ (Py.startswith entity_first_name first_name_lower = true
      /\ first_name_score first_name_lower c = (8 # 10)%Q)
  \/ (entity_first_name <> first_name_lower
      /\ Py.startswith first_name_lower entity_first_name = false
      /\ Py.startswith entity_first_name first_name_lower = false
      /\ (0 <= first_name_score first_name_lower c)%Q
      /\ (first_name_score first_name_lower c <= 7 # 10)%Q).
Proof.
  cbn zeta. unfold first_name_score.
  set (el := Py.lower (default "" (p_FName c))).
  destruct (String.eqb el first_name_lower) eqn:He;
    [left; split; [apply String.eqb_eq, He | reflexivity]|].
  apply String.eqb_neq in He.
  destruct (Py.startswith first_name_lower el) eqn:H1; [right; left; auto|].
  destruct (Py.startswith el first_name_lower) eqn:H2; [right; right; left; auto|].
  right. right. right. split; [exact He|]. do 2 (split; [reflexivity|]).
  destruct (0 <? Z.max (Py.len el) (Py.len first_name_lower)) eqn:Hm;
    [|split; discriminate].
  apply Z.ltb_lt in Hm.
  pose proof (levenshtein_distance_range el first_name_lower) as [Hlo Hhi].
  assert (Hd : 0 <= levenshtein_distance el first_name_lower
               <= Z.max (Py.len el) (Py.len first_name_lower)) by lia.
  destruct (lev_similarity_bounds _ _ Hd Hm) as [Hs0 Hs1].
  destruct (Qleb _ _); [|split; discriminate].
  apply Qmult_7_10_bounds; assumption.
Qed.

(** A score above the threshold is one of the three fixed scores. *)
Lemma passing_score_values (first_name_lower : string) (c : PatientDict) :
  Qltb (75 # 100) (first_name_score first_name_lower c) = true ->
  first_name_score first_name_lower c = 1%Q
  \/ first_name_score first_name_lower c = (9 # 10)%Q
  \/ first_name_score first_name_lower c = (8 # 10)%Q.
Proof.
  intros Hpass. apply Qltb_true in Hpass.
  destruct (first_name_score_values first_name_lower c)
    as [[_ Hv] | [[_ Hv] | [[_ Hv] | (_ & _ & _ & _ & Hle)]]]; auto.
  exfalso. apply (Qlt_not_le _ _ Hpass).
  eapply Qle_trans; [exact Hle | discriminate].
Qed.

(** X26.  In the search by the last name only, the first name of a
    candidate passes the threshold exactly when, capitals apart, it is
    the first name that is sought, begins with it or begins it: a first
    name that is merely close in edit distance never passes, however
    close. *)
Theorem first_name_threshold_iff (first_name_lower : string) (c : PatientDict) :
  Qltb (75 # 100) (first_name_score first_name_lower c) = true
  <-> (Py.lower (default "" (p_FName c)) = first_name_lower
       \/ Py.startswith first_name_lower (Py.lower (default "" (p_FName c))) = true
       \/ Py.startswith (Py.lower (default "" (p_FName c))) first_name_lower = true).
Proof.
  destruct (first_name_score_values first_name_lower c)
    as [[He Hv] | [[H1 Hv] | [[H2 Hv] | (He & H1 & H2 & _ & Hle)]]].
  - rewrite Hv. split; [auto | reflexivity].
  - rewrite Hv. split; [auto | reflexivity].
  - rewrite Hv. split; [auto | reflexivity].
  - split.
    + intros Hpass. apply Qltb_true in Hpass. exfalso.
      apply (Qlt_not_le _ _ Hpass). eapply Qle_trans; [exact Hle | discriminate].
    + intros [Hx | [Hx | Hx]]; congruence.
Qed.

Lemma insert_by_score_permutation (x : ScoredEntity) (l : list ScoredEntity) :
  Permutation (insert_by_score x l) (x :: l).
Proof.
  induction l as [|y r IH]; cbn [insert_by_score]; [reflexivity|].
  destruct (Qltb _ _); [|reflexivity].
  rewrite IH. apply perm_swap.
Qed.

Lemma sort_by_score_permutation (l : list ScoredEntity) :
  Permutation (sort_by_score l) l.
Proof.
  induction l as [|x l IH]; cbn; [reflexivity|].
  rewrite insert_by_score_permutation. apply perm_skip. exact IH.
Qed.

Lemma insert_by_score_sorted (x : ScoredEntity) (l : list ScoredEntity) :
  StronglySorted (fun a b => (se_score b <= se_score a)%Q) l ->
  StronglySorted (fun a b => (se_score b <= se_score a)%Q) (insert_by_score x l).
Proof.
  induction l as [|y r IH]; intros Hl; cbn [insert_by_score].
  - repeat constructor.
  - apply StronglySorted_inv in Hl as [Hr Hy].
    destruct (Qltb (se_score x) (se_score y)) eqn:E.
    + apply Qltb_true in E. constructor; [apply IH, Hr|].
      eapply Permutation_Forall; [symmetry; apply insert_by_score_permutation|].
      constructor; [apply Qlt_le_weak, E | exact Hy].
    + apply Qltb_false in E. constructor; [constructor; assumption|].
      constructor; [exact E|].
      eapply List.Forall_impl; [|exact Hy]. cbn beta. intros b Hb.
      eapply Qle_trans; [exact Hb | exact E].
Qed.

Lemma sort_by_score_sorted (l : list ScoredEntity) :
  StronglySorted (fun a b => (se_score b <= se_score a)%Q) (sort_by_score l).
Proof.
  induction l as [|x l IH]; cbn; [constructor|].
  apply insert_by_score_sorted. exact IH.
Qed.

Lemma best_matches_entities (first_name_lower : string) (all : list PatientDict) :
  List.map se_entity (best_matches_of first_name_lower all)
  = List.filter (fun c => Qltb (75 # 100) (first_name_score first_name_lower c)) all.
Proof.
  unfold best_matches_of. induction all as [|c all IH]; [reflexivity|].
  cbn [List.map List.filter se_score].
  destruct (Qltb _ _); cbn [List.map se_entity]; rewrite IH; reflexivity.
Qed.

Lemma best_matches_scores (first_name_lower : string) (all : list PatientDict) :
  Forall (fun m => se_score m = first_name_score first_name_lower (se_entity m)
                   /\ Qltb (75 # 100) (se_score m) = true)
    (best_matches_of first_name_lower all).
Proof.
  unfold best_matches_of. apply List.Forall_forall. intros m Hin.
  apply List.filter_In in Hin as [Hin Hpass]. split; [|exact Hpass].
  apply List.in_map_iff in Hin as (c & <- & _). reflexivity.
Qed.

(** X27.  When the search by the last name only selects a patient, the
    patient is one of the candidates whose first name passes the
    threshold, with both names on record; either no other candidate
    passes, or the first name of the patient is the one that is sought
    and the first name of every other candidate that passes only begins
    it.  Two candidates of the same standing are discarded as
    ambiguous. *)
Theorem first_name_selection (first_name : string) (all : list PatientDict)
    (entities_to_process : reply PatientDict) (e : PatientDict) :
  reply_truthy entities_to_process = false ->
  select_by_first_name first_name all entities_to_process = Some (ReplyList [e]) ->
  exists before after : list PatientDict,
    List.filter (fun c => Qltb (75 # 100) (first_name_score (Py.lower first_name) c)) all
    = (before ++ e :: after)%list
    /\ p_FName e <> None /\ p_LName e <> None
    /\ ((before ++ after)%list = []
        \/ (first_name_score (Py.lower first_name) e = 1%Q
            /\ Forall (fun c => first_name_score (Py.lower first_name) c = (8 # 10)%Q)
                 (before ++ after))).
Proof.
  intros Hfalsy Hsel. unfold select_by_first_name in Hsel. cbn zeta in Hsel.
  set (fl := Py.lower first_name) in *.
  pose proof (sort_by_score_permutation (best_matches_of fl all)) as Hperm.
  pose proof (sort_by_score_sorted (best_matches_of fl all)) as Hsorted.
  pose proof (best_matches_scores fl all) as Hscores.
  pose proof (best_matches_entities fl all) as Hents.
  destruct (sort_by_score (best_matches_of fl all)) as [|best others].
  { injection Hsel as ->. discriminate Hfalsy. }
  assert (Hbest : e = se_entity best /\ p_FName e <> None /\ p_LName e <> None
                  /\ (others = []
                      \/ exists next t, others = next :: t
                           /\ (se_score next + (1 # 10) < se_score best)%Q)).
  { destruct (Qleb (70 # 100) (se_score best));
      [|destruct (p_FName (se_entity best)); discriminate].
    destruct others as [|next t].
    - destruct (p_FName (se_entity best)) eqn:Hf; [|discriminate].
      destruct (p_LName (se_entity best)) eqn:Hl; [|discriminate].
      cbn in Hsel. injection Hsel as <-. rewrite Hf, Hl. repeat split; auto; discriminate.
    - destruct (Qltb (se_score next + (1 # 10)) (se_score best)) eqn:Hgap.
      + destruct (p_FName (se_entity best)) eqn:Hf; [|discriminate].
        destruct (p_LName (se_entity best)) eqn:Hl; [|discriminate].
        cbn in Hsel. injection Hsel as <-. rewrite Hf, Hl.
        apply Qltb_true in Hgap. repeat split; try discriminate. right. eauto.
      + destruct (p_FName (se_entity best)); [|discriminate].
        destruct (p_FName (se_entity next)); discriminate. }
  destruct Hbest as (-> & Hfn & Hln & Hothers).
  assert (Hin : In best (best_matches_of fl all))
    by (eapply Permutation_in; [exact Hperm | left; reflexivity]).
  apply List.in_split in Hin as (p1 & p2 & Hsplit).
  rewrite Hsplit in Hperm, Hents, Hscores.
  apply Permutation_cons_app_inv in Hperm.
  exists (List.map se_entity p1), (List.map se_entity p2).
  rewrite <- Hents, List.map_app. split; [reflexivity|].
  split; [exact Hfn|]. split; [exact Hln|].
  rewrite <- List.map_app.
  destruct Hothers as [-> | (next & t & -> & Hgap)].
  - left. apply Permutation_nil in Hperm. rewrite Hperm. reflexivity.
  - right.
    assert (Hvalues : forall m, In m (p1 ++ best :: p2)%list ->
              se_score m = first_name_score fl (se_entity m)
              /\ (se_score m = 1%Q \/ se_score m = (9 # 10)%Q \/ se_score m = (8 # 10)%Q)).
    { intros m Hm. rewrite List.Forall_forall in Hscores.
      destruct (Hscores m Hm) as [Hs Hpass]. split; [exact Hs|].
      rewrite Hs in Hpass |- *. apply passing_score_values, Hpass. }
    assert (Hrest : forall m, In m (next :: t) -> In m (p1 ++ best :: p2)%list).
    { intros m Hm. apply (Permutation_in _ Hperm) in Hm.
      apply List.in_app_or in Hm. apply List.in_or_app.
      destruct Hm; [left | right; right]; assumption. }
    destruct (Hvalues best ltac:(apply List.in_or_app; right; left; reflexivity))
      as [Hsb Hvb].
    destruct (Hvalues next (Hrest next ltac:(left; reflexivity))) as [_ Hvn].
    assert (Hb1 : se_score best = 1%Q /\ se_score next = (8 # 10)%Q).
    { destruct Hvb as [Hb | [Hb | Hb]], Hvn as [Hn | [Hn | Hn]];
        rewrite Hb, Hn in Hgap; try (exfalso; revert Hgap; vm_compute; congruence);
        auto. }
    destruct Hb1 as [Hb Hn]. split; [rewrite <- Hsb; exact Hb|].
    apply List.Forall_map, List.Forall_forall. intros m Hm.
    apply (Permutation_in _ (Permutation_sym Hperm)) in Hm.
    destruct (Hvalues m (Hrest m Hm)) as [Hs Hv]. rewrite <- Hs.
    destruct Hm as [<- | Hm]; [exact Hn|].
    apply StronglySorted_inv in Hsorted as [Hsorted _].
    apply StronglySorted_inv in Hsorted as [_ Hle].
    rewrite List.Forall_forall in Hle. specialize (Hle m Hm). rewrite Hn in Hle.
    destruct Hv as [Hv | [Hv | Hv]]; [| |exact Hv];
      rewrite Hv in Hle; exfalso; revert Hle; vm_compute; congruence.
Qed.

(** X27 on the Smiths John and J, sought under the first name John. *)
Lemma first_name_selection_witness :
  exists before after : list PatientDict,
    List.filter (fun c => Qltb (75 # 100) (first_name_score (Py.lower "John") c))
      [ {| p_PatNum := Some 8; p_FName := Some "J"; p_LName := Some "Smith" |};
        john_smith ]
    = (before ++ john_smith :: after)%list
    /\ p_FName john_smith <> None /\ p_LName john_smith <> None
    /\ ((before ++ after)%list = []
        \/ (first_name_score (Py.lower "John") john_smith = 1%Q
            /\ Forall (fun c => first_name_score (Py.lower "John") c = (8 # 10)%Q)
                 (before ++ after))).
Proof.
  apply (first_name_selection "John" _ (ReplyList []) john_smith);
    vm_compute; reflexivity.
Defined.

Lemma last_In {A} (l : list A) (d : A) : l <> [] -> In (List.last l d) l.
Proof.
  induction l as [|a l IH]; [congruence|]. intros _.
  destruct l as [|b l]; [left; reflexivity|].
  right. apply IH. discriminate.
Qed.

(** The last part of a last name is one of its parts, capitals apart. *)
Lemma last_part_already_tried (last_name : string) :
  (1 <? List.length (last_name_parts_of last_name))%nat = true ->
  existsb (String.eqb (Py.lower (List.last (last_name_parts_of last_name) "")))
    (List.map Py.lower (last_name_parts_of last_name)) = true.
Proof.
  intros Hlen. apply Nat.ltb_lt in Hlen.
  assert (Hne : last_name_parts_of last_name <> [])
    by (destruct (last_name_parts_of last_name); [cbn in Hlen; lia | discriminate]).
  apply List.existsb_exists. eexists. split; [|apply String.eqb_refl].
  apply List.in_map, last_In, Hne.
Qed.

(** What the choice among the patients of one last name can return. *)
Lemma select_by_first_name_results (first_name : string) (all : list PatientDict)
    (entities_to_process r : reply PatientDict) :
  select_by_first_name first_name all entities_to_process = Some r ->
  r = entities_to_process \/ r = ReplyList [] \/ exists e, r = ReplyList [e].
Proof.
  unfold select_by_first_name. cbn zeta.
  destruct (sort_by_score _) as [|best others]; [intros [= <-]; auto|].
  destruct (Qleb _ _); [|destruct (p_FName (se_entity best)); cbn; intros [= <-]; auto].
  destruct others as [|next t].
  - destruct (p_FName (se_entity best)); [|discriminate].
    destruct (p_LName (se_entity best)); [|discriminate].
    cbn. intros [= <-]. eauto.
  - destruct (Qltb _ _).
    + destruct (p_FName (se_entity best)); [|discriminate].
      destruct (p_LName (se_entity best)); [|discriminate].
      cbn. intros [= <-]. eauto.
    + destruct (p_FName (se_entity best)); [|discriminate].
      destruct (p_FName (se_entity next)); [|discriminate].
      cbn. intros [= <-]. auto.
Qed.

Section EntityDataProperties.
Context `{PyLib} `{Practice}.

(** The answer that the second attempt keeps. *)
Lemma query_last_name_parts_origin (first_name : string) (parts : list string)
    (initial_entities r : reply PatientDict) :
  query_last_name_parts first_name parts initial_entities = Some r ->
  r = initial_entities
  \/ exists part, In part parts
                  /\ patients_simple part (Some first_name) = Some r
                  /\ reply_truthy r = true.
Proof.
  induction parts as [|part rest IH]; cbn [query_last_name_parts].
  - intros [= <-]. auto.
  - destruct (patients_simple part (Some first_name)) as [a|] eqn:Hq; [|discriminate].
    cbn. destruct (reply_truthy a) eqn:Ht.
    + destruct (reply_len a); [|discriminate]. cbn. intros [= <-].
      right. exists part. split; [left; reflexivity | auto].
    + intros Hr. destruct (IH Hr) as [-> | (p & Hp & Hq' & Ht')]; [auto|].
      right. exists p. split; [right; exact Hp | auto].
Qed.

(** X28.  The final attempt of [_get_entity_data], the search by the last
    part of the last name, never sends its request: the last part is one
    of the parts that the second attempt has tried, and the entities are
    left as they were. *)
Theorem last_part_search_sends_nothing (last_name first_name : string)
    (entities_to_process : reply PatientDict) :
  last_part_search last_name first_name (last_name_parts_of last_name)
    entities_to_process
  = Some entities_to_process.
Proof.
  unfold last_part_search. cbn zeta.
  destruct (1 <? List.length (last_name_parts_of last_name))%nat eqn:Hlen;
    [|reflexivity].
  rewrite (last_part_already_tried _ Hlen). reflexivity.
Qed.

(** X29.  The patient that [_get_entity_data] returns is the first record
    of the answer to the request by both names, or to the request by a
    part of the last name and the first name, or the one record that the
    search by the last name only selects; the claims that come with the
    patient are the answer to the request by the number of that
    patient. *)
Theorem entity_data_patient_origin (last_name first_name entity_type : string)
    (e : PatientDict) (claims : reply ApiClaim) :
  _get_entity_data last_name first_name entity_type = PatientEntity e claims ->
  Py.lower entity_type = "patient"
  /\ (exists n : Z, p_PatNum e = Some n /\ claims_of_patient n = Some claims)
  /\ ((exists rest,
         patients_simple last_name (Some first_name) = Some (ReplyList (e :: rest)))
      \/ (exists part rest,
            In part (last_name_parts_of last_name)
            /\ patients_simple part (Some first_name) = Some (ReplyList (e :: rest)))
      \/ (exists all fallback,
            patients_simple last_name None = Some (ReplyList all)
            /\ reply_truthy fallback = false
            /\ select_by_first_name first_name all fallback = Some (ReplyList [e]))).
Proof.
  unfold _get_entity_data, get_entity_data_in_try. cbn zeta.
  destruct (negb (nonblank first_name) || negb (nonblank last_name)); [discriminate|].
  destruct (patients_simple last_name (Some first_name)) as [r1|] eqn:Hq1; [|discriminate].
  cbn [mbind option_bind].
  match goal with
  | |- default _ (?m ≫= _) = _ -> _ => destruct m as [r2|] eqn:H2; [|discriminate]
  end.
  cbn [mbind option_bind].
  match goal with
  | |- default _ (?m ≫= _) = _ -> _ => destruct m as [r3|] eqn:H3; [|discriminate]
  end.
  cbn [mbind option_bind].
  match goal with
  | |- default _ (?m ≫= _) = _ -> _ => destruct m as [r4|] eqn:H4; [|discriminate]
  end.
  cbn [mbind option_bind].
  assert (Hr4 : r4 = r3).
  { destruct (_ && _) in H4; [|congruence].
    unfold last_part_search in H4. cbn zeta in H4.
    destruct (1 <? List.length (last_name_parts_of last_name))%nat eqn:Hlen;
      [|congruence].
    rewrite (last_part_already_tried _ Hlen) in H4. cbn in H4. congruence. }
  subst r4. clear H4.
  destruct (reply_truthy r3) eqn:Ht3; cbn [negb]; [|discriminate].
  destruct r3 as [[|e0 rest]|t s]; try discriminate.
  cbn [head mbind option_bind].
  destruct (p_PatNum e0) as [n|] eqn:Hn; [|discriminate].
  cbn [mbind option_bind].
  destruct (String.eqb (Py.lower entity_type) "patient") eqn:Hty.
  2:{ destruct (inssubs_of_subscriber n) as [i|]; [|discriminate]. cbn [mbind option_bind].
      destruct (reply_len i); [|discriminate]. cbn [mbind option_bind].
      destruct (negb (reply_truthy i)); [discriminate|].
      destruct i as [l|? ?]; [|discriminate].
      destruct (head l); [|discriminate]. cbn [mbind option_bind].
      destruct (first_active_inssub l); [|discriminate]. cbn [mbind option_bind].
      destruct (ir_InsSubNum _); discriminate. }
  destruct (claims_of_patient n) as [cl|] eqn:Hcl; [|discriminate].
  cbn [mbind option_bind].
  destruct (reply_len cl); [|discriminate]. cbn [mbind option_bind default].
  intros [= -> ->].
  split; [apply String.eqb_eq, Hty|]. split; [eauto|].
  assert (Horigin2 : r2 = r1
                     \/ exists part, In part (last_name_parts_of last_name)
                                     /\ patients_simple part (Some first_name) = Some r2
                                     /\ reply_truthy r2 = true).
  { destruct (_ && _) in H2; [|left; congruence].
    destruct (1 <? _)%nat in H2; [|left; congruence].
    apply query_last_name_parts_origin in H2. exact H2. }
  destruct (negb (reply_truthy r2) && Py.truthy first_name) eqn:Hguard.
  - apply andb_prop in Hguard as [Hfalsy _]. apply negb_true_iff in Hfalsy.
    unfold last_name_only_search in H3.
    destruct (patients_simple last_name None) as [a|] eqn:Hq3; [|discriminate].
    cbn [mbind option_bind] in H3.
    destruct (reply_truthy a).
    + destruct a as [all|? ?]; [|discriminate].
      destruct (select_by_first_name_results _ _ _ _ H3) as [Hr | [Hr | (e1 & Hr)]].
      * rewrite <- Hr in Hfalsy. discriminate.
      * discriminate.
      * injection Hr as <- <-. right. right. exists all, r2. auto.
    + injection H3 as ->. discriminate.
  - injection H3 as ->.
    destruct Horigin2 as [<- | (part & Hp & Hq & _)]; [left | right; left]; eauto.
Qed.

(** What the generator of the subscriptions yields. *)
Lemma first_active_inssub_cases (inssubs : list InsSubRecord) :
  match first_active_inssub inssubs with
  | Some (Some sub) => In sub inssubs /\ inssub_in_force sub
  | Some None => Forall (fun sub => ~ inssub_in_force sub) inssubs
  | None => True
  end.
Proof.
  induction inssubs as [|sub rest IH]; cbn [first_active_inssub]; [constructor|].
  destruct (ir_DateTerm sub) as [dt|] eqn:Hdt; [|exact I]. cbn [mbind option_bind].
  destruct (String.eqb dt "0001-01-01") eqn:Hnone.
  { apply String.eqb_eq in Hnone. split; [left; reflexivity|]. exists dt. auto. }
  apply String.eqb_neq in Hnone.
  destruct (strptime_date dt) as [d|] eqn:Hd; [|exact I]. cbn [mbind option_bind].
  destruct (date_ltb today d) eqn:Hlt.
  { split; [left; reflexivity|]. exists dt. split; [exact Hdt|]. right. eauto. }
  destruct (first_active_inssub rest) as [[found|]|]; [| |exact I].
  - destruct IH as [Hin Hforce]. split; [right; exact Hin | exact Hforce].
  - constructor; [|exact IH].
    intros (dt' & Hdt' & [-> | (d' & Hd' & Hlt')]); congruence.
Qed.

(** X30.  The subscription that [_get_entity_data] returns with a
    subscriber is one of the subscriptions of the answer and carries its
    number; it is in force, without a term or with a term after today,
    unless no subscription of the answer is, and then it is the first
    one. *)
Theorem subscriber_inssub_choice (last_name first_name entity_type : string)
    (e : PatientDict) (sub : InsSubRecord) :
  _get_entity_data last_name first_name entity_type = SubscriberEntity e (Some sub) ->
  exists (n : Z) (inssubs : list InsSubRecord),
    p_PatNum e = Some n
    /\ inssubs_of_subscriber n = Some (ReplyList inssubs)
    /\ In sub inssubs
    /\ ir_InsSubNum sub <> None
    /\ (inssub_in_force sub
        \/ (head inssubs = Some sub
            /\ Forall (fun other => ~ inssub_in_force other) inssubs)).
Proof.
  unfold _get_entity_data, get_entity_data_in_try. cbn zeta.
  destruct (negb (nonblank first_name) || negb (nonblank last_name)); [discriminate|].
  destruct (patients_simple last_name (Some first_name)) as [r1|]; [|discriminate].
  cbn [mbind option_bind].
  do 3 (match goal with
        | |- default _ (?m ≫= _) = _ -> _ => destruct m as [?|]; [|discriminate]
        end; cbn [mbind option_bind]).
  destruct (negb (reply_truthy _)); [discriminate|].
  match goal with
  | |- default _ (?m ≫= _) = _ -> _ => destruct m as [e0|]; [|discriminate]
  end.
  cbn [mbind option_bind].
  destruct (p_PatNum e0) as [n|] eqn:Hn; [|discriminate]. cbn [mbind option_bind].
  destruct (String.eqb (Py.lower entity_type) "patient").
  { destruct (claims_of_patient n); [|discriminate]. cbn [mbind option_bind].
    destruct (reply_len _); discriminate. }
  destruct (inssubs_of_subscriber n) as [i|] eqn:Hi; [|discriminate].
  cbn [mbind option_bind].
  destruct (reply_len i); [|discriminate]. cbn [mbind option_bind].
  destruct (negb (reply_truthy i)); [discriminate|].
  destruct i as [l|? ?]; [|discriminate].
  destruct (head l) as [first_inssub|] eqn:Hhead; [|discriminate].
  cbn [mbind option_bind].
  pose proof (first_active_inssub_cases l) as Hcases.
  destruct (first_active_inssub l) as [found|]; [|discriminate].
  cbn [mbind option_bind].
  destruct (ir_InsSubNum (default first_inssub found)) as [num|] eqn:Hnum; [|discriminate].
  cbn [mbind option_bind default]. intros [= -> <-].
  exists n, l. split; [exact Hn|]. split; [exact Hi|].
  destruct found as [found|]; cbn [default] in *.
  - destruct Hcases as [Hin Hforce]. rewrite Hnum. repeat split; auto; discriminate.
  - split; [destruct l; [discriminate | injection Hhead as <-; left; reflexivity]|].
    rewrite Hnum. split; [discriminate|]. right. auto.
Qed.

End EntityDataProperties.

(** X29 on the practice of the Smiths, sought under the name John Smith. *)
Lemma entity_data_patient_origin_witness :
  exists claims : reply ApiClaim,
    @_get_entity_data prefix_lib smith_practice "Smith" "John" "patient"
    = PatientEntity john_smith claims
    /\ (exists n : Z,
          p_PatNum john_smith = Some n
          /\ @claims_of_patient smith_practice n = Some claims).
Proof.
  assert (Hrun : exists claims,
             @_get_entity_data prefix_lib smith_practice "Smith" "John" "patient"
             = PatientEntity john_smith claims)
    by (vm_compute; eexists; reflexivity).
  destruct Hrun as [claims Hrun]. exists claims. split; [exact Hrun|].
  exact (proj1 (proj2 (@entity_data_patient_origin prefix_lib smith_practice
                         "Smith" "John" "patient" john_smith claims Hrun))).
Defined.

(** X30 on a subscriber whose first subscription has ended. *)
Lemma subscriber_inssub_choice_witness :
  exists (sub : InsSubRecord) (n : Z) (inssubs : list InsSubRecord),
    @_get_entity_data prefix_lib subscriber_practice "Smith" "John" "subscriber"
    = SubscriberEntity john_smith (Some sub)
    /\ ir_InsSubNum sub = Some 12
    /\ p_PatNum john_smith = Some n
    /\ @inssubs_of_subscriber subscriber_practice n = Some (ReplyList inssubs)
    /\ In sub inssubs
    /\ ir_InsSubNum sub <> None
    /\ (@inssub_in_force prefix_lib subscriber_practice sub
        \/ (head inssubs = Some sub
            /\ Forall (fun other => ~ @inssub_in_force prefix_lib subscriber_practice other)
                 inssubs)).
Proof.
  assert (Hrun : exists sub,
             @_get_entity_data prefix_lib subscriber_practice "Smith" "John" "subscriber"
             = SubscriberEntity john_smith (Some sub)
             /\ ir_InsSubNum sub = Some 12)
    by (vm_compute; eexists; split; reflexivity).
  destruct Hrun as (sub & Hrun & Hnum).
  destruct (@subscriber_inssub_choice prefix_lib subscriber_practice
              "Smith" "John" "subscriber" john_smith sub Hrun)
    as (n & inssubs & Hres).
  exists sub, n, inssubs. split; [exact Hrun|]. split; [exact Hnum | exact Hres].
Defined.
